(** * yt-high-quality-downloader: a shallow embedding of [downloader.py] and [app.py]

    The development follows the two source files:
    - [Py]: the Python values the code manipulates (text, exceptions);
    - [Pathlib]: the [pathlib] operations the code calls;
    - [Resolver]: [_find_winget_ffmpeg] and [_resolve_external_tools];
    - [Downloader]: [_format_status], [build_downloader] and
      [download_highest_quality];
    - [App]: the background sweeper, the [/download] handler and the
      post-response deleter.

    External collaborators (the extraction engine, the operating system, the
    web framework) are oracles: fields of an environment record over which
    every theorem quantifies. *)

From Stdlib Require Import String Ascii NArith ZArith.
From stdpp Require Import base decidable option list numbers gmap lexico sorting.

(** ** Python values *)

Module Py.

(** A Python [str] is a sequence of Unicode code points. *)
Definition str : Type := list N.

(** A literal of the source, written as a Rocq string of ASCII characters. *)
Definition py (s : string) : str := N_of_ascii <$> list_ascii_of_string s.
Arguments py s%_string : simpl never.

(** [str.isspace] for one code point: the table CPython's [strip] uses. *)
Definition is_space (c : N) : bool :=
  ((9 <=? c) && (c <=? 13) || (28 <=? c) && (c <=? 32)
   || (c =? 133) || (c =? 160) || (c =? 5760)
   || (8192 <=? c) && (c <=? 8202)
   || (c =? 8232) || (c =? 8233) || (c =? 8239) || (c =? 8287)
   || (c =? 12288))%N.

Fixpoint lstrip (s : str) : str :=
  match s with
  | c :: s' => if is_space c then lstrip s' else s
  | [] => []
  end.

Definition rstrip (s : str) : str := reverse (lstrip (reverse s)).

(** [s.strip()] *)
Definition strip (s : str) : str := rstrip (lstrip s).

(** [s.lower()] and [s.upper()] on the ASCII letters.  The source only
    compares the results with the ASCII literals ["ffmpeg"] and
    ["ETA UNKNOWN"]; no code point outside ASCII has a lower (upper) case
    form made of letters of these literals, so the comparisons come out as in
    Python. *)
Definition lower_char (c : N) : N :=
  if ((65 <=? c) && (c <=? 90))%N then (c + 32)%N else c.
Definition upper_char (c : N) : N :=
  if ((97 <=? c) && (c <=? 122))%N then (c - 32)%N else c.
Definition lower (s : str) : str := lower_char <$> s.
Definition upper (s : str) : str := upper_char <$> s.

Fixpoint startswith (s pre : str) : bool :=
  match pre, s with
  | [], _ => true
  | p :: pre', c :: s' => (p =? c)%N && startswith s' pre'
  | _ :: _, [] => false
  end.

(** [sub in s] *)
Fixpoint contains (sub s : str) : bool :=
  startswith s sub ||
  match s with
  | [] => false
  | _ :: s' => contains sub s'
  end.

(** [sep.join(parts)] *)
Fixpoint join (sep : str) (parts : list str) : str :=
  match parts with
  | [] => []
  | [p] => p
  | p :: rest => p ++ sep ++ join sep rest
  end.

(** Truthiness of an optional text: [None] and [""] are falsy. *)
Definition truthy (o : option str) : bool :=
  match o with
  | Some (_ :: _) => true
  | _ => false
  end.

(** [o or ""] *)
Definition or_empty (o : option str) : str :=
  match o with
  | Some s => s
  | None => []
  end.

(** The [OSError] family, by cause. [FileNotFoundError] is [OSError ENOENT]. *)
Inductive os_kind := ENOENT | EACCES | EEXIST | EIO.

#[global] Instance os_kind_eq_dec : EqDecision os_kind.
Proof. solve_decision. Defined.

(** The exceptions that travel through the two files. *)
Inductive exn :=
| DownloadError (msg : str)          (* yt_dlp.utils.DownloadError *)
| OSError (k : os_kind) (msg : str)
| ValueError (msg : str)
| HTTPException (code : Z) (description : str)   (* raised by flask.abort *)
| OtherException (msg : str).

Definition FileNotFoundError (msg : str) : exn := OSError ENOENT msg.

(** [isinstance(e, OSError)] and [isinstance(e, FileNotFoundError)] *)
Definition is_OSError (e : exn) : bool :=
  match e with OSError _ _ => true | _ => false end.
Definition is_FileNotFoundError (e : exn) : bool :=
  match e with OSError ENOENT _ => true | _ => false end.

(** [str(e)] *)
Definition str_of_exn (e : exn) : str :=
  match e with
  | DownloadError m | OSError _ m | ValueError m | HTTPException _ m
  | OtherException m => m
  end.

(** A computation that returns or raises. *)
Inductive result (A : Type) :=
| Ok (a : A)
| Raise (e : exn).
Arguments Ok {A} a.
Arguments Raise {A} e.

Definition bind {A B} (r : result A) (k : A -> result B) : result B :=
  match r with
  | Ok a => k a
  | Raise e => Raise e
  end.

End Py.

Export Py.

Declare Scope py_scope.
Delimit Scope py_scope with py_scope.
Notation "'let?' x ':=' c 'in' k" := (Py.bind c (fun x => k))
  (at level 10, x pattern, c at level 100, k at level 200) : py_scope.
Open Scope py_scope.

(** ** State and exceptions

    A stateful computation that returns or raises; a raise keeps the effects
    made before it. *)

Module Effects.

Definition SM (S A : Type) : Type := S -> result A * S.

Section state.
Context {S : Type}.

Definition ret {A} (a : A) : SM S A := fun w => (Ok a, w).
Definition raise {A} (e : exn) : SM S A := fun w => (Raise e, w).
Definition bindM {A B} (m : SM S A) (k : A -> SM S B) : SM S B :=
  fun w => match m w with
           | (Ok a, w') => k a w'
           | (Raise e, w') => (Raise e, w')
           end.
Definition lift {A} (r : result A) : SM S A := fun w => (r, w).
Definition get : SM S S := fun w => (Ok w, w).
Definition modify (f : S -> S) : SM S unit := fun w => (Ok tt, f w).

(** [try: m except Exception as e: h e] *)
Definition try_except {A} (m : SM S A) (h : exn -> SM S A) : SM S A :=
  fun w => match m w with
           | (Raise e, w') => h e w'
           | r => r
           end.
End state.

End Effects.

Export Effects.

Declare Scope sm_scope.
Delimit Scope sm_scope with sm.
Notation "x <- c ;; k" := (bindM c (fun x => k))
  (at level 100, c at next level, right associativity) : sm_scope.
Notation "c ;; k" := (bindM c (fun _ => k))
  (at level 100, right associativity) : sm_scope.
Open Scope sm_scope.

Module Loops.

(** [for x in l: f x] *)
Fixpoint for_each {S A} (f : A -> SM S unit) (l : list A) : SM S unit :=
  match l with
  | [] => ret tt
  | x :: l' => f x;; for_each f l'
  end.

End Loops.

Export Loops.

(** ** pathlib *)

Module Pathlib.

(** A path: its anchor (empty for a relative path) and its components. *)
Record Path := mkPath { anchor : str; parts : list str }.

#[global] Instance Path_eq_dec : EqDecision Path.
Proof. solve_decision. Defined.

Definition slash : N := 47.
Definition dot : N := 46.

(** Components of a path text: split at ['/'], dropping empty and ['.']
    components (the POSIX flavour's parser). *)
Fixpoint split_parts (cur : str) (s : str) : list str :=
  let flush (rest : list str) :=
    if bool_decide (cur = []) || bool_decide (cur = [dot]) then rest
    else reverse cur :: rest in
  match s with
  | [] => flush []
  | c :: s' =>
      if (c =? slash)%N then flush (split_parts [] s')
      else split_parts (c :: cur) s'
  end.

(** [Path(s)] *)
Definition Path_of_str (s : str) : Path :=
  {| anchor := if startswith s [slash] then [slash] else [];
     parts := split_parts [] s |}.

(** [str(p)] *)
Definition str_of_Path (p : Path) : str :=
  match anchor p, parts p with
  | [], [] => [dot]
  | a, ps => a ++ join [slash] ps
  end.

(** [p.name]: the final component, empty when there is none. *)
Definition name (p : Path) : str := default [] (last (parts p)).

(** [p.parent] *)
Definition parent (p : Path) : Path :=
  {| anchor := anchor p; parts := removelast (parts p) |}.

(** [p / child] for a one-component child *)
Definition joinpath (p : Path) (child : str) : Path :=
  {| anchor := anchor p; parts := parts p ++ [child] |}.

(** [p / a / b / ...] *)
Definition under (p : Path) (names : list str) : Path :=
  {| anchor := anchor p; parts := parts p ++ names |}.

(** [s.rfind(".")]: the index of the last dot. *)
Fixpoint rfind_dot (s : str) : option nat :=
  match s with
  | [] => None
  | c :: s' =>
      match rfind_dot s' with
      | Some i => Some (S i)
      | None => if (c =? dot)%N then Some 0 else None
      end
  end.

(** [p.suffix]: from the last dot of the name, unless that dot is the first
    or the last character. *)
Definition suffix (p : Path) : str :=
  let n := name p in
  match rfind_dot n with
  | Some i => if (0 <? i) && (i <? length n - 1) then drop i n else []
  | None => []
  end.

(** [p.with_name(n)]: raises [ValueError] on a path without a name. *)
Definition with_name (p : Path) (n : str) : result Path :=
  if bool_decide (name p = []) then Raise (ValueError (py "empty name"))
  else Ok {| anchor := anchor p; parts := removelast (parts p) ++ [n] |}.

(** [p.with_suffix(sfx)] for a well-formed suffix such as [".mp4"]. *)
Definition with_suffix (p : Path) (sfx : str) : result Path :=
  let n := name p in
  if bool_decide (n = []) then Raise (ValueError (py "empty name"))
  else
    let old := suffix p in
    let n' := take (length n - length old) n ++ sfx in
    Ok {| anchor := anchor p; parts := removelast (parts p) ++ [n'] |}.

End Pathlib.

Export Pathlib.

(** ** downloader.py: locating ffmpeg and ffprobe *)

Module Resolver.

(** What the resolver reads from the host. *)
Record Host := {
  which : str -> option str;     (* shutil.which(tool) *)
  home : Path;                   (* Path.home() *)
  resolve : Path -> Path;        (* p.resolve() *)
  exists_ : Path -> bool;        (* p.exists() *)
  is_dir : Path -> bool;         (* p.is_dir() *)
  scandir : Path -> list str;    (* entry names of a directory, in the order
                                    the system lists them *)
}.

(** The order [sorted] uses on paths: their components, compared text by
    text and code point by code point. *)
Definition cparts (p : Path) : list str :=
  match anchor p with
  | [] => parts p
  | a => a :: parts p
  end.

Definition path_ltb (x y : Path) : bool :=
  match trichotomyT lexico (cparts x) (cparts y) with
  | inleft (left _) => true
  | _ => false
  end.

(** [sorted(l, reverse=True)]: descending, equal elements in their original
    order. *)
Fixpoint insert_desc (x : Path) (l : list Path) : list Path :=
  match l with
  | [] => [x]
  | y :: l' => if path_ltb x y then y :: insert_desc x l' else x :: y :: l'
  end.

Definition sorted_reverse (l : list Path) : list Path := foldr insert_desc [] l.

(** [base.glob(prefix + "*")]: the entries of [base] whose name starts with
    the prefix. *)
Definition glob_prefix (h : Host) (base : Path) (pre : str) : list Path :=
  joinpath base <$> List.filter (fun n => startswith n pre) (scandir h base).

(** [package_dir.glob("ffmpeg*/bin/ffmpeg.exe")]: directories named
    [ffmpeg*], then the literal components. *)
Definition glob_ffmpeg_exe (h : Host) (package_dir : Path) : list Path :=
  let dirs :=
    List.filter (is_dir h) (glob_prefix h package_dir (py "ffmpeg")) in
  let bins := List.filter (is_dir h) ((fun d => joinpath d (py "bin")) <$> dirs) in
  List.filter (exists_ h) ((fun b => joinpath b (py "ffmpeg.exe")) <$> bins).

Definition winget_base (h : Host) : Path :=
  joinpath (joinpath (joinpath (joinpath (joinpath (home h)
    (py "AppData")) (py "Local")) (py "Microsoft")) (py "WinGet")) (py "Packages").

(** The companion probe next to a located ffmpeg:
    [ffmpeg_path.with_name("ffprobe.exe")], kept only if it exists. *)
Definition probe_beside (h : Host) (ffmpeg_path : Path) : result (option Path) :=
  let? candidate := with_name ffmpeg_path (py "ffprobe.exe") in
  Ok (if exists_ h candidate then Some candidate else None).

(** The loop of [_find_winget_ffmpeg] over the sorted package directories:
    the first inner match ends the search. *)
Fixpoint find_in_packages (h : Host) (package_dirs : list Path)
  : result (option Path * option Path) :=
  match package_dirs with
  | [] => Ok (None, None)
  | package_dir :: rest =>
      match glob_ffmpeg_exe h package_dir with
      | ffmpeg_path :: _ =>
          let ffmpeg_path := resolve h ffmpeg_path in
          let? ffprobe_path := probe_beside h ffmpeg_path in
          Ok (Some ffmpeg_path, ffprobe_path)
      | [] => find_in_packages h rest
      end
  end.

Definition _find_winget_ffmpeg (h : Host) : result (option Path * option Path) :=
  let base := winget_base h in
  if negb (exists_ h base) then Ok (None, None)
  else find_in_packages h (sorted_reverse (glob_prefix h base (py "Gyan.FFmpeg"))).

(** [Path(b).resolve() if b else None] *)
Definition resolved_binary (h : Host) (b : option str) : option Path :=
  if truthy b then Some (resolve h (Path_of_str (or_empty b))) else None.

Definition FFMPEG_BINARY (h : Host) : option str := which h (py "ffmpeg").
Definition FFPROBE_BINARY (h : Host) : option str := which h (py "ffprobe").
Definition ARIA2C_EXECUTABLE (h : Host) : option str := which h (py "aria2c").

Definition common_ffmpeg : Path := Path_of_str (py "C:/ffmpeg/bin/ffmpeg.exe").

(** The branch shared by the search-path hit and the fixed location: keep a
    probe already found, else look beside ffmpeg. *)
Definition with_probe (h : Host) (ffmpeg_path : Path) (ffprobe_path : option Path)
  : result (option Path * option Path) :=
  match ffprobe_path with
  | Some _ => Ok (Some ffmpeg_path, ffprobe_path)
  | None =>
      let? candidate := probe_beside h ffmpeg_path in
      Ok (Some ffmpeg_path, candidate)
  end.

(** What [_resolve_external_tools] does once the search path gave no usable
    ffmpeg: the WinGet tree, then the fixed location, then absence. *)
Definition resolve_installed (h : Host) (ffprobe_path : option Path)
  : result (option Path * option Path) :=
  let? w := _find_winget_ffmpeg h in
  match w with
  | (Some winget_ffmpeg, winget_ffprobe) => Ok (Some winget_ffmpeg, winget_ffprobe)
  | (None, _) =>
      if exists_ h common_ffmpeg
      then with_probe h (resolve h common_ffmpeg) ffprobe_path
      else Ok (None, ffprobe_path)
  end.

Definition _resolve_external_tools (h : Host) : result (option Path * option Path) :=
  let ffmpeg_path := resolved_binary h (FFMPEG_BINARY h) in
  let ffprobe_path := resolved_binary h (FFPROBE_BINARY h) in
  match ffmpeg_path with
  | Some f =>
      if exists_ h f then with_probe h f ffprobe_path
      else resolve_installed h ffprobe_path
  | None => resolve_installed h ffprobe_path
  end.

(** *** Vocabulary for the statements about the resolver *)

(** The search path gives a usable ffmpeg: line 50. *)
Definition on_search_path (h : Host) : option Path :=
  match resolved_binary h (FFMPEG_BINARY h) with
  | Some f => if exists_ h f then Some f else None
  | None => None
  end.

Definition packages (h : Host) : list Path :=
  glob_prefix h (winget_base h) (py "Gyan.FFmpeg").

(** [x] does not come before [y]: the order [sorted(reverse=True)] leaves
    between neighbours. *)
Definition not_before (x y : Path) : Prop := path_ltb x y = false.

(** [package_dir] holds [found] and no matching package directory that holds
    an ffmpeg comes after it in the order of [sorted]. *)
Definition winget_choice (h : Host) (package_dir found : Path) : Prop :=
  exists_ h (winget_base h) = true /\
  package_dir ∈ packages h /\
  head (glob_ffmpeg_exe h package_dir) = Some found /\
  forall other, other ∈ packages h -> glob_ffmpeg_exe h other <> [] ->
    path_ltb package_dir other = false.

Definition winget_empty (h : Host) : Prop :=
  exists_ h (winget_base h) = false \/
  forall package_dir, package_dir ∈ packages h -> glob_ffmpeg_exe h package_dir = [].

(** *** The resolver in terms of what the host answers *)

(** A tool as the search path gives it: what [shutil.which] reports, unless
    it is empty, with its links resolved. *)
Definition on_path (h : Host) (tool : string) : option Path :=
  match which h (py tool) with
  | Some (c :: s) => Some (resolve h (Path_of_str (c :: s)))
  | _ => None
  end.

(** The [ffprobe.exe] in the directory of [f], if there is one. *)
Definition beside (h : Host) (f : Path) : option Path :=
  let candidate := under (parent f) [py "ffprobe.exe"] in
  if exists_ h candidate then Some candidate else None.

(** The probe returned with an ffmpeg of the search path or of the fixed
    location: the one of the search path, else the one beside that ffmpeg. *)
Definition kept_or_beside (h : Host) (f : Path) : option Path :=
  match on_path h "ffprobe" with
  | Some probe => Some probe
  | None => beside h f
  end.

Definition winget_packages (h : Host) : Path :=
  under (home h) [py "AppData"; py "Local"; py "Microsoft"; py "WinGet"; py "Packages"].

(** The ffmpeg of the version directory [d] of the package directory [n]. *)
Definition installed_at (h : Host) (n d : str) : Path :=
  under (winget_packages h) [n; d; py "bin"; py "ffmpeg.exe"].

(** [d] is a version directory of the package directory [n] with an ffmpeg:
    a match of [ffmpeg*/bin/ffmpeg.exe]. *)
Definition holds_ffmpeg (h : Host) (n d : str) : bool :=
  startswith d (py "ffmpeg")
  && is_dir h (under (winget_packages h) [n; d])
  && is_dir h (under (winget_packages h) [n; d; py "bin"])
  && exists_ h (installed_at h n d).

(** The first such directory in the order the system lists the package
    directory. *)
Definition first_version (h : Host) (n : str) : option str :=
  head (List.filter (holds_ffmpeg h n) (scandir h (under (winget_packages h) [n]))).

(** The answer of the WinGet tree: the package directory [n], named
    [Gyan.FFmpeg*], holds an ffmpeg and no other such directory has a name
    after [n] in the order of the code points; [d] is the first version
    directory of [n] with an ffmpeg. *)
Definition winget_pick (h : Host) (n d : str) : Prop :=
  exists_ h (winget_packages h) = true
  /\ n ∈ scandir h (winget_packages h)
  /\ startswith n (py "Gyan.FFmpeg") = true
  /\ first_version h n = Some d
  /\ forall n', n' ∈ scandir h (winget_packages h) ->
       startswith n' (py "Gyan.FFmpeg") = true ->
       is_Some (first_version h n') -> ~ lexico n n'.

Definition winget_none (h : Host) : Prop :=
  exists_ h (winget_packages h) = false
  \/ forall n, n ∈ scandir h (winget_packages h) ->
       startswith n (py "Gyan.FFmpeg") = true -> first_version h n = None.

Definition fixed_location : Path := Path_of_str (py "C:/ffmpeg/bin/ffmpeg.exe").

(** The search path gives no ffmpeg that exists. *)
Definition off_path (h : Host) : Prop :=
  forall f, on_path h "ffmpeg" = Some f -> exists_ h f = false.

(** The paths the resolver may take for ffmpeg: what [which] reports, if it
    exists once resolved; the matches of the globs in the WinGet tree; the
    fixed location, if it exists. *)
Definition candidate (h : Host) (c : Path) : Prop :=
  (exists s, which h (py "ffmpeg") = Some s /\ s <> [] /\ c = Path_of_str s
             /\ exists_ h (resolve h c) = true)
  \/ (exists n d, n ∈ scandir h (winget_packages h)
                  /\ startswith n (py "Gyan.FFmpeg") = true
                  /\ d ∈ scandir h (under (winget_packages h) [n])
                  /\ holds_ffmpeg h n d = true
                  /\ c = installed_at h n d)
  \/ (c = fixed_location /\ exists_ h fixed_location = true).

(** Each of them is still the path of a file once its links are resolved:
    it has a final component. *)
Definition located_named (h : Host) : Prop :=
  forall c, candidate h c -> name (resolve h c) <> [].

End Resolver.

(** ** downloader.py: the orchestrator *)

Module Downloader.

(** The module-level tool locations, read once at import. *)
Record Tools := {
  ARIA2C_EXECUTABLE : option str;
  RESOLVED_FFMPEG : option Path;
  RESOLVED_FFPROBE : option Path;
}.

Record postprocessor := { key : str; preferedformat : option str }.

(** The configuration dictionary handed to [yt_dlp.YoutubeDL]; a key that
    may be missing is an [option], a list-valued key defaults to [[]]. *)
Record ydl_opts := {
  format : str;
  noplaylist : bool;
  outtmpl : str;
  quiet : bool;
  no_warnings : bool;
  no_color : bool;
  concurrent_fragment_downloads : Z;
  continuedl : bool;
  retries : Z;
  fragment_retries : Z;
  http_chunk_size : Z;
  merge_output_format : option str;
  postprocessors : list postprocessor;
  postprocessor_args : list str;
  ffmpeg_location : option str;
  ffprobe_location : option str;
  external_downloader : option str;
  external_downloader_args : list str;
}.

(** A status record the engine passes to the progress hooks. *)
Record Status := {
  status : option str;
  _percent_str : option str;
  _speed_str : option str;
  _eta_str : option str;
}.

(** The engine's result dictionary, as far as the code reads it. *)
Record Item := { filepath : option str }.
Record Info := { requested_downloads : option (list Item) }.

(** One invocation of the engine ([extract_info] followed by
    [prepare_filename]): the status records it reports, how it ends, and the
    files present when it ends. *)
Record engine_run := {
  emitted : list Status;
  outcome : result (Info * str);
  files_after : Path -> bool;
}.

Record Env := {
  tools : Tools;
  mkdir : Path -> option os_kind;
      (* output_dir.mkdir(parents=True, exist_ok=True): the error, if any *)
  engine : nat -> ydl_opts -> str -> engine_run;
      (* the n-th invocation (from 0) with this configuration and URL *)
}.

(** What a call can change: the files on disk, the messages handed to the
    caller's progress sink, the engine invocations made, and the local
    [last_report] shared by the [printer] closures. *)
Record World := {
  disk : Path -> bool;
  delivered : list str;
  invocations : list ydl_opts;
  last_report : option str;
}.

Definition M (A : Type) : Type := SM World A.

(** Calling the caller's progress sink. *)
Definition progress_sink (message : str) : M unit :=
  modify (fun w => {| disk := disk w; delivered := delivered w ++ [message];
                      invocations := invocations w; last_report := last_report w |}).

Definition get_last_report : M (option str) := w <- get;; ret (last_report w).
Definition set_last_report (o : option str) : M unit :=
  modify (fun w => {| disk := disk w; delivered := delivered w;
                      invocations := invocations w; last_report := o |}).
Definition path_exists (p : Path) : M bool := w <- get;; ret (disk w p).

Definition FAST_concurrent_fragment_downloads : Z := 10.
Definition FAST_retries : Z := 10.
Definition FAST_fragment_retries : Z := 10.
Definition FAST_http_chunk_size : Z := 10 * 1024 * 1024.

Definition nonempty (s : str) : bool := negb (bool_decide (s = [])).

Definition _format_status (percent speed eta : option str) : str :=
  let percent := strip (or_empty percent) in
  let speed := strip (or_empty speed) in
  let eta := strip (or_empty eta) in
  let parts := [] in
  let parts := if nonempty percent then parts ++ [percent] else parts in
  let parts := if nonempty speed then parts ++ [speed] else parts in
  let parts :=
    if nonempty eta && negb (bool_decide (upper eta = py "ETA UNKNOWN"))
    then parts ++ [py "ETA " ++ eta] else parts in
  join (py " | ") parts.

(** The closure [hook] of [build_downloader]. *)
Definition hook (progress_callback : option (str -> M unit)) (st : Status) : M unit :=
  if bool_decide (status st = Some (py "downloading")) then
    let message := _format_status (_percent_str st) (_speed_str st) (_eta_str st) in
    match progress_callback with
    | Some cb => if nonempty message then cb message else ret tt
    | None => ret tt
    end
  else if bool_decide (status st = Some (py "finished")) then
    match progress_callback with
    | Some cb => cb (py "Download finished, processing...")
    | None => ret tt
    end
  else ret tt.

(** The object [build_downloader] returns: its options and its hooks. *)
Record YoutubeDL := {
  opts : ydl_opts;
  progress_hooks : list (Status -> M unit);
}.

Definition default_format_selector : str :=
  py "bv*[ext=mp4]+ba[ext=m4a]/bestvideo[ext=mp4]+bestaudio[ext=m4a]/best[ext=mp4]/best".

Definition ffmpeg_missing_message : str :=
  py "ffmpeg executable not found. Install ffmpeg and ensure it is on PATH to merge high-quality streams.".

Definition build_downloader (env : Env) (output_dir : Path)
    (progress_callback : option (str -> M unit))
    (format_selector : str) (merge_to_mp4 : bool) : result YoutubeDL :=
  let? _ := match mkdir env output_dir with
            | Some k => Raise (OSError k (str_of_Path output_dir))
            | None => Ok tt
            end in
  let t := tools env in
  let merging := merge_to_mp4 && bool_decide (is_Some (RESOLVED_FFMPEG t)) in
  if merge_to_mp4 && negb (bool_decide (is_Some (RESOLVED_FFMPEG t))) then
    Raise (FileNotFoundError ffmpeg_missing_message)
  else
    Ok {| opts := {|
            format := format_selector;
            noplaylist := true;
            outtmpl := str_of_Path (joinpath output_dir (py "%(title)s.%(ext)s"));
            quiet := false;
            no_warnings := true;
            no_color := true;
            concurrent_fragment_downloads := FAST_concurrent_fragment_downloads;
            continuedl := true;
            retries := FAST_retries;
            fragment_retries := FAST_fragment_retries;
            http_chunk_size := FAST_http_chunk_size;
            merge_output_format := if merging then Some (py "mp4") else None;
            postprocessors :=
              if merging then
                [ {| key := py "FFmpegVideoConvertor"; preferedformat := Some (py "mp4") |};
                  {| key := py "FFmpegMetadata"; preferedformat := None |} ]
              else [];
            postprocessor_args :=
              if merging then [py "-movflags"; py "faststart"] else [];
            ffmpeg_location :=
              if merging then (fun p => str_of_Path (parent p)) <$> RESOLVED_FFMPEG t
              else None;
            ffprobe_location :=
              if merging then (fun p => str_of_Path (parent p)) <$> RESOLVED_FFPROBE t
              else None;
            external_downloader :=
              if truthy (ARIA2C_EXECUTABLE t) then Some (py "aria2c") else None;
            external_downloader_args :=
              if truthy (ARIA2C_EXECUTABLE t)
              then [py "-x"; py "16"; py "-k"; py "1M"; py "-j"; py "16"] else [];
          |};
          progress_hooks := [hook progress_callback] |}.

(** The closure [printer] of [download_highest_quality]; it is only installed
    when the caller passed a sink. *)
Definition printer (progress_callback : bool) (message : str) : M unit :=
  last <- get_last_report;;
  if bool_decide (Some message <> last) then
    (if progress_callback then progress_sink message else ret tt);;
    set_last_report (Some message)
  else ret tt.

(** [ydl.extract_info(url, download=True)] then [ydl.prepare_filename(info)]:
    the invocation is recorded, the hooks receive the reported statuses, the
    disk is as the engine leaves it. *)
Definition invoke (env : Env) (ydl : YoutubeDL) (url : str) : M (Info * Path) :=
  fun w =>
    let run := engine env (length (invocations w)) (opts ydl) url in
    let w1 := {| disk := files_after run; delivered := delivered w;
                 invocations := invocations w ++ [opts ydl];
                 last_report := last_report w |} in
    (for_each (fun st => for_each (fun h => h st) (progress_hooks ydl)) (emitted run);;
     r <- lift (outcome run);;
     ret (r.1, Path_of_str r.2)) w1.

(** The body of each [with build_downloader(...) as ydl:] block. *)
Definition attempt (env : Env) (output_dir : Path)
    (callback : option (str -> M unit)) (url : str)
    (format_selector : str) (merge_to_mp4 : bool) : M (Info * Path) :=
  ydl <- lift (build_downloader env output_dir callback format_selector merge_to_mp4);;
  invoke env ydl url.

Definition relaxed_format_selector : str :=
  py "best[ext=mp4][acodec!=none][vcodec!=none]/best".

Definition fallback_notice : str :=
  py "ffmpeg not found; falling back to progressive download...".

Definition result_missing_message : str :=
  py "Download finished, but the merged file could not be located. Ensure ffmpeg is installed and retry.".

(** The loop over [requested]: the first item with a non-empty [filepath]
    that exists. *)
Fixpoint first_requested (requested : list Item) : M (option Path) :=
  match requested with
  | [] => ret None
  | item :: rest =>
      if truthy (filepath item) then
        let p := Path_of_str (or_empty (filepath item)) in
        e <- path_exists p;;
        if e then ret (Some p) else first_requested rest
      else first_requested rest
  end.

(** Lines 194-211: which file the call returns. *)
Definition locate (info : Info) (prepared : Path) : M Path :=
  merged_candidate <- lift (with_suffix prepared (py ".mp4"));;
  e1 <- path_exists merged_candidate;;
  if e1 then ret merged_candidate else
  e2 <- path_exists prepared;;
  if e2 then ret prepared else
  let requested := default [] (requested_downloads info) in
  found <- first_requested requested;;
  match found with
  | Some p => ret p
  | None => raise (FileNotFoundError result_missing_message)
  end.

(** Lines 173-192: the first attempt and, on a [DownloadError] naming
    ffmpeg, the relaxed one. *)
Definition acquire (env : Env) (url : str) (output_dir : Path)
    (progress_callback : bool) : M (Info * Path) :=
  let callback := if progress_callback then Some (printer progress_callback) else None in
  try_except
    (attempt env output_dir callback url default_format_selector true)
    (fun err =>
       match err with
       | DownloadError message =>
           if negb (contains (py "ffmpeg") (lower message)) then raise err
           else
             (if progress_callback then progress_sink fallback_notice else ret tt);;
             attempt env output_dir callback url relaxed_format_selector false
       | _ => raise err
       end).

Definition download_highest_quality (env : Env) (url : str) (output_dir : Path)
    (progress_callback : bool) : M Path :=
  set_last_report None;;
  r <- acquire env url output_dir progress_callback;;
  locate r.1 r.2.

(** *** Vocabulary for the statements about the orchestrator *)

(** Following the spec's words: the subsequence obtained by dropping each
    message equal to the immediately preceding emitted message ([prev] is
    the message emitted before the first of [msgs], if any). *)
Fixpoint drop_repeats (prev : option str) (msgs : list str) : list str :=
  match msgs with
  | [] => []
  | m :: rest =>
      if bool_decide (Some m = prev) then drop_repeats (Some m) rest
      else m :: drop_repeats (Some m) rest
  end.

(** The message, if any, that [hook] passes on for a status record. *)
Definition hook_message (st : Status) : option str :=
  if bool_decide (status st = Some (py "downloading")) then
    let message := _format_status (_percent_str st) (_speed_str st) (_eta_str st) in
    if nonempty message then Some message else None
  else if bool_decide (status st = Some (py "finished")) then
    Some (py "Download finished, processing...")
  else None.

(** The world as the call finds it, once [last_report] is initialised. *)
Definition fresh (w : World) : World :=
  {| disk := disk w; delivered := delivered w; invocations := invocations w;
     last_report := None |}.

(** The manifest entry the fallback loop settles on: the first with a
    non-empty [filepath] that exists. *)
Definition first_existing (exists_ : Path -> bool) (requested : list Item) : option Path :=
  (fun item => Path_of_str (or_empty (filepath item))) <$>
  List.find (fun item => truthy (filepath item) &&
                         exists_ (Path_of_str (or_empty (filepath item)))) requested.

(** The callback both attempts install: line 171. *)
Definition callback_of (progress_callback : bool) : option (str -> M unit) :=
  if progress_callback then Some (printer progress_callback) else None.

(** The first attempt of a call, and the relaxed one made after it from the
    world [w1] the first attempt left. *)
Definition first_attempt (env : Env) (url : str) (output_dir : Path)
    (progress_callback : bool) (w : World) : result (Info * Path) * World :=
  attempt env output_dir (callback_of progress_callback) url
    default_format_selector true (fresh w).

Definition retry (env : Env) (url : str) (output_dir : Path)
    (progress_callback : bool) (w1 : World) : result (Info * Path) * World :=
  ((if progress_callback then progress_sink fallback_notice else ret tt);;
   attempt env output_dir (callback_of progress_callback) url
     relaxed_format_selector false) w1.

End Downloader.

(** ** app.py *)

Module App.

(** What the application is observed to do, in program order. Durations are
    in milliseconds. *)
Inductive event :=
| EvSleep (ms : Z)                 (* time.sleep *)
| EvLogInfo (msg : str)            (* app.logger.info *)
| EvLogException (msg : str)       (* app.logger.exception *)
| EvOrchestrator (url : str)       (* a call of download_highest_quality *)
| EvOpen (p : Path)                (* p.open("rb") *)
| EvCloseHandle (p : Path)         (* file_handle.close() *)
| EvSendFile (p : Path)            (* send_file(file_handle, ...) *)
| EvResponseSent                   (* the response body has been sent *)
| EvThreadStart                    (* Thread(target=...).start() *)
| EvUnlink (p : Path).             (* a call of p.unlink() *)

#[global] Instance event_eq_dec : EqDecision event.
Proof. solve_decision. Defined.

(** *** The background sweeper *)

(** An entry directly under the download directory; [st_mtime] and all
    clock readings are in milliseconds. *)
Record File := { is_regular : bool; st_mtime : Z }.

Record SweepWorld := {
  dir : gmap str File;     (* the entries of DOWNLOAD_DIR, by name *)
  log : list event;
}.

Record SweepOracle := {
  DOWNLOAD_DIR : Path;
  time_at : str -> Z;
      (* time.time() as read when the entry of that name is examined *)
  vanishes : str -> bool;
      (* whether something else (another deleter, another program, a user)
         removes the entry between its is_file() and its stat() *)
  unlink_refusal : str -> option os_kind;
      (* how the system answers unlink on a present entry: [None] removes it,
         [Some ENOENT] reports it already removed by another deleter, any
         other error leaves it in place *)
}.

Definition emit_sweep (e : event) : SM SweepWorld unit :=
  modify (fun w => {| dir := dir w; log := log w ++ [e] |}).

(** [file_path.is_file()]: false for a missing entry. *)
Definition is_file (n : str) : SM SweepWorld bool :=
  w <- get;; ret (match dir w !! n with Some f => is_regular f | None => false end).

(** [file_path.stat()]: raises for a missing entry. *)
Definition stat (n : str) : SM SweepWorld File :=
  w <- get;;
  match dir w !! n with
  | Some f => ret f
  | None => raise (FileNotFoundError n)
  end.

(** [file_path.unlink()] *)
Definition unlink_entry (o : SweepOracle) (n : str) : SM SweepWorld unit :=
  w <- get;;
  match dir w !! n with
  | None => raise (FileNotFoundError n)
  | Some _ =>
      match unlink_refusal o n with
      | None => modify (fun w => {| dir := delete n (dir w); log := log w |})
      | Some ENOENT =>
          modify (fun w => {| dir := delete n (dir w); log := log w |});;
          raise (FileNotFoundError n)
      | Some k => raise (OSError k n)
      end
  end.

Definition cleanup_failed_message (o : SweepOracle) (n : str) : str :=
  py "Background cleanup failed for " ++ str_of_Path (joinpath (DOWNLOAD_DIR o) n).

(** What happens to the entry between the sweeper's [is_file()] and its
    [stat()]. *)
Definition interference (o : SweepOracle) (n : str) : SM SweepWorld unit :=
  if vanishes o n
  then modify (fun w => {| dir := delete n (dir w); log := log w |})
  else ret tt.

(** The body of the [for file_path in DOWNLOAD_DIR.glob("*")] loop.  The
    [stat()] of line 26 is outside the [try]: what it raises leaves the
    loop. *)
Definition sweep_entry (o : SweepOracle) (interval_seconds : Z) (n : str)
  : SM SweepWorld unit :=
  f <- is_file n;;
  if negb f then ret tt else
  interference o n;;
  st <- stat n;;
  let age := (time_at o n - st_mtime st)%Z in
  if (age <? interval_seconds * 1000)%Z then ret tt else
  try_except (unlink_entry o n)
    (fun e => if is_OSError e
              then emit_sweep (EvLogException (cleanup_failed_message o n))
              else raise e).

(** [DOWNLOAD_DIR.glob("*")]: the names present when the loop starts. *)
Definition glob_star : SM SweepWorld (list str) :=
  w <- get;; ret ((map_to_list (dir w)).*1).

(** One round of the [while True] loop of [_worker]. *)
Definition sweep_tick (o : SweepOracle) (interval_seconds : Z) : SM SweepWorld unit :=
  emit_sweep (EvSleep (interval_seconds * 1000));;
  names <- glob_star;;
  for_each (sweep_entry o interval_seconds) names.

(** [_worker], by rounds.  Round [k] runs under the oracle [o k], after the
    rest of the process changed the directory by [others k] while the worker
    slept.  A round that raises ends the worker: nothing catches it, and the
    thread is not started again. *)
Fixpoint _worker (o : nat -> SweepOracle)
    (others : nat -> gmap str File -> gmap str File)
    (interval_seconds : Z) (k rounds : nat) : SM SweepWorld unit :=
  match rounds with
  | O => ret tt
  | S rounds' =>
      modify (fun w => {| dir := others k (dir w); log := log w |});;
      sweep_tick (o k) interval_seconds;;
      _worker o others interval_seconds (S k) rounds'
  end.

(** The default of [_cleanup_downloads_background(interval_seconds=300)]. *)
Definition default_interval_seconds : Z := 300.

(** Whether a round removes the entry: a regular file, old enough, whose
    unlink succeeds or finds it already gone. *)
Definition due (o : SweepOracle) (interval_seconds : Z) (n : str) (f : File) : bool :=
  is_regular f && negb (time_at o n - st_mtime f <? interval_seconds * 1000)%Z.

Definition swept (o : SweepOracle) (interval_seconds : Z) (n : str) (f : File) : bool :=
  due o interval_seconds n f &&
  match unlink_refusal o n with
  | None | Some ENOENT => true
  | Some _ => false
  end.

(** Whether the entry is a regular file that is gone when [stat()] asks for
    it. *)
Definition vanished (o : SweepOracle) (n : str) (w : SweepWorld) : bool :=
  match dir w !! n with
  | Some f => is_regular f && vanishes o n
  | None => false
  end.

(** The directory without the entry [n]. *)
Definition without (n : str) (w : SweepWorld) : SweepWorld :=
  {| dir := delete n (dir w); log := log w |}.

(** *** The /download handler and the post-response deleter *)

Record ReqWorld := {
  files : Path -> bool;      (* which paths exist *)
  trace : list event;
}.

Record ReqEnv := {
  DOWNLOADS : Path;                       (* downloader.DOWNLOAD_DIR *)
  dl : Downloader.Env;
  open_error : option exn;                (* video_path.open("rb") *)
  send_file_error : option exn;           (* send_file(...) *)
  close_error : option os_kind;           (* file_handle.close() *)
  unlink_answer : nat -> option os_kind;
      (* how the system answers the attempt of that index on a present
         file: [None] removes it, [Some ENOENT] reports it removed by
         another deleter meanwhile, another error leaves it in place *)
  closes_response : bool;
      (* whether the server calls close() on the Response once the body is
         sent.  A WSGI server closes the body it was handed; Werkzeug hands
         over the body of a direct-passthrough response, which is what
         send_file builds, as it is, and the Response is then never closed *)
}.

Definition emit (e : event) : SM ReqWorld unit :=
  modify (fun w => {| files := files w; trace := trace w ++ [e] |}).

Definition remove_path (p : Path) : SM ReqWorld unit :=
  modify (fun w => {| files := fun q => if bool_decide (q = p) then false else files w q;
                      trace := trace w |}).

(** [abort(code, description)] *)
Definition abort {A} (code : Z) (description : str) : SM ReqWorld A :=
  raise (HTTPException code description).

(** [download_highest_quality(url, DOWNLOAD_DIR, progress_callback=app.logger.info)]:
    the orchestrator runs on the current files; what it hands to its sink
    are [app.logger.info] lines. *)
Definition call_orchestrator (env : ReqEnv) (url : str) : SM ReqWorld Path :=
  fun w =>
    let w0 := {| Downloader.disk := files w; Downloader.delivered := [];
                 Downloader.invocations := []; Downloader.last_report := None |} in
    let r := Downloader.download_highest_quality (dl env) url (DOWNLOADS env) true w0 in
    (r.1, {| files := Downloader.disk r.2;
             trace := trace w ++ EvOrchestrator url :: (EvLogInfo <$> Downloader.delivered r.2) |}).

(** The callbacks a response can carry; the handler registers one. *)
Inductive Callback := remove_file (video_path : Path).

Record Response := {
  sent_file : Path;
  as_attachment : bool;
  download_name : str;
  on_close : list Callback;
}.

Definition invalid_url_message : str := py "Please provide a valid YouTube URL.".

(** [video_path.unlink()], attempt [i]. *)
Definition unlink (env : ReqEnv) (video_path : Path) (i : nat) : SM ReqWorld unit :=
  emit (EvUnlink video_path);;
  w <- get;;
  if negb (files w video_path) then raise (FileNotFoundError (str_of_Path video_path))
  else
    match unlink_answer env i with
    | None => remove_path video_path
    | Some ENOENT =>
        remove_path video_path;;
        raise (FileNotFoundError (str_of_Path video_path))
    | Some k => raise (OSError k (str_of_Path video_path))
    end.

(** How one pass of the [try]/[except]/[else] around [unlink] ends. *)
Inductive attempt_end := Deleted | AlreadyGone | Failed.

(** [for attempt in range(5)] of [_cleanup], over the attempt indices left. *)
Fixpoint delete_attempts (env : ReqEnv) (video_path : Path) (attempts : list nat)
  : SM ReqWorld unit :=
  match attempts with
  | [] => ret tt
  | attempt :: rest =>
      r <- try_except (unlink env video_path attempt;; ret Deleted)
             (fun e => if is_FileNotFoundError e then ret AlreadyGone
                       else if is_OSError e then ret Failed
                       else raise e);;
      match r with
      | AlreadyGone => ret tt
      | Failed =>
          if bool_decide (attempt = 4) then
            emit (EvLogException
                    (py "Failed to delete downloaded file " ++ str_of_Path video_path))
          else
            emit (EvSleep 500);;
            delete_attempts env video_path rest
      | Deleted =>
          emit (EvLogInfo (py "Deleted downloaded file " ++ str_of_Path video_path))
      end
  end.

(** [file_handle.close()] *)
Definition close_handle (env : ReqEnv) (video_path : Path) : SM ReqWorld unit :=
  emit (EvCloseHandle video_path);;
  match close_error env with
  | Some k => raise (OSError k (py "close"))
  | None => ret tt
  end.

(** The closure [_cleanup] of [remove_file]. *)
Definition _cleanup (env : ReqEnv) (video_path : Path) : SM ReqWorld unit :=
  try_except (close_handle env video_path)
    (fun e => if is_OSError e
              then emit (EvLogException
                           (py "Failed to close file handle for " ++ str_of_Path video_path))
              else raise e);;
  emit (EvSleep 1000);;
  delete_attempts env video_path (seq 0 5).

(** Running a registered callback: [remove_file()] starts a daemon thread on
    [_cleanup]; what the thread raises does not reach the caller. *)
Definition run_callback (env : ReqEnv) (c : Callback) : SM ReqWorld unit :=
  match c with
  | remove_file video_path =>
      emit EvThreadStart;;
      try_except (_cleanup env video_path) (fun _ => ret tt)
  end.

(** [download_video()], with the form field [url] of the request. *)
Definition download_video (env : ReqEnv) (form_url : option str) : SM ReqWorld Response :=
  let url := strip (or_empty form_url) in
  if bool_decide (url = []) then abort 400 invalid_url_message else
  video_path <-
    try_except (call_orchestrator env url)
      (fun exc =>
         emit (EvLogException (py "Video download failed"));;
         abort 502 (py "Failed to download video: " ++ str_of_exn exc));;
  match open_error env with
  | Some e => raise e
  | None =>
      emit (EvOpen video_path);;
      response <-
        try_except
          (match send_file_error env with
           | Some e => raise e
           | None =>
               emit (EvSendFile video_path);;
               ret {| sent_file := video_path; as_attachment := true;
                      download_name := name video_path; on_close := [] |}
           end)
          (fun e => emit (EvCloseHandle video_path);; raise e);;
      ret {| sent_file := sent_file response; as_attachment := as_attachment response;
             download_name := download_name response;
             on_close := on_close response ++ [remove_file video_path] |}
  end.

(** The framework's side of a request: the handler's response body is sent
    to its end; if the server then closes the response, that runs the
    callbacks registered with [call_on_close] in order, and if it does not,
    they are never run.  An abort or an unhandled exception becomes an error
    response, which carries no callback. *)
Definition serve (env : ReqEnv) (form_url : option str) : SM ReqWorld Z :=
  try_except
    (response <- download_video env form_url;;
     emit EvResponseSent;;
     (if closes_response env
      then for_each (run_callback env) (on_close response)
      else ret tt);;
     ret 200%Z)
    (fun e => match e with
              | HTTPException code _ => ret code
              | _ => ret 500%Z
              end).

(** What the loop body leaves for the entry [n]. *)
Definition after_entry (o : SweepOracle) (interval_seconds : Z) (n : str)
    (w : SweepWorld) : SweepWorld :=
  match dir w !! n with
  | Some f =>
      if due o interval_seconds n f then
        match unlink_refusal o n with
        | None => {| dir := delete n (dir w); log := log w |}
        | Some k =>
            {| dir := if bool_decide (k = ENOENT) then delete n (dir w) else dir w;
               log := log w ++ [EvLogException (cleanup_failed_message o n)] |}
        end
      else w
  | None => w
  end.

(** *** Vocabulary for the statements about the handler *)

(** The events of the deleter: starting its thread, and its unlink calls. *)
Definition deleter_event (e : event) : bool :=
  match e with
  | EvThreadStart | EvUnlink _ => true
  | _ => false
  end.

Definition add_events (w : ReqWorld) (evs : list event) : ReqWorld :=
  {| files := files w; trace := trace w ++ evs |}.

(** What closing the handle leaves in the trace. *)
Definition close_events (env : ReqEnv) (video_path : Path) : list event :=
  EvCloseHandle video_path ::
  match close_error env with
  | Some _ => [EvLogException (py "Failed to close file handle for " ++ str_of_Path video_path)]
  | None => []
  end.

(** The world once [video_path] is removed. *)
Definition gone (video_path : Path) (w : ReqWorld) : ReqWorld :=
  {| files := fun q => if bool_decide (q = video_path) then false else files w q;
     trace := trace w |}.

Definition deleted_message (video_path : Path) : str :=
  py "Deleted downloaded file " ++ str_of_Path video_path.

Definition delete_failed_message (video_path : Path) : str :=
  py "Failed to delete downloaded file " ++ str_of_Path video_path.

Definition unlink_calls (video_path : Path) (evs : list event) : nat :=
  length (List.filter (fun e => bool_decide (e = EvUnlink video_path)) evs).

End App.

(** ** downloader.py: what runs at import, and the command line *)

Module Program.

Import Resolver Downloader.

(** Lines 18-20 and 73: the module-level tool locations of a host. *)
Definition module_tools (h : Host) : result Tools :=
  let? r := _resolve_external_tools h in
  Ok {| Downloader.ARIA2C_EXECUTABLE := Resolver.ARIA2C_EXECUTABLE h;
        RESOLVED_FFMPEG := r.1;
        RESOLVED_FFPROBE := r.2 |}.

(** How [main] ends. *)
Inductive main_end :=
| Returned                    (* the function returns *)
| SystemExit (msg : str)      (* raise SystemExit(msg) *)
| Uncaught (e : exn).         (* an exception [main] does not handle *)

Definition saved_message (final_path : Path) : str :=
  [10%N] ++ py "Saved highest-quality video to: " ++ str_of_Path final_path.

(** [main()], for the parsed arguments [args.url] and [args.output].  The
    progress callback is the default, [print]; what is printed, by it and by
    [main], is recorded in [delivered]. *)
Definition main (env : Env) (url : str) (output : Path) (w : World) : main_end * World :=
  match download_highest_quality env url output true w with
  | (Ok final_path, w') =>
      (Returned,
       {| disk := disk w'; delivered := delivered w' ++ [saved_message final_path];
          invocations := invocations w'; last_report := last_report w' |})
  | (Raise (DownloadError m), w') => (SystemExit (py "Download failed: " ++ m), w')
  | (Raise e, w') =>
      if is_FileNotFoundError e then (SystemExit (str_of_exn e), w')
      else (Uncaught e, w')
  end.

End Program.

(** ** Vocabulary for the further properties *)

Module Vocabulary.

(** A blank text: every code point is white space. *)
Definition blank (s : str) : Prop := Forall (fun c => is_space c = true) s.

(** The invocations an attempt adds: one if the downloader could be built. *)
Definition made_by (r : result Downloader.YoutubeDL) : list Downloader.ydl_opts :=
  match r with
  | Ok ydl => [Downloader.opts ydl]
  | Raise _ => []
  end.

(** [merged] is [prepared] with its suffix replaced by [.mp4]: the final
    component is [stem ++ ext], where [ext] starts at its last dot unless
    that dot is its first or its last character (then [ext] is empty), and
    [merged] has [stem ++ ".mp4"] in its place. *)
Definition mp4_of (prepared merged : Path) : Prop :=
  exists stem ext,
    name prepared = stem ++ ext
    /\ merged = under (parent prepared) [stem ++ py ".mp4"]
    /\ ((exists e, ext = dot :: e /\ e <> [] /\ (dot ∉ e) /\ stem <> [])
        \/ (ext = []
            /\ forall a b, stem = a ++ dot :: b -> (dot ∉ b) -> a = [] \/ b = [])).

(** The status the framework answers with when the handler raises: the code
    of an abort, 500 for anything else. *)
Definition status_of_exn (e : exn) : Z :=
  match e with
  | HTTPException code _ => code
  | _ => 500%Z
  end.

(** The events of the deleter of [p]: none starts a thread, and an unlink is
    of [p]. *)
Definition of_deleter (p : Path) (e : App.event) : Prop :=
  e <> App.EvThreadStart /\ e <> App.EvResponseSent
  /\ forall q, e = App.EvUnlink q -> q = p.

(** How many deleter threads a trace starts. *)
Definition threads_started (evs : list App.event) : nat :=
  length (List.filter (fun e => bool_decide (e = App.EvThreadStart)) evs).

End Vocabulary.

Export Vocabulary.

(** ** Concrete hosts, engines and requests *)

Module Samples.

Import Resolver.

Definition packages_dir : Path :=
  Path_of_str (py "/home/u/AppData/Local/Microsoft/WinGet/Packages").

(** Two WinGet packages of ffmpeg and an unrelated one; nothing on the search
    path. *)
Definition host_winget : Host := {|
  which := fun _ => None;
  home := Path_of_str (py "/home/u");
  resolve := fun p => p;
  exists_ := fun _ => true;
  is_dir := fun _ => true;
  scandir := fun d =>
    if bool_decide (d = packages_dir)
    then [py "Gyan.FFmpeg_A"; py "Other.Tool"; py "Gyan.FFmpeg_B"]
    else if bool_decide (d = joinpath packages_dir (py "Gyan.FFmpeg_A"))
    then [py "ffmpeg-6.0-full_build"]
    else if bool_decide (d = joinpath packages_dir (py "Gyan.FFmpeg_B"))
    then [py "docs"; py "ffmpeg-7.1-full_build"]
    else [];
|}.

(** Two WinGet packages: [Gyan.FFmpeg_10] with version 10.0, and
    [Gyan.FFmpeg_9] with versions 6.0 and 7.1, which the system lists in that
    order. *)
Definition host_versions : Host := {|
  which := fun _ => None;
  home := Path_of_str (py "/home/u");
  resolve := fun p => p;
  exists_ := fun _ => true;
  is_dir := fun _ => true;
  scandir := fun d =>
    if bool_decide (d = packages_dir)
    then [py "Gyan.FFmpeg_10"; py "Gyan.FFmpeg_9"]
    else if bool_decide (d = joinpath packages_dir (py "Gyan.FFmpeg_10"))
    then [py "ffmpeg-10.0-full_build"]
    else if bool_decide (d = joinpath packages_dir (py "Gyan.FFmpeg_9"))
    then [py "ffmpeg-6.0-full_build"; py "ffmpeg-7.1-full_build"]
    else [];
|}.

(** Nothing but the fixed location, where [ffmpeg.exe] is a link to the
    root directory. *)
Definition host_linked : Host := {|
  which := fun _ => None;
  home := Path_of_str (py "/home/u");
  resolve := fun p =>
    (if bool_decide (p = Path_of_str (py "C:/ffmpeg/bin/ffmpeg.exe"))
     then Path_of_str (py "/") else p);
  exists_ := fun p => bool_decide (p = Path_of_str (py "C:/ffmpeg/bin/ffmpeg.exe"));
  is_dir := fun _ => false;
  scandir := fun _ => [];
|}.

(** Only ffprobe is installed, on the search path. *)
Definition host_probe_only : Host := {|
  which := fun tool =>
    if bool_decide (tool = py "ffprobe") then Some (py "/usr/bin/ffprobe") else None;
  home := Path_of_str (py "/home/u");
  resolve := fun p => p;
  exists_ := fun p => bool_decide (p = Path_of_str (py "/usr/bin/ffprobe"));
  is_dir := fun _ => false;
  scandir := fun _ => [];
|}.

Import Downloader.

Definition out_dir : Path := Path_of_str (py "/srv/downloads").
Definition video_url : str := py "https://www.youtube.com/watch?v=abc".

Definition empty_world : World :=
  {| disk := fun _ => false; delivered := []; invocations := []; last_report := None |}.

Definition downloading (percent : string) : Status :=
  {| status := Some (py "downloading"); _percent_str := Some (py percent);
     _speed_str := None; _eta_str := None |}.

(** A run that leaves [clip.webm] and the merged [clip.mp4]. *)
Definition run_merged : engine_run := {|
  emitted := [downloading " 50%"; downloading " 50%"; downloading "100%";
              {| status := Some (py "finished"); _percent_str := None;
                 _speed_str := None; _eta_str := None |}];
  outcome := Ok ({| requested_downloads := None |}, py "/srv/downloads/clip.webm");
  files_after := fun p =>
    bool_decide (p ∈ [Path_of_str (py "/srv/downloads/clip.webm");
                      Path_of_str (py "/srv/downloads/clip.mp4")]);
|}.

(** A run that fails because the engine could not start ffmpeg. *)
Definition run_muxer_failed : engine_run := {|
  emitted := [downloading " 10%"];
  outcome := Raise (DownloadError (py "ERROR: Postprocessing: FFmpeg could not be started"));
  files_after := fun _ => false;
|}.

(** A run of a single combined stream. *)
Definition run_progressive : engine_run := {|
  emitted := [downloading " 10%"; downloading "100%"];
  outcome := Ok ({| requested_downloads := None |}, py "/srv/downloads/clip.webm");
  files_after := fun p => bool_decide (p = Path_of_str (py "/srv/downloads/clip.webm"));
|}.

Definition tools_none : Tools :=
  {| ARIA2C_EXECUTABLE := None; RESOLVED_FFMPEG := None; RESOLVED_FFPROBE := None |}.

Definition tools_ffmpeg : Tools :=
  {| ARIA2C_EXECUTABLE := None;
     RESOLVED_FFMPEG := Some (Path_of_str (py "/usr/bin/ffmpeg"));
     RESOLVED_FFPROBE := Some (Path_of_str (py "/usr/bin/ffprobe")) |}.

(** No ffmpeg was resolved; the engine itself would deliver a single stream. *)
Definition env_no_muxer : Env :=
  {| tools := tools_none; mkdir := fun _ => None; engine := fun _ _ _ => run_progressive |}.

(** ffmpeg was resolved and the engine merges. *)
Definition env_merging : Env :=
  {| tools := tools_ffmpeg; mkdir := fun _ => None; engine := fun _ _ _ => run_merged |}.

(** ffmpeg was resolved but the engine cannot run it: the first invocation
    fails naming ffmpeg, the next delivers a single stream. *)
Definition env_muxer_breaks : Env :=
  {| tools := tools_ffmpeg; mkdir := fun _ => None;
     engine := fun n _ _ => match n with O => run_muxer_failed | _ => run_progressive end |}.

(** The network is down: every invocation fails, without naming ffmpeg. *)
Definition env_offline : Env :=
  {| tools := tools_ffmpeg; mkdir := fun _ => None;
     engine := fun _ _ _ =>
       {| emitted := []; outcome := Raise (DownloadError (py "ERROR: unable to download webpage"));
          files_after := fun _ => false |} |}.

Import App.

Definition clip : Path := Path_of_str (py "/srv/downloads/clip.mp4").

Definition req_world : ReqWorld := {| files := fun _ => false; trace := [] |}.

(** The file is held by another process for the first two attempts. *)
Definition req_env : ReqEnv :=
  {| DOWNLOADS := out_dir; dl := env_merging; open_error := None;
     send_file_error := None; close_error := None;
     unlink_answer := fun i => if (i <? 2)%nat then Some EACCES else None;
     closes_response := false |}.

(** The same under a server that closes the response. *)
Definition req_env_closing : ReqEnv :=
  {| DOWNLOADS := out_dir; dl := env_merging; open_error := None;
     send_file_error := None; close_error := None;
     unlink_answer := fun i => if (i <? 2)%nat then Some EACCES else None;
     closes_response := true |}.

(** The file can never be removed. *)
Definition req_env_stuck : ReqEnv :=
  {| DOWNLOADS := out_dir; dl := env_merging; open_error := None;
     send_file_error := None; close_error := None;
     unlink_answer := fun _ => Some EACCES;
     closes_response := false |}.

Definition clip_present : ReqWorld :=
  {| files := fun p => bool_decide (p = clip); trace := [] |}.

(** A directory with an old file, a recent one, an old one that cannot be
    removed, and a subdirectory; the clock reads 1000 s. *)
Definition sweep_oracle : SweepOracle :=
  {| DOWNLOAD_DIR := out_dir;
     time_at := fun _ => 1000000%Z;
     vanishes := fun _ => false;
     unlink_refusal := fun n => if bool_decide (n = py "locked.mp4") then Some EACCES else None |}.

(** Two old files, listed as [clip.mp4], [stale.mp4]; another deleter removes
    [clip.mp4] between the sweeper's [is_file()] and [stat()], and nothing
    keeps [stale.mp4] from being removed. *)
Definition sweep_oracle_race : SweepOracle :=
  {| DOWNLOAD_DIR := out_dir;
     time_at := fun _ => 1000000%Z;
     vanishes := fun n => bool_decide (n = py "clip.mp4");
     unlink_refusal := fun _ => None |}.

Definition sweep_world_race : SweepWorld :=
  {| dir := list_to_map
              [(py "clip.mp4", {| is_regular := true; st_mtime := 0 |});
               (py "stale.mp4", {| is_regular := true; st_mtime := 0 |})];
     log := [] |}.

Definition sweep_world : SweepWorld :=
  {| dir := list_to_map
              [(py "old.mp4", {| is_regular := true; st_mtime := 0 |});
               (py "new.mp4", {| is_regular := true; st_mtime := 900000 |});
               (py "locked.mp4", {| is_regular := true; st_mtime := 0 |});
               (py "parts", {| is_regular := false; st_mtime := 0 |})];
     log := [] |}.

(** ffmpeg and ffprobe are on the search path. *)
Definition host_search_path : Host := {|
  which := fun tool =>
    if bool_decide (tool = py "ffmpeg") then Some (py "/usr/bin/ffmpeg")
    else if bool_decide (tool = py "ffprobe") then Some (py "/usr/bin/ffprobe")
    else None;
  home := Path_of_str (py "/home/u");
  resolve := fun p => p;
  exists_ := fun p => bool_decide (p ∈ [Path_of_str (py "/usr/bin/ffmpeg");
                                        Path_of_str (py "/usr/bin/ffprobe")]);
  is_dir := fun _ => false;
  scandir := fun _ => [];
|}.

(** The tools that host resolves at import, and an engine beside them. *)
Definition env_search_path : Env :=
  {| tools := match Program.module_tools host_search_path with
              | Ok t => t
              | Raise _ => tools_none
              end;
     mkdir := fun _ => None;
     engine := fun _ _ _ => run_merged |}.

(** The output directory cannot be created. *)
Definition env_readonly : Env :=
  {| tools := tools_ffmpeg; mkdir := fun _ => Some EACCES;
     engine := fun _ _ _ => run_merged |}.

End Samples.

(** * Properties *)

(** ** The resolver *)

Section resolver_facts.
Import Resolver.

Lemma path_ltb_lexico x y : path_ltb x y = true <-> lexico (cparts x) (cparts y).
Proof.
  unfold path_ltb.
  destruct (trichotomyT lexico (cparts x) (cparts y)) as [[Hlt|Heq]|Hgt]; split;
    intros H; try done.
  - rewrite Heq in H. by apply (irreflexivity lexico) in H.
  - exfalso. apply (irreflexivity lexico (cparts x)). by etrans.
Qed.

Lemma not_before_lexico x y : not_before x y <-> ~ lexico (cparts x) (cparts y).
Proof.
  unfold not_before. rewrite <- path_ltb_lexico. by destruct (path_ltb x y).
Qed.

Lemma not_before_trans x y z : not_before x y -> not_before y z -> not_before x z.
Proof.
  rewrite !not_before_lexico. intros Hxy Hyz Hxz.
  destruct (trichotomy lexico (cparts y) (cparts z)) as [?|[Heq|Hzy]]; [done| |].
  - apply Hxy. by rewrite Heq.
  - apply Hxy. by etrans.
Qed.

Lemma path_ltb_not_before x y : path_ltb x y = true -> not_before y x.
Proof.
  rewrite path_ltb_lexico, not_before_lexico. intros Hxy Hyx.
  apply (irreflexivity lexico (cparts x)). by etrans.
Qed.

Lemma insert_desc_perm x l : insert_desc x l ≡ₚ x :: l.
Proof.
  induction l as [|y l IH]; simpl; [done|].
  destruct (path_ltb x y); [|done].
  rewrite IH. apply Permutation_swap.
Qed.

Lemma sorted_reverse_perm l : sorted_reverse l ≡ₚ l.
Proof.
  induction l as [|x l IH]; simpl; [done|].
  by rewrite insert_desc_perm, IH.
Qed.

Lemma insert_desc_sorted x l :
  StronglySorted not_before l -> StronglySorted not_before (insert_desc x l).
Proof.
  induction l as [|y l IH]; simpl; intros Hs.
  - repeat constructor.
  - apply StronglySorted_inv in Hs as [Hl Hy].
    destruct (path_ltb x y) eqn:Hxy.
    + constructor; [by apply IH|].
      rewrite insert_desc_perm. constructor; [by apply path_ltb_not_before|done].
    + constructor; [by constructor|].
      constructor; [done|].
      eapply Forall_impl; [exact Hy|]. intros z Hz. by eapply not_before_trans.
Qed.

Lemma sorted_reverse_sorted l : StronglySorted not_before (sorted_reverse l).
Proof.
  induction l as [|x l IH]; simpl; [constructor|by apply insert_desc_sorted].
Qed.

Lemma name_joinpath p c : name (joinpath p c) = c.
Proof. unfold name, joinpath; simpl. by rewrite last_snoc. Qed.

Lemma probe_beside_named h f :
  name f <> [] -> probe_beside h f = Ok (beside h f).
Proof.
  intros Hn. unfold probe_beside, with_name, beside.
  by rewrite bool_decide_eq_false_2 by done.
Qed.

Lemma find_in_packages_none h l :
  Forall (fun q => glob_ffmpeg_exe h q = []) l ->
  find_in_packages h l = Ok (None, None).
Proof. induction 1 as [|q l Hq _ IH]; simpl; [done|]. by rewrite Hq. Qed.

(** The loop stops at the first package directory that holds an ffmpeg. *)
Lemma find_in_packages_first h l :
  (forall q g, q ∈ l -> g ∈ glob_ffmpeg_exe h q -> name (resolve h g) <> []) ->
  (exists before package_dir after g,
      l = before ++ package_dir :: after /\
      Forall (fun q => glob_ffmpeg_exe h q = []) before /\
      head (glob_ffmpeg_exe h package_dir) = Some g /\
      find_in_packages h l = Ok (Some (resolve h g), beside h (resolve h g)))
  \/ (Forall (fun q => glob_ffmpeg_exe h q = []) l /\
      find_in_packages h l = Ok (None, None)).
Proof.
  induction l as [|q l IH]; intros Hres; simpl.
  - right. by split.
  - destruct (glob_ffmpeg_exe h q) as [|g rest] eqn:Hg.
    + destruct IH as [(before & pkg & after & g & -> & Hb & Hh & Hf)|[Hall Hf]].
      { intros q' g' Hq'. apply Hres. by right. }
      * left. exists (q :: before), pkg, after, g.
        split_and!; [done|by constructor|done|done].
      * right. split; [by constructor|done].
    + left. assert (name (resolve h g) <> []) as Hn.
      { apply (Hres q); [by left|]. rewrite Hg. by left. }
      exists [], q, l, g. rewrite Hg, (probe_beside_named h _ Hn). simpl. by split_and!.
Qed.

Lemma path_ltb_irrefl x : path_ltb x x = false.
Proof.
  apply not_true_is_false. rewrite path_ltb_lexico. apply (irreflexivity lexico).
Qed.

(** What [_find_winget_ffmpeg] returns: the ffmpeg of the last matching
    package directory in the order of [sorted], or nothing. *)
Lemma find_winget_spec h :
  (forall q g, q ∈ packages h -> g ∈ glob_ffmpeg_exe h q -> name (resolve h g) <> []) ->
  (exists package_dir g,
      winget_choice h package_dir g /\
      _find_winget_ffmpeg h = Ok (Some (resolve h g), beside h (resolve h g)))
  \/ (winget_empty h /\ _find_winget_ffmpeg h = Ok (None, None)).
Proof.
  intros Hres. unfold _find_winget_ffmpeg.
  destruct (exists_ h (winget_base h)) eqn:Hbase; simpl.
  2:{ right. split; [by left|done]. }
  fold (packages h).
  pose proof (sorted_reverse_perm (packages h)) as Hperm.
  pose proof (sorted_reverse_sorted (packages h)) as Hsorted.
  destruct (find_in_packages_first h (sorted_reverse (packages h)))
    as [(before & pkg & after & g & Heq & Hb & Hh & Hf)|[Hall Hf]].
  { intros q g Hq. apply Hres. by rewrite <- Hperm. }
  - left. exists pkg, g. split; [|done].
    rewrite Heq in Hperm, Hsorted.
    split_and!; [done| |done|].
    + rewrite <- Hperm. set_solver.
    + intros other Hin Hne. rewrite <- Hperm in Hin.
      apply elem_of_app in Hin as [Hin|Hin].
      * rewrite Forall_forall in Hb. by apply Hb in Hin.
      * apply StronglySorted_app in Hsorted as (_ & _ & Hs).
        apply StronglySorted_inv in Hs as [_ Hs].
        apply elem_of_cons in Hin as [->|Hin]; [apply path_ltb_irrefl|].
        rewrite Forall_forall in Hs. by apply Hs.
  - right. split; [|done]. right. intros pkg Hin.
    rewrite <- Hperm in Hin. rewrite Forall_forall in Hall. by apply Hall.
Qed.

Lemma find_winget_empty h : winget_empty h -> _find_winget_ffmpeg h = Ok (None, None).
Proof.
  intros [Hbase|Hall]; unfold _find_winget_ffmpeg; [by rewrite Hbase|].
  destruct (exists_ h (winget_base h)); simpl; [|done].
  apply find_in_packages_none. rewrite Forall_forall. intros q Hq.
  apply Hall. fold (packages h) in Hq. by rewrite <- (sorted_reverse_perm (packages h)).
Qed.

(** *** The code's globs and order, in terms of the entries of the tree *)

Lemma joinpath_under p l c : joinpath (under p l) c = under p (l ++ [c]).
Proof. unfold joinpath, under. cbn [anchor parts]. by rewrite <- app_assoc. Qed.

Lemma winget_base_packages h : winget_base h = winget_packages h.
Proof.
  unfold winget_base, winget_packages, joinpath, under. cbn [anchor parts].
  by rewrite <- !app_assoc.
Qed.

Lemma glob_ffmpeg_exe_versions h n :
  glob_ffmpeg_exe h (under (winget_packages h) [n])
  = installed_at h n
      <$> List.filter (holds_ffmpeg h n) (scandir h (under (winget_packages h) [n])).
Proof.
  unfold glob_ffmpeg_exe, glob_prefix.
  induction (scandir h (under (winget_packages h) [n])) as [|d l IH]; [done|].
  cbn [List.filter].
  assert (holds_ffmpeg h n d
          = startswith d (py "ffmpeg")
            && is_dir h (under (winget_packages h) [n; d])
            && is_dir h (under (winget_packages h) [n; d; py "bin"])
            && exists_ h (under (winget_packages h) [n; d; py "bin"; py "ffmpeg.exe"]))
    as -> by done.
  destruct (startswith d (py "ffmpeg")); cbn [andb]; [|exact IH].
  cbn [fmap list_fmap List.filter]. rewrite !joinpath_under. cbn [app].
  destruct (is_dir h (under (winget_packages h) [n; d])); cbn [andb]; [|exact IH].
  cbn [fmap list_fmap List.filter]. rewrite !joinpath_under. cbn [app].
  destruct (is_dir h (under (winget_packages h) [n; d; py "bin"])); cbn [andb];
    [|exact IH].
  cbn [fmap list_fmap List.filter]. rewrite !joinpath_under. cbn [app].
  destruct (exists_ h (under (winget_packages h) [n; d; py "bin"; py "ffmpeg.exe"]));
    [|exact IH].
  cbn [fmap list_fmap]. by rewrite <- IH.
Qed.

Lemma head_glob_ffmpeg_exe h n :
  head (glob_ffmpeg_exe h (under (winget_packages h) [n]))
  = installed_at h n <$> first_version h n.
Proof.
  rewrite glob_ffmpeg_exe_versions. unfold first_version.
  by destruct (List.filter _ _).
Qed.

Lemma packages_elem h package_dir :
  package_dir ∈ packages h <->
  exists n, n ∈ scandir h (winget_packages h)
            /\ startswith n (py "Gyan.FFmpeg") = true
            /\ package_dir = under (winget_packages h) [n].
Proof.
  unfold packages, glob_prefix. rewrite winget_base_packages, list_elem_of_fmap.
  split.
  - intros (n & -> & Hin). rewrite list_elem_of_In, filter_In, <- list_elem_of_In in Hin.
    destruct Hin as [Hin Hs]. by exists n.
  - intros (n & Hin & Hs & ->). exists n. split; [done|].
    rewrite list_elem_of_In, filter_In, <- list_elem_of_In. by split.
Qed.

Lemma lexico_cons_same (x : str) (l1 l2 : list str) :
  lexico (x :: l1) (x :: l2) <-> lexico l1 l2.
Proof.
  change (lexico (x :: l1) (x :: l2)) with (lexico (x, l1) (x, l2)).
  unfold lexico at 1, prod_lexico. cbn [fst snd]. split.
  - intros [H|[_ H]]; [|done]. by apply (irreflexivity lexico) in H.
  - intros H. by right.
Qed.

Lemma lexico_last (pre : list str) (a b : str) :
  lexico (pre ++ [a]) (pre ++ [b]) <-> lexico a b.
Proof.
  induction pre as [|x pre IH]; cbn [app].
  - change (lexico [a] [b]) with (lexico (a, @nil str) (b, @nil str)).
    unfold lexico at 1, prod_lexico. cbn [fst snd]. split; [|by left].
    intros [H|[_ H]]; [done|]. destruct H.
  - by rewrite lexico_cons_same.
Qed.

Lemma cparts_under p c : cparts (under p [c]) = cparts p ++ [c].
Proof. unfold cparts, under. cbn [anchor parts]. by destruct (anchor p). Qed.

(** Between two entries of one directory, [sorted] goes by their names. *)
Lemma path_ltb_siblings p a b :
  path_ltb (under p [a]) (under p [b]) = true <-> lexico a b.
Proof. by rewrite path_ltb_lexico, !cparts_under, lexico_last. Qed.

Lemma choice_pick h package_dir g :
  winget_choice h package_dir g ->
  exists n d, winget_pick h n d /\ g = installed_at h n d.
Proof.
  intros (Hbase & Hin & Hhead & Hlast).
  apply packages_elem in Hin as (n & Hn & Hs & ->).
  rewrite head_glob_ffmpeg_exe in Hhead.
  destruct (first_version h n) as [d|] eqn:Hd; [|done]. injection Hhead as <-.
  exists n, d. split; [|done].
  split_and!; [by rewrite <- winget_base_packages|done|done|done|].
  intros n' Hn' Hs' [d' Hd'] Hlt.
  assert (path_ltb (under (winget_packages h) [n]) (under (winget_packages h) [n']) = false)
    as Hnot.
  { apply Hlast; [apply packages_elem; by exists n'|].
    intros Hnil. pose proof (head_glob_ffmpeg_exe h n') as Hh.
    rewrite Hnil, Hd' in Hh. done. }
  apply (path_ltb_siblings (winget_packages h)) in Hlt. congruence.
Qed.

Lemma empty_none h : winget_empty h -> winget_none h.
Proof.
  intros [Hbase|Hall]; [left; by rewrite <- winget_base_packages|].
  right. intros n Hn Hs.
  pose proof (head_glob_ffmpeg_exe h n) as Hh.
  rewrite (Hall (under (winget_packages h) [n])) in Hh
    by (apply packages_elem; by exists n).
  by destruct (first_version h n).
Qed.

Lemma name_installed_at h n d : name (installed_at h n d) = py "ffmpeg.exe".
Proof.
  unfold installed_at, under, name. cbn [parts].
  change [n; d; py "bin"; py "ffmpeg.exe"] with ([n; d; py "bin"] ++ [py "ffmpeg.exe"]).
  by rewrite app_assoc, last_snoc.
Qed.

Lemma resolved_binary_on_path h tool :
  resolved_binary h (which h (py tool)) = on_path h tool.
Proof. unfold resolved_binary, on_path. by destruct (which h (py tool)) as [[|c s]|]. Qed.

Lemma with_probe_named h f :
  (on_path h "ffprobe" = None -> name f <> []) ->
  with_probe h f (on_path h "ffprobe") = Ok (Some f, kept_or_beside h f).
Proof.
  intros Hn. unfold with_probe, kept_or_beside.
  destruct (on_path h "ffprobe") as [probe|]; [done|].
  by rewrite (probe_beside_named h f (Hn eq_refl)).
Qed.

Lemma glob_candidates h q g :
  q ∈ packages h -> g ∈ glob_ffmpeg_exe h q -> candidate h g.
Proof.
  intros (n & Hn & Hs & ->)%packages_elem Hg.
  rewrite glob_ffmpeg_exe_versions in Hg.
  apply list_elem_of_fmap in Hg as (d & -> & Hd).
  rewrite list_elem_of_In, filter_In, <- list_elem_of_In in Hd. destruct Hd as [Hd Hh].
  right. left. by exists n, d.
Qed.

(** Once the search path gave no ffmpeg that exists. *)
Lemma resolve_installed_spec h :
  located_named h ->
  (exists n d,
      winget_pick h n d
      /\ resolve_installed h (on_path h "ffprobe")
         = Ok (Some (resolve h (installed_at h n d)),
               beside h (resolve h (installed_at h n d))))
  \/ (winget_none h /\ exists_ h fixed_location = true
      /\ resolve_installed h (on_path h "ffprobe")
         = Ok (Some (resolve h fixed_location),
               kept_or_beside h (resolve h fixed_location)))
  \/ (winget_none h /\ exists_ h fixed_location = false
      /\ resolve_installed h (on_path h "ffprobe") = Ok (None, on_path h "ffprobe")).
Proof.
  intros Hnamed. unfold resolve_installed.
  destruct (find_winget_spec h) as [(pkg & g & Hc & ->)|[He ->]]; cbn [bind].
  { intros q g Hq Hg. apply Hnamed. by eapply glob_candidates. }
  - left. apply choice_pick in Hc as (n & d & Hpick & ->). by exists n, d.
  - right. apply empty_none in He. change common_ffmpeg with fixed_location.
    destruct (exists_ h fixed_location) eqn:Hfixed.
    + left. split_and!; [done|done|]. apply with_probe_named.
      intros _. apply Hnamed. right. right. by split.
    + right. by split_and!.
Qed.



(** On that host the ffmpeg of [Gyan.FFmpeg_B] wins over [Gyan.FFmpeg_A]. *)
Example resolver_takes_last_package :
  _resolve_external_tools Samples.host_winget =
    Ok (Some (Path_of_str (py "/home/u/AppData/Local/Microsoft/WinGet/Packages/Gyan.FFmpeg_B/ffmpeg-7.1-full_build/bin/ffmpeg.exe")),
        Some (Path_of_str (py "/home/u/AppData/Local/Microsoft/WinGet/Packages/Gyan.FFmpeg_B/ffmpeg-7.1-full_build/bin/ffprobe.exe"))).
Proof. vm_compute. reflexivity. Qed.


(** C10: when ffmpeg is found neither on the search path, nor in the WinGet
    tree, nor at the fixed location, the resolver returns no ffmpeg
    together with whatever ffprobe the search path gave; and on some host
    that ffprobe is present. *)
Theorem probe_without_muxer :
  (forall h,
      on_search_path h = None -> winget_empty h -> exists_ h common_ffmpeg = false ->
      _resolve_external_tools h = Ok (None, resolved_binary h (FFPROBE_BINARY h)))
  /\ (exists h probe, _resolve_external_tools h = Ok (None, Some probe)).
Proof.
  split.
  - intros h Hpath Hempty Hcommon.
    assert (resolve_installed h (resolved_binary h (FFPROBE_BINARY h))
            = Ok (None, resolved_binary h (FFPROBE_BINARY h))) as Hinst.
    { unfold resolve_installed. rewrite (find_winget_empty h Hempty). simpl.
      by rewrite Hcommon. }
    unfold _resolve_external_tools. unfold on_search_path in Hpath.
    destruct (resolved_binary h (FFMPEG_BINARY h)) as [f|]; [|done].
    by destruct (exists_ h f).
  - exists Samples.host_probe_only, (Path_of_str (py "/usr/bin/ffprobe")).
    vm_compute. reflexivity.
Qed.

Lemma probe_without_muxer_witness :
  _resolve_external_tools Samples.host_probe_only
  = Ok (None, resolved_binary Samples.host_probe_only
                (FFPROBE_BINARY Samples.host_probe_only)).
Proof.
  apply (proj1 probe_without_muxer Samples.host_probe_only).
  - reflexivity.
  - right. intros package_dir Hin. vm_compute in Hin. by apply elem_of_nil in Hin.
  - reflexivity.
Defined.

End resolver_facts.

(** ** The orchestrator *)

Section downloader_facts.
Import Downloader.

(** Unfolding the monad's operations. *)
Ltac sm := unfold bindM, ret, raise, lift, try_except, get, modify in *; simpl in *.

(** *** The progress filter *)

Lemma last_or_cons (d : option str) m rest :
  default d (Some <$> last (m :: rest)) = default (Some m) (Some <$> last rest).
Proof.
  destruct rest as [|m' rest]; [done|]. rewrite last_cons_cons.
  destruct (last (m' :: rest)) eqn:Hl; [done|]. by apply last_None in Hl.
Qed.

Lemma printer_feed msgs w :
  for_each (printer true) msgs w =
    (Ok tt, {| disk := disk w;
               delivered := delivered w ++ drop_repeats (last_report w) msgs;
               invocations := invocations w;
               last_report := default (last_report w) (Some <$> last msgs) |}).
Proof.
  revert w. induction msgs as [|m rest IH]; intros w; simpl.
  - sm. rewrite app_nil_r. by destruct w.
  - unfold bindM at 1. unfold printer, get_last_report, set_last_report, progress_sink. sm.
    destruct (bool_decide_reflect (Some m = last_report w)) as [Heq|Hne].
    + rewrite bool_decide_eq_false_2 by (intros ?; congruence).
      rewrite IH. simpl. f_equal. f_equal; [by rewrite Heq|].
      by rewrite last_or_cons, Heq.
    + rewrite bool_decide_eq_true_2 by congruence.
      rewrite IH. simpl. rewrite <- app_assoc. simpl. f_equal. f_equal.
      by rewrite last_or_cons.
Qed.

Lemma drop_repeats_sublist prev msgs : sublist (drop_repeats prev msgs) msgs.
Proof.
  revert prev. induction msgs as [|m rest IH]; intros prev; simpl; [constructor|].
  case_bool_decide; by constructor.
Qed.

Lemma drop_repeats_head prev msgs x :
  head (drop_repeats prev msgs) = Some x -> Some x <> prev.
Proof.
  revert prev. induction msgs as [|m rest IH]; intros prev; simpl; [done|].
  case_bool_decide as Hm; simpl.
  - intros Hx. rewrite <- Hm. by apply IH.
  - by intros [= <-].
Qed.

Lemma drop_repeats_no_repeat prev msgs i x y :
  drop_repeats prev msgs !! i = Some x ->
  drop_repeats prev msgs !! S i = Some y -> x <> y.
Proof.
  revert prev i. induction msgs as [|m rest IH]; intros prev i; simpl; [done|].
  case_bool_decide as Hm; [by apply IH|].
  destruct i as [|i]; simpl; [|by apply IH].
  intros [= <-] Hy Heq. subst y.
  eapply drop_repeats_head; [|reflexivity]. by rewrite head_lookup.
Qed.

Lemma hook_printer st w :
  hook (Some (printer true)) st w =
    match hook_message st with
    | Some m => printer true m w
    | None => (Ok tt, w)
    end.
Proof.
  unfold hook, hook_message.
  repeat case_bool_decide; try done.
  by destruct (nonempty _).
Qed.

Lemma hooks_feed sts w :
  for_each (fun st => for_each (fun h => h st) [hook (Some (printer true))]) sts w
  = for_each (printer true) (omap hook_message sts) w.
Proof.
  revert w. induction sts as [|st sts IH]; intros w; simpl; [done|].
  unfold bindM at 1 2. rewrite hook_printer.
  destruct (hook_message st) as [m|]; simpl.
  - unfold bindM at 2. destruct (printer true m w) as [[[]|e] w']; simpl; [apply IH|done].
  - apply IH.
Qed.

Lemma build_downloader_hooks env output_dir callback fmt merge ydl :
  build_downloader env output_dir callback fmt merge = Ok ydl ->
  progress_hooks ydl = [hook callback].
Proof.
  unfold build_downloader. destruct (mkdir env output_dir); simpl; [done|].
  destruct (merge && negb _); [done|]. by intros [= <-].
Qed.

(** C5: within a call, the filter hands to the caller's sink exactly the
    messages of the engine that differ from the message emitted just
    before them: a subsequence in the original order, without two equal
    neighbours.  The last part states it for one attempt, where the
    messages are those the hook derives from the engine's status records. *)
Theorem progress_filter msgs w :
  let forwarded := drop_repeats None msgs in
  (set_last_report None;; for_each (printer true) msgs) w
    = (Ok tt, {| disk := disk w; delivered := delivered w ++ forwarded;
                 invocations := invocations w; last_report := last msgs |})
  /\ sublist forwarded msgs
  /\ (forall i x y, forwarded !! i = Some x -> forwarded !! S i = Some y -> x <> y)
  /\ (forall env output_dir url fmt merge,
        delivered (attempt env output_dir (Some (printer true)) url fmt merge w).2
        = delivered w ++
          match build_downloader env output_dir (Some (printer true)) fmt merge with
          | Ok ydl =>
              drop_repeats (last_report w)
                (omap hook_message
                   (emitted (engine env (length (invocations w)) (opts ydl) url)))
          | Raise _ => []
          end).
Proof.
  split_and!.
  - unfold set_last_report. sm. rewrite printer_feed. simpl.
    by destruct (last msgs).
  - apply drop_repeats_sublist.
  - apply drop_repeats_no_repeat.
  - intros env output_dir url fmt merge. unfold attempt. unfold bindM at 1, lift.
    destruct (build_downloader _ _ _ _ _) as [ydl|e] eqn:Hb; simpl;
      [|by rewrite app_nil_r].
    apply build_downloader_hooks in Hb. unfold invoke. rewrite Hb.
    unfold bindM at 1. rewrite hooks_feed, printer_feed. simpl.
    sm. by destruct (outcome _).
Qed.

Lemma progress_filter_witness :
  (set_last_report None;;
   for_each (printer true) [py "10%"; py "10%"; py "50%"; py "10%"]) Samples.empty_world
    = (Ok tt, {| disk := disk Samples.empty_world;
                 delivered := [py "10%"; py "50%"; py "10%"];
                 invocations := []; last_report := Some (py "10%") |})
  /\ py "10%" <> py "50%".
Proof.
  pose proof (progress_filter [py "10%"; py "10%"; py "50%"; py "10%"]
                Samples.empty_world) as (Hrun & _ & Hneq & _).
  split; [exact Hrun|].
  exact (Hneq 0%nat (py "10%") (py "50%") eq_refl eq_refl).
Defined.

(** The filter on a whole attempt: the repeated [50%] is dropped. *)
Example progress_filter_attempt :
  delivered (attempt Samples.env_merging Samples.out_dir (Some (printer true))
               Samples.video_url default_format_selector true Samples.empty_world).2
  = [py "50%"; py "100%"; py "Download finished, processing..."].
Proof. vm_compute. reflexivity. Qed.

(** *** The attempts *)

Lemma build_no_muxer env output_dir callback fmt :
  RESOLVED_FFMPEG (tools env) = None ->
  build_downloader env output_dir callback fmt true =
    Raise (match mkdir env output_dir with
           | Some k => OSError k (str_of_Path output_dir)
           | None => FileNotFoundError ffmpeg_missing_message
           end).
Proof.
  intros Hnone. unfold build_downloader. rewrite Hnone.
  by destruct (mkdir env output_dir).
Qed.

(** C1, as the code has it: when no ffmpeg was resolved, the call raises
    from the first [build_downloader] (the [FileNotFoundError] for the
    missing executable, or the error of creating the output directory),
    before any engine invocation and without a fallback attempt. *)
Theorem muxer_absent_raises env url output_dir cb w :
  RESOLVED_FFMPEG (tools env) = None ->
  download_highest_quality env url output_dir cb w =
    (Raise (match mkdir env output_dir with
            | Some k => OSError k (str_of_Path output_dir)
            | None => FileNotFoundError ffmpeg_missing_message
            end),
     fresh w).
Proof.
  intros Hnone. unfold download_highest_quality, acquire, attempt, set_last_report.
  sm. rewrite (build_no_muxer env output_dir _ _ Hnone).
  by destruct (mkdir env output_dir).
Qed.

Lemma muxer_absent_raises_witness :
  download_highest_quality Samples.env_no_muxer Samples.video_url Samples.out_dir true
    Samples.empty_world
  = (Raise (FileNotFoundError ffmpeg_missing_message), fresh Samples.empty_world).
Proof.
  exact (muxer_absent_raises Samples.env_no_muxer Samples.video_url Samples.out_dir
           true Samples.empty_world eq_refl).
Defined.

(** C1 as stated fails: with no ffmpeg resolved, and an engine that would
    deliver a single stream, the caller gets the [FileNotFoundError] and the
    engine is never invoked. *)
Lemma fallback_law_fails :
  let r := download_highest_quality Samples.env_no_muxer Samples.video_url
             Samples.out_dir true Samples.empty_world in
  RESOLVED_FFMPEG (tools Samples.env_no_muxer) = None
  /\ r.1 = Raise (FileNotFoundError ffmpeg_missing_message)
  /\ (forall p, r.1 <> Ok p)
  /\ invocations r.2 = [].
Proof. vm_compute. by split_and!. Qed.

Lemma hooks_silent sts w :
  for_each (fun st => for_each (fun h => h st) [hook None]) sts w = (Ok tt, w).
Proof.
  induction sts as [|st sts IH]; simpl; [done|].
  unfold bindM at 1 2. unfold hook.
  by repeat case_bool_decide.
Qed.

(** The hooks never raise and touch neither the disk nor the record of
    invocations. *)
Lemma hooks_keep cb sts w :
  exists w',
    for_each (fun st => for_each (fun h => h st) [hook (callback_of cb)]) sts w
    = (Ok tt, w')
    /\ disk w' = disk w /\ invocations w' = invocations w.
Proof.
  destruct cb; simpl.
  - rewrite hooks_feed, printer_feed. by eexists.
  - rewrite hooks_silent. by eexists.
Qed.

Lemma invoke_spec env ydl url cb w :
  progress_hooks ydl = [hook (callback_of cb)] ->
  let run := engine env (length (invocations w)) (opts ydl) url in
  exists w',
    invoke env ydl url w
    = (match outcome run with
       | Ok r => Ok (r.1, Path_of_str r.2)
       | Raise e => Raise e
       end, w')
    /\ disk w' = files_after run
    /\ invocations w' = invocations w ++ [opts ydl].
Proof.
  intros Hhooks run. unfold invoke. rewrite Hhooks. fold run.
  unfold bindM at 1.
  edestruct (hooks_keep cb (emitted run)) as (w' & -> & Hd & Hi).
  exists w'. sm. split; [by destruct (outcome run)|]. by rewrite Hd, Hi.
Qed.

Lemma attempt_unfold env output_dir callback url fmt merge w :
  attempt env output_dir callback url fmt merge w =
    match build_downloader env output_dir callback fmt merge with
    | Ok ydl => invoke env ydl url w
    | Raise e => (Raise e, w)
    end.
Proof. unfold attempt. sm. by destruct (build_downloader _ _ _ _ _). Qed.

Lemma build_raises_oserror env output_dir callback fmt merge e :
  build_downloader env output_dir callback fmt merge = Raise e -> is_OSError e = true.
Proof.
  unfold build_downloader. destruct (mkdir env output_dir); simpl; [by intros [= <-]|].
  destruct (merge && negb _); [by intros [= <-]|done].
Qed.

(** Without merging, [build_downloader] fails only on the directory, and
    what it builds asks for no muxing. *)
Lemma build_relaxed env output_dir callback fmt :
  mkdir env output_dir = None ->
  exists ydl,
    build_downloader env output_dir callback fmt false = Ok ydl
    /\ format (opts ydl) = fmt
    /\ merge_output_format (opts ydl) = None
    /\ postprocessors (opts ydl) = []
    /\ ffmpeg_location (opts ydl) = None.
Proof.
  intros Hmk. unfold build_downloader. rewrite Hmk. simpl. by eexists.
Qed.

Lemma first_requested_spec requested w :
  first_requested requested w = (Ok (first_existing (disk w) requested), w).
Proof.
  unfold first_existing.
  induction requested as [|item rest IH]; simpl; [done|].
  destruct (truthy (filepath item)); simpl; [|done].
  unfold path_exists. sm. by destruct (disk w _).
Qed.

(** Lines 194-211 on a prepared path with a file name. *)
Lemma locate_spec info prepared w :
  name prepared <> [] ->
  exists merged,
    with_suffix prepared (py ".mp4") = Ok merged /\
    locate info prepared w =
      (if disk w merged then Ok merged
       else if disk w prepared then Ok prepared
       else match first_existing (disk w) (default [] (requested_downloads info)) with
            | Some p => Ok p
            | None => Raise (FileNotFoundError result_missing_message)
            end, w).
Proof.
  intros Hname. unfold locate, with_suffix.
  rewrite bool_decide_eq_false_2 by done.
  eexists. split; [done|]. unfold path_exists. sm.
  destruct (disk w _); [done|]. destruct (disk w prepared); [done|].
  rewrite first_requested_spec. by destruct (first_existing _ _).
Qed.

Lemma locate_world info prepared w : (locate info prepared w).2 = w.
Proof.
  unfold locate, path_exists. sm.
  destruct (with_suffix prepared (py ".mp4")) as [merged|e]; simpl; [|done].
  destruct (disk w merged); [done|]. destruct (disk w prepared); [done|].
  rewrite first_requested_spec. by destruct (first_existing _ _).
Qed.

Lemma download_unfold env url output_dir cb w :
  download_highest_quality env url output_dir cb w =
    match acquire env url output_dir cb (fresh w) with
    | (Ok r, w1) => locate r.1 r.2 w1
    | (Raise e, w1) => (Raise e, w1)
    end.
Proof. unfold download_highest_quality, set_last_report. by sm. Qed.

Lemma acquire_unfold env url output_dir cb w :
  acquire env url output_dir cb (fresh w) =
    match first_attempt env url output_dir cb w with
    | (Raise (DownloadError m), w1) =>
        if contains (py "ffmpeg") (lower m) then retry env url output_dir cb w1
        else (Raise (DownloadError m), w1)
    | other => other
    end.
Proof.
  unfold acquire, first_attempt, retry, try_except. fold (callback_of cb).
  destruct (attempt _ _ _ _ _ _ _) as [[r|[m| | | |]] w1]; try done.
  by destruct (contains _ _).
Qed.

Lemma build_ok_mkdir env output_dir callback fmt merge ydl :
  build_downloader env output_dir callback fmt merge = Ok ydl ->
  mkdir env output_dir = None.
Proof. unfold build_downloader. by destruct (mkdir env output_dir). Qed.

(** A first attempt that ends in a [DownloadError] got as far as the
    engine: it made exactly one invocation. *)
Lemma first_attempt_download_error env url output_dir cb w m :
  (first_attempt env url output_dir cb w).1 = Raise (DownloadError m) ->
  exists ydl1,
    build_downloader env output_dir (callback_of cb) default_format_selector true = Ok ydl1
    /\ invocations (first_attempt env url output_dir cb w).2 = invocations w ++ [opts ydl1].
Proof.
  unfold first_attempt. rewrite attempt_unfold.
  destruct (build_downloader _ _ _ _ true) as [ydl1|e] eqn:Hb; simpl.
  - intros _. exists ydl1. split; [done|].
    destruct (invoke_spec env ydl1 url cb (fresh w)) as (w' & -> & _ & Hi);
      [by eapply build_downloader_hooks|done].
  - intros [= ->]. by apply build_raises_oserror in Hb.
Qed.

Lemma retry_spec env url output_dir cb w1 ydl2 :
  build_downloader env output_dir (callback_of cb) relaxed_format_selector false = Ok ydl2 ->
  invocations (retry env url output_dir cb w1).2 = invocations w1 ++ [opts ydl2].
Proof.
  intros Hb. unfold retry. unfold bindM.
  assert (forall w, invocations
            (attempt env output_dir (callback_of cb) url relaxed_format_selector false w).2
          = invocations w ++ [opts ydl2]) as Hatt.
  { intros w. rewrite attempt_unfold, Hb.
    destruct (invoke_spec env ydl2 url cb w) as (w' & -> & _ & Hi);
      [by eapply build_downloader_hooks|done]. }
  destruct cb; simpl; by rewrite Hatt.
Qed.

(** C2: a first attempt that fails otherwise than with a [DownloadError]
    whose text contains "ffmpeg" (case-insensitively) ends the call with
    that very failure and nothing more done; one that fails so is followed
    by exactly one more attempt, configured for a single combined stream
    and no muxing, whose failure ends the call and whose success goes on to
    locating the file. *)
Theorem retry_policy env url output_dir cb w :
  let first := first_attempt env url output_dir cb w in
  let final := download_highest_quality env url output_dir cb w in
  (forall e,
      first.1 = Raise e ->
      (forall m, e = DownloadError m -> contains (py "ffmpeg") (lower m) = false) ->
      final = (Raise e, first.2))
  /\ (forall m,
        first.1 = Raise (DownloadError m) ->
        contains (py "ffmpeg") (lower m) = true ->
        let second := retry env url output_dir cb first.2 in
        (exists ydl1 ydl2,
            build_downloader env output_dir (callback_of cb)
              default_format_selector true = Ok ydl1
            /\ build_downloader env output_dir (callback_of cb)
                 relaxed_format_selector false = Ok ydl2
            /\ format (opts ydl2) = relaxed_format_selector
            /\ merge_output_format (opts ydl2) = None
            /\ postprocessors (opts ydl2) = []
            /\ ffmpeg_location (opts ydl2) = None
            /\ invocations final.2 = invocations w ++ [opts ydl1; opts ydl2])
        /\ (forall e2, second.1 = Raise e2 -> final = (Raise e2, second.2))
        /\ (forall r, second.1 = Ok r -> final = locate r.1 r.2 second.2)).
Proof.
  intros first final. subst final. rewrite download_unfold, acquire_unfold.
  split.
  - intros e He Hkey. subst first.
    destruct (first_attempt env url output_dir cb w) as [r1 w1]. simpl in *. subst r1.
    destruct e as [m| | | |]; try done.
    by rewrite (Hkey m eq_refl).
  - intros m Hm Hkey second.
    destruct (first_attempt_download_error env url output_dir cb w m Hm)
      as (ydl1 & Hb1 & Hi1).
    destruct (build_relaxed env output_dir (callback_of cb) relaxed_format_selector
                (build_ok_mkdir _ _ _ _ _ _ Hb1)) as (ydl2 & Hb2 & Hf & Hmerge & Hpp & Hloc).
    pose proof (retry_spec env url output_dir cb first.2 ydl2 Hb2) as Hi2.
    fold second in Hi2. subst first.
    destruct (first_attempt env url output_dir cb w) as [r1 w1]. simpl in *. subst r1.
    rewrite Hkey. fold second.
    destruct second as [[r|e2] w2] eqn:Hsecond; simpl in *.
    + split_and!; [|done|by intros r' [= <-]].
      exists ydl1, ydl2. split_and!; try done.
      rewrite locate_world, Hi2, Hi1, <- app_assoc. done.
    + split_and!; [|by intros e' [= <-]|done].
      exists ydl1, ydl2. split_and!; try done.
      simpl. rewrite Hi2, Hi1, <- app_assoc. done.
Qed.

Lemma retry_policy_witness :
  download_highest_quality Samples.env_offline Samples.video_url Samples.out_dir true
    Samples.empty_world
  = (Raise (DownloadError (py "ERROR: unable to download webpage")),
     (first_attempt Samples.env_offline Samples.video_url Samples.out_dir true
        Samples.empty_world).2)
  /\ (forall r,
        (retry Samples.env_muxer_breaks Samples.video_url Samples.out_dir true
           (first_attempt Samples.env_muxer_breaks Samples.video_url Samples.out_dir true
              Samples.empty_world).2).1 = Ok r ->
        download_highest_quality Samples.env_muxer_breaks Samples.video_url
          Samples.out_dir true Samples.empty_world
        = locate r.1 r.2
            (retry Samples.env_muxer_breaks Samples.video_url Samples.out_dir true
               (first_attempt Samples.env_muxer_breaks Samples.video_url Samples.out_dir
                  true Samples.empty_world).2).2).
Proof.
  split.
  - apply (proj1 (retry_policy Samples.env_offline Samples.video_url Samples.out_dir
                    true Samples.empty_world)).
    + reflexivity.
    + intros m [= <-]. reflexivity.
  - apply (proj2 (retry_policy Samples.env_muxer_breaks Samples.video_url
                    Samples.out_dir true Samples.empty_world)
             (py "ERROR: Postprocessing: FFmpeg could not be started")).
    + reflexivity.
    + reflexivity.
Defined.

(** The scenario of the spec: the engine cannot run ffmpeg on the first
    attempt; the call retries once and returns the single stream. *)
Example retry_returns_progressive :
  let r := download_highest_quality Samples.env_muxer_breaks Samples.video_url
             Samples.out_dir true Samples.empty_world in
  r.1 = Ok (Path_of_str (py "/srv/downloads/clip.webm"))
  /\ length (invocations r.2) = 2%nat
  /\ delivered r.2 = [py "10%"; fallback_notice; py "100%"].
Proof. vm_compute. by split_and!. Qed.

(** *** The suffix that is replaced *)

Lemma rfind_dot_absent s : dot ∉ s -> rfind_dot s = None.
Proof.
  induction s as [|c s IH]; [done|]. intros [Hc Hs]%not_elem_of_cons.
  cbn [rfind_dot]. rewrite (IH Hs).
  destruct (c =? dot)%N eqn:E; [|done]. by apply N.eqb_eq in E.
Qed.

Lemma rfind_dot_None s : rfind_dot s = None -> dot ∉ s.
Proof.
  induction s as [|c s IH]; cbn [rfind_dot]; [intros _; apply not_elem_of_nil|].
  destruct (rfind_dot s); [done|].
  destruct (c =? dot)%N eqn:E; [done|]. intros _.
  apply not_elem_of_cons. split; [|by apply IH].
  apply N.eqb_neq in E. congruence.
Qed.

(** [rfind_dot] finds the last dot. *)
Lemma rfind_dot_Some s i :
  rfind_dot s = Some i ->
  exists a b, s = a ++ dot :: b /\ length a = i /\ dot ∉ b.
Proof.
  revert i. induction s as [|c s IH]; intros i; cbn [rfind_dot]; [done|].
  destruct (rfind_dot s) as [j|] eqn:Hj.
  - intros [= <-]. destruct (IH j eq_refl) as (a & b & -> & <- & Hb).
    by exists (c :: a), b.
  - destruct (c =? dot)%N eqn:E; [|done]. intros [= <-].
    apply N.eqb_eq in E as ->. exists [], s. split_and!; [done|done|].
    by apply rfind_dot_None.
Qed.

Lemma rfind_dot_app a b : dot ∉ b -> rfind_dot (a ++ dot :: b) = Some (length a).
Proof.
  intros Hb. induction a as [|c a IH]; cbn [app rfind_dot length].
  - by rewrite (rfind_dot_absent b Hb), N.eqb_refl.
  - by rewrite IH.
Qed.

(** What [with_suffix] builds, in terms of the text of the name. *)
Lemma with_suffix_mp4_of p merged :
  with_suffix p (py ".mp4") = Ok merged -> mp4_of p merged.
Proof.
  unfold with_suffix. case_bool_decide as Hn; [done|]. intros [= <-]. unfold suffix.
  destruct (rfind_dot (name p)) as [i|] eqn:Hi.
  - destruct (rfind_dot_Some _ _ Hi) as (a & b & Hname & Hlen & Hb).
    destruct ((0 <? i) && (i <? length (name p) - 1)) eqn:Hc.
    + apply andb_true_iff in Hc as [Hpos Hend].
      apply Nat.ltb_lt in Hpos, Hend.
      assert (drop i (name p) = dot :: b) as Hdrop.
      { rewrite Hname, <- Hlen. by rewrite drop_app_length. }
      assert (take (length (name p) - length (drop i (name p))) (name p) = a) as Htake.
      { rewrite Hdrop, Hname, length_app. cbn [length].
        replace (length a + S (length b) - S (length b))%nat with (length a) by lia.
        by rewrite take_app_length. }
      exists a, (dot :: b). rewrite Htake. split_and!; [done|done|].
      left. exists b. rewrite Hname, length_app in Hend. cbn [length] in Hend.
      split_and!; [done| |done|].
      * intros ->. cbn [length] in Hend. lia.
      * intros ->. cbn [length] in Hlen. lia.
    + exists (name p), []. cbn [length]. rewrite Nat.sub_0_r, firstn_all, app_nil_r.
      split_and!; [done|done|]. right. split; [done|].
      intros a' b' Heq Hb'. rewrite Heq, (rfind_dot_app a' b' Hb') in Hi.
      injection Hi as <-. rewrite Heq, length_app in Hc. cbn [length] in Hc.
      destruct a' as [|x a']; [by left|]. destruct b' as [|y b']; [by right|].
      cbn [length] in Hc. apply andb_false_iff in Hc as [Hc|Hc];
        apply Nat.ltb_ge in Hc; lia.
  - exists (name p), []. cbn [length]. rewrite Nat.sub_0_r, firstn_all, app_nil_r.
    split_and!; [done|done|]. right. split; [done|].
    intros a' b' Heq Hb'. by rewrite Heq, (rfind_dot_app a' b' Hb') in Hi.
Qed.

(** C3: after a successful attempt whose prepared path has a file name,
    the call returns the prepared path with its suffix replaced by [.mp4]
    if that exists, else the prepared path if it exists, else the first
    manifest entry with a non-empty [filepath] that exists, else raises the
    [FileNotFoundError] for the missing result; so the [.mp4] file wins
    when both it and the prepared file exist. *)
Theorem result_priority env url output_dir cb w info prepared :
  let acquired := acquire env url output_dir cb (fresh w) in
  acquired.1 = Ok (info, prepared) ->
  name prepared <> [] ->
  exists merged,
    with_suffix prepared (py ".mp4") = Ok merged
    /\ mp4_of prepared merged
    /\ download_highest_quality env url output_dir cb w
       = (if disk acquired.2 merged then Ok merged
          else if disk acquired.2 prepared then Ok prepared
          else match first_existing (disk acquired.2)
                       (default [] (requested_downloads info)) with
               | Some p => Ok p
               | None => Raise (FileNotFoundError result_missing_message)
               end,
          acquired.2)
    /\ (disk acquired.2 merged = true -> disk acquired.2 prepared = true ->
        (download_highest_quality env url output_dir cb w).1 = Ok merged).
Proof.
  intros acquired Hok Hname. rewrite download_unfold. subst acquired.
  destruct (acquire env url output_dir cb (fresh w)) as [r w1]. simpl in *. subst r.
  simpl. destruct (locate_spec info prepared w1 Hname) as (merged & Hm & ->).
  exists merged. split_and!; [done|by apply with_suffix_mp4_of|done|].
  intros -> _. done.
Qed.

Lemma result_priority_witness :
  mp4_of (Path_of_str (py "/srv/downloads/clip.webm"))
    (Path_of_str (py "/srv/downloads/clip.mp4"))
  /\ (download_highest_quality Samples.env_merging Samples.video_url Samples.out_dir
        true Samples.empty_world).1 = Ok (Path_of_str (py "/srv/downloads/clip.mp4")).
Proof.
  destruct (result_priority Samples.env_merging Samples.video_url Samples.out_dir true
              Samples.empty_world {| requested_downloads := None |}
              (Path_of_str (py "/srv/downloads/clip.webm")) eq_refl)
    as (merged & Hm & Hmp4 & _ & Hboth).
  - by vm_compute.
  - vm_compute in Hm. injection Hm as <-. split; [exact Hmp4|].
    apply Hboth; reflexivity.
Defined.

(** Both files exist and the merged one is returned. *)
Example merged_file_wins :
  (download_highest_quality Samples.env_merging Samples.video_url Samples.out_dir true
     Samples.empty_world).1 = Ok (Path_of_str (py "/srv/downloads/clip.mp4")).
Proof. vm_compute. reflexivity. Qed.

End downloader_facts.

(** ** The application *)

Section app_facts.
Import App.

Ltac sm := unfold bindM, ret, raise, lift, try_except, get, modify in *; simpl in *.

(** *** The handler *)

Lemma call_orchestrator_trace env url w :
  exists infos,
    trace (call_orchestrator env url w).2
    = trace w ++ EvOrchestrator url :: (EvLogInfo <$> infos).
Proof. unfold call_orchestrator. simpl. by eexists. Qed.

(** The handler, case by case, for a URL that passes the check. *)
Lemma download_video_cases env form_url w :
  let url := strip (or_empty form_url) in
  url <> [] ->
  let o := call_orchestrator env url w in
  download_video env form_url w =
    match o.1 with
    | Raise exc =>
        (Raise (HTTPException 502 (py "Failed to download video: " ++ str_of_exn exc)),
         add_events o.2 [EvLogException (py "Video download failed")])
    | Ok video_path =>
        match open_error env with
        | Some e => (Raise e, o.2)
        | None =>
            match send_file_error env with
            | Some e =>
                (Raise e, add_events o.2 [EvOpen video_path; EvCloseHandle video_path])
            | None =>
                (Ok {| sent_file := video_path; as_attachment := true;
                       download_name := name video_path;
                       on_close := [remove_file video_path] |},
                 add_events o.2 [EvOpen video_path; EvSendFile video_path])
            end
        end
    end.
Proof.
  intros url Hurl o. unfold download_video. fold url.
  rewrite bool_decide_eq_false_2 by done.
  unfold bindM at 1. unfold try_except at 1. fold o.
  destruct o as [[video_path|exc] w1]; simpl.
  - destruct (open_error env) as [e|]; [done|].
    destruct (send_file_error env) as [e|]; unfold emit, add_events; sm.
    + by rewrite <- app_assoc.
    + by rewrite <- app_assoc.
  - unfold emit, abort, add_events. by sm.
Qed.

(** C4: a request whose [url] field is missing, empty or blank after
    trimming is answered 400 with the fixed message and leaves no trace,
    so the orchestrator is not called; any other request calls the
    orchestrator, first thing, with the trimmed URL. *)
Theorem url_validation env form_url w :
  let url := strip (or_empty form_url) in
  (url = [] ->
     download_video env form_url w = (Raise (HTTPException 400 invalid_url_message), w)
     /\ serve env form_url w = (Ok 400%Z, w))
  /\ (url <> [] ->
        exists evs,
          trace (download_video env form_url w).2 = trace w ++ EvOrchestrator url :: evs).
Proof.
  intros url. split.
  - intros Hurl. unfold serve, download_video. fold url. rewrite Hurl. by sm.
  - intros Hurl. rewrite (download_video_cases env form_url w Hurl). fold url.
    destruct (call_orchestrator_trace env url w) as [infos Ht].
    destruct (call_orchestrator env url w) as [[video_path|exc] w1]; simpl in *.
    + destruct (open_error env); [by eexists|].
      destruct (send_file_error env); simpl; rewrite Ht, <- app_assoc; by eexists.
    + rewrite Ht, <- app_assoc. by eexists.
Qed.

Lemma url_validation_witness :
  (download_video Samples.req_env (Some (py "   ")) Samples.req_world
     = (Raise (HTTPException 400 invalid_url_message), Samples.req_world)
   /\ serve Samples.req_env (Some (py "   ")) Samples.req_world
      = (Ok 400%Z, Samples.req_world))
  /\ exists evs,
       trace (download_video Samples.req_env (Some (py " https://youtu.be/x ")) Samples.req_world).2
       = trace Samples.req_world ++ EvOrchestrator (py "https://youtu.be/x") :: evs.
Proof.
  split.
  - by apply (proj1 (url_validation Samples.req_env (Some (py "   ")) Samples.req_world)).
  - by apply (proj2 (url_validation Samples.req_env (Some (py " https://youtu.be/x "))
                       Samples.req_world)).
Defined.

(** A missing field is rejected like an empty one. *)
Example missing_url_rejected :
  serve Samples.req_env None Samples.req_world = (Ok 400%Z, Samples.req_world).
Proof. reflexivity. Qed.

(** So is a field made of a no-break space, an em space and a tab. *)
Example blank_unicode_url_rejected :
  serve Samples.req_env (Some [160%N; 8195%N; 9%N]) Samples.req_world
  = (Ok 400%Z, Samples.req_world).
Proof. reflexivity. Qed.

(** *** The sweeper *)

(** The loop body: it raises exactly when the entry, a regular file, is
    gone at [stat()]; what [unlink] answers never makes it raise. *)
Lemma sweep_entry_spec o iv n w :
  sweep_entry o iv n w =
    if vanished o n w then (Raise (FileNotFoundError n), without n w)
    else (Ok tt, after_entry o iv n w).
Proof.
  unfold sweep_entry, vanished, without, after_entry, due, is_file, interference, stat,
    unlink_entry, emit_sweep. sm.
  destruct (dir w !! n) as [f|] eqn:Hn; simpl; [|done].
  destruct (is_regular f); simpl; [|done].
  destruct (vanishes o n); simpl; [by rewrite lookup_delete_eq|].
  rewrite Hn. simpl.
  destruct (_ <? _)%Z; simpl; [done|]. rewrite Hn.
  destruct (unlink_refusal o n) as [[]|]; by sm.
Qed.

Lemma after_entry_dir o iv n w m :
  dir (after_entry o iv n w) !! m =
    match dir w !! m with
    | Some f => if bool_decide (m = n) && swept o iv n f then None else Some f
    | None => None
    end.
Proof.
  unfold after_entry, swept.
  destruct (decide (m = n)) as [->|Hne].
  - rewrite bool_decide_eq_true_2 by done.
    destruct (dir w !! n) as [f|] eqn:Hn; [|by rewrite Hn].
    destruct (due o iv n f); simpl; [|by rewrite Hn].
    destruct (unlink_refusal o n) as [[]|]; simpl;
      rewrite ?lookup_delete_eq, ?Hn; done.
  - rewrite bool_decide_eq_false_2 by done. simpl.
    destruct (dir w !! n) as [f|] eqn:Hn; [|by destruct (dir w !! m)].
    destruct (due o iv n f); [|by destruct (dir w !! m)].
    destruct (unlink_refusal o n) as [[]|]; simpl;
      rewrite ?lookup_delete_ne by done; by destruct (dir w !! m).
Qed.

Lemma after_entry_log o iv n w :
  exists evs,
    log (after_entry o iv n w) = log w ++ evs /\
    forall f, dir w !! n = Some f -> due o iv n f = true ->
              is_Some (unlink_refusal o n) ->
              EvLogException (cleanup_failed_message o n) ∈ evs.
Proof.
  unfold after_entry.
  destruct (dir w !! n) as [f|] eqn:Hn.
  2:{ exists []. by rewrite app_nil_r. }
  destruct (due o iv n f) eqn:Hdue.
  2:{ exists []. rewrite app_nil_r. split; [done|]. by intros ? [= <-] ?; congruence. }
  destruct (unlink_refusal o n) as [k|].
  - eexists. split; [done|]. intros. by left.
  - exists []. rewrite app_nil_r. split; [done|]. by intros ? _ _ [? [=]].
Qed.

Lemma vanished_after_entry o iv n m w :
  vanished o m w = false -> vanished o m (after_entry o iv n w) = false.
Proof.
  unfold vanished. rewrite after_entry_dir.
  destruct (dir w !! m) as [f|]; [|done]. intros Hm.
  by destruct (bool_decide (m = n) && swept o iv n f).
Qed.

(** The loop over a listing without repetition in which no file vanishes:
    it does not raise; an entry of the listing goes exactly when it is
    swept; failures are logged. *)
Lemma sweep_names o iv names w :
  NoDup names ->
  Forall (fun n => vanished o n w = false) names ->
  exists w' evs,
    for_each (sweep_entry o iv) names w = (Ok tt, w')
    /\ (forall m, dir w' !! m =
                 match dir w !! m with
                 | Some f => if bool_decide (m ∈ names) && swept o iv m f
                             then None else Some f
                 | None => None
                 end)
    /\ log w' = log w ++ evs
    /\ (forall n f, n ∈ names -> dir w !! n = Some f -> due o iv n f = true ->
                   is_Some (unlink_refusal o n) ->
                   EvLogException (cleanup_failed_message o n) ∈ evs).
Proof.
  intros Hnd. revert w. induction Hnd as [|n rest Hn Hnd IH]; intros w Hstay.
  - exists w, []. simpl. split_and!; [done| |by rewrite app_nil_r|by intros ?? ?%elem_of_nil].
    intros m. by destruct (dir w !! m).
  - apply Forall_cons in Hstay as [Hstay_n Hstay].
    simpl. unfold bindM at 1. rewrite sweep_entry_spec, Hstay_n.
    destruct (IH (after_entry o iv n w)) as (w' & evs & -> & Hdir & Hlog & Hlogged).
    { eapply Forall_impl; [exact Hstay|]. intros m. apply vanished_after_entry. }
    destruct (after_entry_log o iv n w) as (evs0 & Hlog0 & Hlogged0).
    exists w', (evs0 ++ evs). split_and!; [done| | |].
    + intros m. rewrite Hdir, after_entry_dir.
      destruct (dir w !! m) as [f|]; [|done].
      destruct (decide (m = n)) as [->|Hne].
      * rewrite (bool_decide_eq_true_2 (n = n)) by done.
        rewrite (bool_decide_eq_true_2 (n ∈ n :: rest)) by (by left).
        rewrite (bool_decide_eq_false_2 (n ∈ rest)) by done. simpl.
        by destruct (swept o iv n f).
      * rewrite (bool_decide_eq_false_2 (m = n)) by done. simpl.
        destruct (decide (m ∈ rest)) as [Hin|Hnin].
        -- rewrite !bool_decide_eq_true_2; [done|by right|done].
        -- rewrite !bool_decide_eq_false_2; [done| |done].
           intros [?|?]%elem_of_cons; done.
    + by rewrite Hlog, Hlog0, app_assoc.
    + intros m f [->|Hin]%elem_of_cons Hm Hdue Hrefused.
      * apply elem_of_app. left. by eapply Hlogged0.
      * apply elem_of_app. right. apply (Hlogged m f); try done.
        rewrite after_entry_dir, Hm.
        rewrite bool_decide_eq_false_2; [done|]. intros ->. done.
Qed.

(** A round in which no file vanishes. *)
Lemma sweep_tick_spec o iv w :
  (forall n, vanished o n w = false) ->
  exists w' evs,
    sweep_tick o iv w = (Ok tt, w')
    /\ (forall n, dir w' !! n =
                 match dir w !! n with
                 | Some f => if swept o iv n f then None else Some f
                 | None => None
                 end)
    /\ log w' = log w ++ EvSleep (iv * 1000) :: evs
    /\ (forall n f, dir w !! n = Some f -> due o iv n f = true ->
                   is_Some (unlink_refusal o n) ->
                   EvLogException (cleanup_failed_message o n) ∈ evs).
Proof.
  intros Hstay. unfold sweep_tick, emit_sweep, glob_star. sm.
  destruct (sweep_names o iv ((map_to_list (dir w)).*1)
              {| dir := dir w; log := log w ++ [EvSleep (iv * 1000)] |})
    as (w' & evs & -> & Hdir & Hlog & Hlogged);
    [apply NoDup_fst_map_to_list|apply Forall_forall; intros n _; apply Hstay|].
  simpl in *. exists w', evs.
  assert (forall n f, dir w !! n = Some f -> n ∈ (map_to_list (dir w)).*1) as Hin.
  { intros n f Hn. apply list_elem_of_fmap. exists (n, f). split; [done|].
    by apply elem_of_map_to_list. }
  split_and!; [done| |by rewrite Hlog, <- app_assoc|].
  - intros n. rewrite Hdir. destruct (dir w !! n) as [f|] eqn:Hn; [|done].
    by rewrite bool_decide_eq_true_2 by by eapply Hin.
  - intros n f Hn. apply Hlogged; [by eapply Hin|done].
Qed.

(** C6 fails on the code when a file vanishes under the sweeper.  The
    directory lists [clip.mp4] and then [stale.mp4], both regular files
    older than the interval, and another deleter removes [clip.mp4] between
    the sweeper's [is_file()] and [stat()].  The [stat()] of line 26 is
    outside the [try] and raises [FileNotFoundError]: the round ends there,
    [stale.mp4] is not removed although nothing refuses its [unlink],
    nothing is logged, and the worker is over, whatever number of rounds was
    to come. *)
Theorem sweeper_dies_on_vanished_file :
  let o := Samples.sweep_oracle_race in
  let w := Samples.sweep_world_race in
  let stale := {| is_regular := true; st_mtime := 0 |} in
  let r := sweep_tick o 300 w in
  ((map_to_list (dir w)).*1 = [py "clip.mp4"; py "stale.mp4"]
   /\ dir w !! py "stale.mp4" = Some stale
   /\ swept o 300 (py "stale.mp4") stale = true)
  /\ r.1 = Raise (FileNotFoundError (py "clip.mp4"))
  /\ dir r.2 !! py "stale.mp4" = Some stale
  /\ log r.2 = [EvSleep 300000]
  /\ (forall others rounds,
        (forall d, others 0%nat d = d) ->
        _worker (fun _ => o) others 300 0 (S rounds) w
        = (Raise (FileNotFoundError (py "clip.mp4")), r.2)).
Proof.
  cbv zeta.
  assert ((sweep_tick Samples.sweep_oracle_race 300 Samples.sweep_world_race).1
          = Raise (FileNotFoundError (py "clip.mp4"))) as Hraise by by vm_compute.
  split_and!; [by vm_compute|by vm_compute|by vm_compute|exact Hraise|
               by vm_compute|by vm_compute|].
  intros others rounds Hid. cbn [_worker]. unfold bindM at 1, modify. rewrite Hid.
  unfold bindM at 1.
  change {| dir := dir Samples.sweep_world_race; log := log Samples.sweep_world_race |}
    with Samples.sweep_world_race.
  destruct (sweep_tick Samples.sweep_oracle_race 300 Samples.sweep_world_race)
    as [r1 w1].
  cbn [fst snd] in *. by subst r1.
Qed.

(** The round without the race, computed: only [old.mp4] goes. *)
Example sweep_round_computed :
  let w' := (sweep_tick Samples.sweep_oracle 300 Samples.sweep_world).2 in
  (dir w' !! py "old.mp4", dir w' !! py "locked.mp4", size (dir w'), length (log w'))
  = (None, Some {| is_regular := true; st_mtime := 0 |}, 3%nat, 2%nat).
Proof. vm_compute. reflexivity. Qed.

(** *** The post-response deleter *)

(** One pass of the loop of [_cleanup]. *)
Lemma delete_attempts_step env p attempt rest w :
  delete_attempts env p (attempt :: rest) w =
    let w1 := add_events w [EvUnlink p] in
    if negb (files w p) then (Ok tt, w1)
    else match unlink_answer env attempt with
         | None => (Ok tt, add_events (gone p w1) [EvLogInfo (deleted_message p)])
         | Some ENOENT => (Ok tt, gone p w1)
         | Some _ =>
             if bool_decide (attempt = 4%nat)
             then (Ok tt, add_events w1 [EvLogException (delete_failed_message p)])
             else delete_attempts env p rest (add_events w1 [EvSleep 500])
         end.
Proof.
  simpl. unfold unlink, emit, remove_path, add_events, gone. sm.
  destruct (files w p); simpl; [|done].
  destruct (unlink_answer env attempt) as [[]|]; simpl; try done;
    by case_bool_decide.
Qed.

Lemma unlink_calls_app p evs1 evs2 :
  unlink_calls p (evs1 ++ evs2) = (unlink_calls p evs1 + unlink_calls p evs2)%nat.
Proof. unfold unlink_calls. by rewrite List.filter_app, length_app. Qed.

(** The loop never raises, only adds to the trace, and calls unlink at
    most once per attempt index. *)
Lemma delete_attempts_ok env p attempts w :
  exists w' evs,
    delete_attempts env p attempts w = (Ok tt, w')
    /\ trace w' = trace w ++ evs
    /\ (unlink_calls p evs <= length attempts)%nat.
Proof.
  revert w. induction attempts as [|attempt rest IH]; intros w.
  - exists w, []. simpl. split_and!; [done|by rewrite app_nil_r|done].
  - rewrite delete_attempts_step.
    assert (unlink_calls p [EvUnlink p] = 1%nat) as Hone.
    { unfold unlink_calls. simpl. by rewrite bool_decide_eq_true_2. }
    cbv zeta. destruct (negb (files w p)).
    { eexists _, [EvUnlink p]. split_and!; [done|done|]. rewrite Hone. simpl. lia. }
    destruct (unlink_answer env attempt) as [k|].
    2:{ eexists _, [EvUnlink p; EvLogInfo (deleted_message p)].
        split_and!; [done|by simpl; rewrite <- app_assoc|].
        unfold unlink_calls. simpl. rewrite bool_decide_eq_true_2 by done. simpl. lia. }
    assert (exists w' evs,
               (if bool_decide (attempt = 4%nat)
                then (Ok tt, add_events (add_events w [EvUnlink p])
                               [EvLogException (delete_failed_message p)])
                else delete_attempts env p rest
                       (add_events (add_events w [EvUnlink p]) [EvSleep 500]))
               = (Ok tt, w')
               /\ trace w' = trace w ++ evs
               /\ (unlink_calls p evs <= length (attempt :: rest))%nat) as Hfailed.
    { case_bool_decide.
      - eexists _, [EvUnlink p; EvLogException (delete_failed_message p)].
        split_and!; [done|by simpl; rewrite <- app_assoc|].
        unfold unlink_calls. simpl. rewrite bool_decide_eq_true_2 by done. simpl. lia.
      - destruct (IH (add_events (add_events w [EvUnlink p]) [EvSleep 500]))
          as (w' & evs & -> & Ht & Hc).
        exists w', ([EvUnlink p; EvSleep 500] ++ evs).
        split_and!; [done|by rewrite Ht; simpl; rewrite <- !app_assoc|].
        rewrite unlink_calls_app. unfold unlink_calls at 1. simpl.
        rewrite bool_decide_eq_true_2 by done. simpl. lia. }
    destruct k; try exact Hfailed.
    eexists _, [EvUnlink p]. split_and!; [done|done|]. rewrite Hone. simpl. lia.
Qed.

Lemma cleanup_unfold env p w :
  _cleanup env p w =
    delete_attempts env p (seq 0 5) (add_events w (close_events env p ++ [EvSleep 1000])).
Proof.
  unfold _cleanup, close_handle, close_events, emit, add_events. sm.
  destruct (close_error env); simpl; by rewrite <- !app_assoc.
Qed.

Lemma close_events_no_unlink env p : unlink_calls p (close_events env p) = 0%nat.
Proof. unfold close_events, unlink_calls. by destruct (close_error env). Qed.

Lemma cleanup_ok env p w :
  exists w' evs,
    _cleanup env p w = (Ok tt, w')
    /\ trace w' = trace w ++ evs
    /\ (unlink_calls p evs <= 5)%nat.
Proof.
  rewrite cleanup_unfold.
  destruct (delete_attempts_ok env p (seq 0 5)
              (add_events w (close_events env p ++ [EvSleep 1000])))
    as (w' & evs & -> & Ht & Hc).
  exists w', ((close_events env p ++ [EvSleep 1000]) ++ evs).
  split_and!; [done|by rewrite Ht; cbn [add_events trace]; rewrite <- !app_assoc|].
  rewrite !unlink_calls_app, close_events_no_unlink. simpl in *. lia.
Qed.

Lemma run_callback_ok env c w :
  exists w' evs,
    run_callback env c w = (Ok tt, w')
    /\ trace w' = trace w ++ EvThreadStart :: evs.
Proof.
  destruct c as [p]. unfold run_callback, emit. sm.
  destruct (cleanup_ok env p {| files := files w; trace := trace w ++ [EvThreadStart] |})
    as (w' & evs & -> & Ht & _).
  exists w', evs. split; [done|]. by rewrite Ht; simpl; rewrite <- app_assoc.
Qed.

Lemma callbacks_ok env callbacks w :
  exists w' evs,
    for_each (run_callback env) callbacks w = (Ok tt, w')
    /\ trace w' = trace w ++ evs.
Proof.
  revert w. induction callbacks as [|c rest IH]; intros w; simpl.
  - exists w, []. by rewrite app_nil_r.
  - unfold bindM at 1.
    destruct (run_callback_ok env c w) as (w1 & evs1 & -> & Ht1).
    destruct (IH w1) as (w2 & evs2 & -> & Ht2).
    exists w2, (EvThreadStart :: evs1 ++ evs2). split; [done|].
    rewrite Ht2, Ht1, <- app_assoc. done.
Qed.

(** A failed attempt on a present file: give up after the fifth, else
    pause and go on. *)
Lemma delete_attempts_failed env p attempt rest w k :
  files w p = true -> unlink_answer env attempt = Some k -> k <> ENOENT ->
  delete_attempts env p (attempt :: rest) w =
    if bool_decide (attempt = 4%nat)
    then (Ok tt, add_events (add_events w [EvUnlink p])
                   [EvLogException (delete_failed_message p)])
    else delete_attempts env p rest (add_events (add_events w [EvUnlink p]) [EvSleep 500]).
Proof.
  intros Hp Hk Hne. rewrite delete_attempts_step. cbv zeta.
  rewrite Hp, Hk. simpl. by destruct k.
Qed.

Lemma serve_unfold env form_url w :
  serve env form_url w =
    match download_video env form_url w with
    | (Ok response, w1) =>
        if closes_response env then
          match for_each (run_callback env) (on_close response)
                  (add_events w1 [EvResponseSent]) with
          | (Ok _, w2) => (Ok 200%Z, w2)
          | (Raise (HTTPException code _), w2) => (Ok code, w2)
          | (Raise _, w2) => (Ok 500%Z, w2)
          end
        else (Ok 200%Z, add_events w1 [EvResponseSent])
    | (Raise (HTTPException code _), w1) => (Ok code, w1)
    | (Raise _, w1) => (Ok 500%Z, w1)
    end.
Proof.
  unfold serve, emit, add_events. sm.
  destruct (download_video env form_url w) as [[response|e] w1]; simpl;
    [|by destruct e].
  destruct (closes_response env); [|done].
  destruct (for_each _ _ _) as [[[]|e] w2]; [done|by destruct e].
Qed.

(** The status of a request is decided by the handler: what the callbacks of
    the response meet does not change it. *)
Lemma serve_status env form_url w :
  (serve env form_url w).1
  = Ok (match (download_video env form_url w).1 with
        | Ok _ => 200%Z
        | Raise e => status_of_exn e
        end).
Proof.
  rewrite serve_unfold.
  destruct (download_video env form_url w) as [[response|e] w1]; cbn [fst];
    [|by destruct e].
  destruct (closes_response env); [|done].
  by destruct (callbacks_ok env (on_close response) (add_events w1 [EvResponseSent]))
    as (w2 & evs & -> & _).
Qed.

(** C8: the deleter calls unlink at most 5 times and never raises; on a
    file already absent it stops after the first call, logging nothing
    about the deletion; when all 5 attempts fail it pauses 0.5 s between
    them, logs the failure and returns, leaving the file; [remove_file]
    returns to whoever calls it, and the status of the request is the one
    the handler decided, whatever the deleter meets; and in the sweeper no
    answer of [unlink] makes the loop body raise: it raises only when the
    file is gone at [stat()], before any [unlink], and an [unlink] that is
    refused, also on a file already removed, is logged. *)
Theorem deleter_bounded env video_path w :
  (exists w' evs,
      _cleanup env video_path w = (Ok tt, w')
      /\ trace w' = trace w ++ evs
      /\ (unlink_calls video_path evs <= 5)%nat)
  /\ (files w video_path = false ->
      exists w',
        _cleanup env video_path w = (Ok tt, w')
        /\ trace w' = trace w ++ close_events env video_path
                        ++ [EvSleep 1000; EvUnlink video_path])
  /\ (files w video_path = true ->
      (forall i, (i < 5)%nat -> exists k, unlink_answer env i = Some k /\ k <> ENOENT) ->
      exists w',
        _cleanup env video_path w = (Ok tt, w')
        /\ files w' = files w
        /\ trace w' = trace w ++ close_events env video_path
                        ++ [EvSleep 1000;
                            EvUnlink video_path; EvSleep 500;
                            EvUnlink video_path; EvSleep 500;
                            EvUnlink video_path; EvSleep 500;
                            EvUnlink video_path; EvSleep 500;
                            EvUnlink video_path;
                            EvLogException (delete_failed_message video_path)])
  /\ ((forall callback, exists w', run_callback env callback w = (Ok tt, w'))
      /\ forall form_url,
           (serve env form_url w).1
           = Ok (match (download_video env form_url w).1 with
                 | Ok _ => 200%Z
                 | Raise e => status_of_exn e
                 end))
  /\ (forall o interval_seconds n sw,
        (sweep_entry o interval_seconds n sw).1
        = (if vanished o n sw then Raise (FileNotFoundError n) else Ok tt)
        /\ forall f k,
             dir sw !! n = Some f -> due o interval_seconds n f = true ->
             vanishes o n = false -> unlink_refusal o n = Some k ->
             (sweep_entry o interval_seconds n sw).1 = Ok tt
             /\ log (sweep_entry o interval_seconds n sw).2
                = log sw ++ [EvLogException (cleanup_failed_message o n)]).
Proof.
  split_and!.
  - apply cleanup_ok.
  - intros Habsent. rewrite cleanup_unfold.
    change (seq 0 5) with [0; 1; 2; 3; 4]%nat. rewrite delete_attempts_step.
    cbv zeta. cbn [add_events files]. rewrite Habsent. simpl negb. cbv iota.
    eexists. split; [done|]. cbn [add_events trace]. by rewrite <- !app_assoc.
  - intros Hpresent Hfail. rewrite cleanup_unfold.
    change (seq 0 5) with [0; 1; 2; 3; 4]%nat.
    destruct (Hfail 0%nat ltac:(lia)) as (k0 & Hk0 & Hne0).
    destruct (Hfail 1%nat ltac:(lia)) as (k1 & Hk1 & Hne1).
    destruct (Hfail 2%nat ltac:(lia)) as (k2 & Hk2 & Hne2).
    destruct (Hfail 3%nat ltac:(lia)) as (k3 & Hk3 & Hne3).
    destruct (Hfail 4%nat ltac:(lia)) as (k4 & Hk4 & Hne4).
    rewrite (delete_attempts_failed _ _ _ _ _ k0) by done.
    rewrite bool_decide_eq_false_2 by done.
    rewrite (delete_attempts_failed _ _ _ _ _ k1) by done.
    rewrite bool_decide_eq_false_2 by done.
    rewrite (delete_attempts_failed _ _ _ _ _ k2) by done.
    rewrite bool_decide_eq_false_2 by done.
    rewrite (delete_attempts_failed _ _ _ _ _ k3) by done.
    rewrite bool_decide_eq_false_2 by done.
    rewrite (delete_attempts_failed _ _ _ _ _ k4) by done.
    rewrite bool_decide_eq_true_2 by done.
    eexists. split_and!; [done|done|].
    cbn [add_events trace]. rewrite <- !app_assoc. done.
  - intros callback. destruct (run_callback_ok env callback w) as (w' & evs & -> & _).
    by exists w'.
  - intros form_url. apply serve_status.
  - intros o iv n sw. rewrite sweep_entry_spec. split; [by destruct (vanished o n sw)|].
    intros f k Hn Hdue Hstays Hk.
    assert (vanished o n sw = false) as ->
      by (unfold vanished; by rewrite Hn, Hstays, andb_false_r).
    cbn [fst snd]. unfold after_entry. by rewrite Hn, Hdue, Hk.
Qed.

Lemma deleter_bounded_witness :
  (exists w',
      _cleanup Samples.req_env_stuck Samples.clip Samples.req_world = (Ok tt, w')
      /\ trace w' = trace Samples.req_world
                      ++ close_events Samples.req_env_stuck Samples.clip
                      ++ [EvSleep 1000; EvUnlink Samples.clip])
  /\ (exists w',
        _cleanup Samples.req_env_stuck Samples.clip Samples.clip_present = (Ok tt, w')
        /\ files w' = files Samples.clip_present
        /\ trace w' = trace Samples.clip_present
                        ++ close_events Samples.req_env_stuck Samples.clip
                        ++ [EvSleep 1000;
                            EvUnlink Samples.clip; EvSleep 500;
                            EvUnlink Samples.clip; EvSleep 500;
                            EvUnlink Samples.clip; EvSleep 500;
                            EvUnlink Samples.clip; EvSleep 500;
                            EvUnlink Samples.clip;
                            EvLogException (delete_failed_message Samples.clip)])
  /\ (serve Samples.req_env_stuck (Some Samples.video_url) Samples.req_world).1
     = Ok 200%Z.
Proof.
  split_and!.
  - apply (deleter_bounded Samples.req_env_stuck Samples.clip Samples.req_world).
    reflexivity.
  - apply (deleter_bounded Samples.req_env_stuck Samples.clip Samples.clip_present).
    + reflexivity.
    + intros i _. exists EACCES. by split.
  - destruct (deleter_bounded Samples.req_env_stuck Samples.clip Samples.req_world)
      as (_ & _ & _ & [_ Hstatus] & _).
    exact (Hstatus (Some Samples.video_url)).
Defined.

(** The file is held for two attempts and removed by the third. *)
Example deleter_third_attempt :
  let r := _cleanup Samples.req_env Samples.clip Samples.clip_present in
  r.1 = Ok tt
  /\ files r.2 Samples.clip = false
  /\ trace r.2 = [EvCloseHandle Samples.clip; EvSleep 1000;
                  EvUnlink Samples.clip; EvSleep 500;
                  EvUnlink Samples.clip; EvSleep 500;
                  EvUnlink Samples.clip;
                  EvLogInfo (deleted_message Samples.clip)].
Proof. vm_compute. by split_and!. Qed.

(** *** Deletion and the response *)

(** The handler itself starts no deleter, unlinks nothing, and is over
    before the response is sent. *)
Lemma download_video_quiet env form_url w :
  exists evs,
    trace (download_video env form_url w).2 = trace w ++ evs
    /\ Forall (fun e => deleter_event e = false /\ e <> EvResponseSent) evs.
Proof.
  destruct (decide (strip (or_empty form_url) = [])) as [Hurl|Hurl].
  - exists []. unfold download_video. rewrite Hurl. sm. by rewrite app_nil_r.
  - rewrite (download_video_cases env form_url w Hurl).
    destruct (call_orchestrator_trace env (strip (or_empty form_url)) w) as [infos Ht].
    assert (Forall (fun e => deleter_event e = false /\ e <> EvResponseSent)
              (EvOrchestrator (strip (or_empty form_url)) :: (EvLogInfo <$> infos)))
      as Hquiet.
    { constructor; [done|]. apply Forall_fmap, Forall_true. done. }
    destruct (call_orchestrator env (strip (or_empty form_url)) w)
      as [[video_path|exc] w1]; simpl in *.
    + destruct (open_error env); [by eexists|].
      destruct (send_file_error env); cbn [add_events trace snd];
        rewrite Ht, <- app_assoc; eexists; (split; [done|]);
        apply Forall_app; (split; [done|]); by repeat constructor.
    + rewrite Ht, <- app_assoc. eexists. split; [done|].
      apply Forall_app. split; [done|]. by repeat constructor.
Qed.

Lemma download_video_on_close env form_url w response :
  (download_video env form_url w).1 = Ok response ->
  on_close response = [remove_file (sent_file response)].
Proof.
  destruct (decide (strip (or_empty form_url) = [])) as [Hurl|Hurl].
  - unfold download_video. rewrite Hurl. by sm.
  - rewrite (download_video_cases env form_url w Hurl).
    destruct (call_orchestrator env (strip (or_empty form_url)) w)
      as [[video_path|exc] w1]; simpl; [|done].
    destruct (open_error env); [done|].
    destruct (send_file_error env); [done|]. by intros [= <-].
Qed.

(** In [l1 ++ x :: l2], whatever is neither in [l1] nor [x] comes after [x]. *)
Lemma split_after (l1 l2 before after : list event) x e :
  l1 ++ x :: l2 = before ++ e :: after -> e ∉ l1 -> e <> x -> x ∈ before.
Proof.
  revert before. induction l1 as [|a l1 IH]; intros before Heq Hnin Hne.
  - destruct before as [|b before]; simpl in Heq.
    + by injection Heq as -> _.
    + injection Heq as -> _. by left.
  - destruct before as [|b before]; simpl in Heq.
    + injection Heq as -> _. exfalso. apply Hnin. by left.
    + injection Heq as -> Heq. right. apply IH; [done| |done].
      intros Hin. apply Hnin. by right.
Qed.



(** A request served by the framework as it is: the response is sent and
    never closed, and the deleter does not run. *)
Example served_request_trace :
  trace (serve Samples.req_env (Some Samples.video_url) Samples.req_world).2
  = [EvOrchestrator Samples.video_url;
     EvLogInfo (py "50%"); EvLogInfo (py "100%");
     EvLogInfo (py "Download finished, processing...");
     EvOpen Samples.clip; EvSendFile Samples.clip;
     EvResponseSent].
Proof. vm_compute. reflexivity. Qed.

(** The same request under a server that closes the response, from the call
    of the orchestrator to the deletion. *)
Example closed_response_trace :
  trace (serve Samples.req_env_closing (Some Samples.video_url) Samples.req_world).2
  = [EvOrchestrator Samples.video_url;
     EvLogInfo (py "50%"); EvLogInfo (py "100%");
     EvLogInfo (py "Download finished, processing...");
     EvOpen Samples.clip; EvSendFile Samples.clip;
     EvResponseSent;
     EvThreadStart; EvCloseHandle Samples.clip; EvSleep 1000;
     EvUnlink Samples.clip; EvSleep 500;
     EvUnlink Samples.clip; EvSleep 500;
     EvUnlink Samples.clip;
     EvLogInfo (deleted_message Samples.clip)].
Proof. vm_compute. reflexivity. Qed.

End app_facts.

(** * Further properties *)

(** ** Trimming and the status line *)

Section text_facts.
Import Downloader App.

Ltac sm := unfold bindM, ret, raise, lift, try_except, get, modify in *; simpl in *.

Lemma lstrip_split s :
  exists pre,
    s = pre ++ lstrip s /\ blank pre /\
    (forall c t, lstrip s = c :: t -> is_space c = false).
Proof.
  unfold blank. induction s as [|c s (pre & Hs & Hpre & Hhead)]; simpl.
  - exists []. by split_and!.
  - destruct (is_space c) eqn:Hc.
    + exists (c :: pre). split_and!; [by simpl; f_equal|by constructor|done].
    + exists []. split_and!; [done|done|]. by intros ? ? [= <- _].
Qed.

Lemma lstrip_blank s : blank s -> lstrip s = [].
Proof. unfold blank. induction 1 as [|c s Hc _ IH]; simpl; [done|]. by rewrite Hc. Qed.

Lemma rstrip_split s :
  exists post,
    s = rstrip s ++ post /\ blank post /\
    (forall c, last (rstrip s) = Some c -> is_space c = false).
Proof.
  unfold rstrip. destruct (lstrip_split (reverse s)) as (pre & Hs & Hpre & Hhead).
  unfold blank in *. exists (reverse pre). split_and!.
  - rewrite <- reverse_app, <- Hs. by rewrite reverse_involutive.
  - by apply Forall_reverse.
  - intros c Hlast. rewrite last_reverse in Hlast.
    destruct (lstrip (reverse s)) as [|c' t] eqn:Hl; [done|].
    injection Hlast as ->. by eapply Hhead.
Qed.

(** [strip] cuts a blank off each end and leaves a text that neither starts
    nor ends with white space. *)
Lemma strip_split s :
  exists pre post,
    s = pre ++ strip s ++ post /\ blank pre /\ blank post /\
    (forall c t, strip s = c :: t -> is_space c = false) /\
    (forall c, last (strip s) = Some c -> is_space c = false).
Proof.
  unfold strip. destruct (lstrip_split s) as (pre & Hs & Hpre & Hhead).
  destruct (rstrip_split (lstrip s)) as (post & Hr & Hpost & Hlast).
  exists pre, post. split_and!; [by rewrite <- Hr|done|done| |done].
  intros c t Hc. rewrite Hc in Hr. by eapply Hhead.
Qed.

Lemma strip_blank_iff s : strip s = [] <-> blank s.
Proof.
  split.
  - intros Hs. destruct (strip_split s) as (pre & post & Heq & Hpre & Hpost & _).
    rewrite Hs in Heq. rewrite Heq. unfold blank in *. by apply Forall_app.
  - intros Hs. unfold strip. by rewrite (lstrip_blank s Hs).
Qed.

Lemma download_video_calls env form_url w :
  strip (or_empty form_url) <> [] ->
  exists evs,
    trace (download_video env form_url w).2
    = trace w ++ EvOrchestrator (strip (or_empty form_url)) :: evs.
Proof.
  intros Hurl. rewrite (download_video_cases env form_url w Hurl).
  destruct (call_orchestrator_trace env (strip (or_empty form_url)) w) as [infos Ht].
  destruct (call_orchestrator env (strip (or_empty form_url)) w)
    as [[video_path|exc] w1]; simpl in *.
  - destruct (open_error env); [by eexists|].
    destruct (send_file_error env); cbn [add_events trace snd];
      rewrite Ht, <- app_assoc; by eexists.
  - rewrite Ht, <- app_assoc. by eexists.
Qed.

(** X1: a [url] field that is missing or all white space is answered 400
    with nothing done; any other field reaches the orchestrator as the field
    with a blank cut off each end: a non-empty URL that neither starts nor
    ends with white space. *)
Theorem trimmed_url env form_url w :
  let field := or_empty form_url in
  (blank field ->
     download_video env form_url w = (Raise (HTTPException 400 invalid_url_message), w))
  /\ (~ blank field ->
       exists pre url post evs,
         field = pre ++ url ++ post /\ blank pre /\ blank post
         /\ url <> []
         /\ (forall c t, url = c :: t -> is_space c = false)
         /\ (forall c, last url = Some c -> is_space c = false)
         /\ trace (download_video env form_url w).2
            = trace w ++ EvOrchestrator url :: evs).
Proof.
  intros field. split.
  - intros Hblank%strip_blank_iff. unfold download_video. fold field.
    rewrite Hblank. by sm.
  - intros Hnot. assert (strip field <> []) as Hurl by by rewrite strip_blank_iff.
    destruct (strip_split field) as (pre & post & Heq & Hpre & Hpost & Hhead & Hlast).
    destruct (download_video_calls env form_url w Hurl) as [evs Ht].
    exists pre, (strip field), post, evs. by split_and!.
Qed.

Lemma trimmed_url_witness :
  download_video Samples.req_env (Some [32%N; 160%N]) Samples.req_world
  = (Raise (HTTPException 400 invalid_url_message), Samples.req_world)
  /\ exists pre url post evs,
       py " https://youtu.be/x " = pre ++ url ++ post /\ blank pre /\ blank post
       /\ url <> []
       /\ (forall c t, url = c :: t -> is_space c = false)
       /\ (forall c, last url = Some c -> is_space c = false)
       /\ trace (download_video Samples.req_env (Some (py " https://youtu.be/x "))
                   Samples.req_world).2
          = trace Samples.req_world ++ EvOrchestrator url :: evs.
Proof.
  split.
  - apply (proj1 (trimmed_url Samples.req_env (Some [32%N; 160%N]) Samples.req_world)).
    by repeat constructor.
  - apply (proj2 (trimmed_url Samples.req_env (Some (py " https://youtu.be/x "))
                    Samples.req_world)).
    intros Hblank. apply strip_blank_iff in Hblank. by vm_compute in Hblank.
Defined.

(** *** The status line *)

(** X2: [_format_status] yields the empty text exactly when there is nothing
    to show: percent and speed are blank and the ETA is blank or reads
    "ETA UNKNOWN" in any letter case. *)
Theorem format_status_empty_iff percent speed eta :
  _format_status percent speed eta = []
  <-> strip (or_empty percent) = [] /\ strip (or_empty speed) = []
      /\ (strip (or_empty eta) = []
          \/ upper (strip (or_empty eta)) = py "ETA UNKNOWN").
Proof.
  unfold _format_status, nonempty.
  destruct (strip (or_empty percent)) as [|c1 p] eqn:Hp;
    destruct (strip (or_empty speed)) as [|c2 sp] eqn:Hs;
    destruct (strip (or_empty eta)) as [|c3 e] eqn:He; simpl;
    repeat case_bool_decide; simpl.
  all: split;
    [ intros Hj; try discriminate Hj; split_and!;
      first [done | left; done | right; assumption]
    | intros (H1 & H2 & [H3|H3]); try discriminate H1; try discriminate H2;
      try discriminate H3; first [done | exfalso; auto] ].
Qed.

End text_facts.

(** ** More on the orchestrator *)

Section orchestrator_facts.
Import Downloader.

Ltac sm := unfold bindM, ret, raise, lift, try_except, get, modify in *; simpl in *.

Lemma hook_message_nonempty st m : hook_message st = Some m -> m <> [].
Proof.
  unfold hook_message. repeat case_bool_decide; try done.
  - unfold nonempty. case_bool_decide; [done|]. simpl. by intros [= <-].
  - intros [= <-]. by vm_compute.
Qed.

Lemma drop_repeats_Forall (P : str -> Prop) prev msgs :
  Forall P msgs -> Forall P (drop_repeats prev msgs).
Proof.
  intros H. revert prev. induction H as [|m msgs Hm _ IH]; intros prev; simpl;
    [constructor|].
  case_bool_decide; [apply IH|]. constructor; [done|apply IH].
Qed.

(** One invocation with the filter installed, in full. *)
Lemma invoke_printer env ydl url w :
  progress_hooks ydl = [hook (Some (printer true))] ->
  let run := engine env (length (invocations w)) (opts ydl) url in
  let msgs := omap hook_message (emitted run) in
  invoke env ydl url w =
    (match outcome run with
     | Ok r => Ok (r.1, Path_of_str r.2)
     | Raise e => Raise e
     end,
     {| disk := files_after run;
        delivered := delivered w ++ drop_repeats (last_report w) msgs;
        invocations := invocations w ++ [opts ydl];
        last_report := default (last_report w) (Some <$> last msgs) |}).
Proof.
  intros Hhooks run msgs. unfold invoke. rewrite Hhooks. fold run.
  unfold bindM at 1. rewrite hooks_feed, printer_feed. simpl. fold msgs.
  sm. by destruct (outcome run).
Qed.

(** One invocation without a callback, in full. *)
Lemma invoke_silent env ydl url w :
  progress_hooks ydl = [hook None] ->
  let run := engine env (length (invocations w)) (opts ydl) url in
  invoke env ydl url w =
    (match outcome run with
     | Ok r => Ok (r.1, Path_of_str r.2)
     | Raise e => Raise e
     end,
     {| disk := files_after run; delivered := delivered w;
        invocations := invocations w ++ [opts ydl];
        last_report := last_report w |}).
Proof.
  intros Hhooks run. unfold invoke. rewrite Hhooks. fold run.
  unfold bindM at 1. rewrite hooks_silent. sm. by destruct (outcome run).
Qed.

(** X3: through [hook] and [printer], the caller's sink never receives an
    empty message, whatever status records the engine reports. *)
Theorem sink_gets_no_empty_message env output_dir url fmt merge w :
  exists new,
    delivered (attempt env output_dir (Some (printer true)) url fmt merge w).2
    = delivered w ++ new
    /\ Forall (fun m => m <> []) new.
Proof.
  rewrite attempt_unfold.
  destruct (build_downloader _ _ _ _ _) as [ydl|e] eqn:Hb; simpl.
  - apply build_downloader_hooks in Hb. rewrite (invoke_printer env ydl url w Hb).
    simpl. eexists. split; [done|]. apply drop_repeats_Forall.
    apply Forall_forall. intros m (st & _ & Hm)%list_elem_of_omap.
    by eapply hook_message_nonempty.
  - exists []. by rewrite app_nil_r.
Qed.

(** X4: [build_downloader] succeeds exactly when the output directory can be
    made and, if merging is asked for, an ffmpeg was resolved; a directory
    error comes before the complaint about ffmpeg. *)
Theorem build_downloader_succeeds_iff env output_dir callback fmt merge :
  ((exists ydl, build_downloader env output_dir callback fmt merge = Ok ydl)
   <-> mkdir env output_dir = None
       /\ (merge = true -> is_Some (RESOLVED_FFMPEG (tools env))))
  /\ (forall k, mkdir env output_dir = Some k ->
        build_downloader env output_dir callback fmt merge
        = Raise (OSError k (str_of_Path output_dir))).
Proof.
  unfold build_downloader. split.
  - destruct (mkdir env output_dir) as [k|]; simpl.
    { split; [by intros [? ?]|by intros [? _]]. }
    destruct merge; simpl.
    + case_bool_decide as Hf; simpl.
      * split; [by intros _|by eexists].
      * split; [by intros [? ?]|]. intros [_ Hm]. by destruct Hf; apply Hm.
    + split; [by intros _|by eexists].
  - intros k ->. done.
Qed.

(** X5: what a successful [build_downloader] hands to the engine.  The merge
    set-up is all there or all absent: container, the two post-processors,
    their arguments and the directory of ffmpeg are present exactly when
    merging was asked for; a directory for ffprobe only besides one for
    ffmpeg; and the external downloader with its arguments exactly when
    aria2c was found. *)
Theorem built_options env output_dir callback fmt merge ydl :
  build_downloader env output_dir callback fmt merge = Ok ydl ->
  let o := opts ydl in
  format o = fmt
  /\ outtmpl o = str_of_Path (joinpath output_dir (py "%(title)s.%(ext)s"))
  /\ merge_output_format o = (if merge then Some (py "mp4") else None)
  /\ (postprocessors o <> [] <-> merge = true)
  /\ (postprocessor_args o <> [] <-> merge = true)
  /\ (is_Some (ffmpeg_location o) <-> merge = true)
  /\ (is_Some (ffprobe_location o) ->
        is_Some (ffmpeg_location o) /\ is_Some (RESOLVED_FFPROBE (tools env)))
  /\ (is_Some (external_downloader o) <-> truthy (ARIA2C_EXECUTABLE (tools env)) = true)
  /\ (external_downloader_args o <> [] <-> is_Some (external_downloader o)).
Proof.
  unfold build_downloader. destruct (mkdir env output_dir); simpl; [done|].
  destruct merge; simpl.
  - case_bool_decide as Hf; simpl; [|done]. intros [= <-]. simpl.
    destruct Hf as [f Hf]. rewrite Hf. simpl.
    split_and!; try done.
    + intros Hp. split; [by eexists|].
      destruct (RESOLVED_FFPROBE (tools env)); [by eexists|by destruct Hp].
    + destruct (truthy _); split; try done; try (by eexists); try (by intros [? ?]).
    + destruct (truthy _); split; try done; try (by eexists); try (by intros [? ?]).
  - intros [= <-]. simpl. split_and!; try done.
    + destruct (truthy _); split; try done; try (by eexists); try (by intros [? ?]).
    + destruct (truthy _); split; try done; try (by eexists); try (by intros [? ?]).
Qed.

Lemma built_options_witness :
  exists ydl,
    build_downloader Samples.env_merging Samples.out_dir None default_format_selector true
    = Ok ydl
    /\ merge_output_format (opts ydl) = Some (py "mp4")
    /\ is_Some (ffmpeg_location (opts ydl)).
Proof.
  destruct (build_downloader Samples.env_merging Samples.out_dir None
              default_format_selector true) as [ydl|e] eqn:Hb; [|by vm_compute in Hb].
  exists ydl. split; [done|].
  destruct (built_options _ _ _ _ _ _ Hb) as (_ & _ & Hm & _ & _ & Hloc & _).
  split; [exact Hm|]. by apply Hloc.
Defined.

Lemma attempt_made env output_dir cb url fmt merge w :
  invocations (attempt env output_dir (callback_of cb) url fmt merge w).2
  = invocations w
    ++ made_by (build_downloader env output_dir (callback_of cb) fmt merge).
Proof.
  rewrite attempt_unfold.
  destruct (build_downloader _ _ _ _ _) as [ydl|e] eqn:Hb; simpl;
    [|by rewrite app_nil_r].
  destruct (invoke_spec env ydl url cb w) as (w' & -> & _ & Hi);
    [by eapply build_downloader_hooks|done].
Qed.

Lemma retry_made env url output_dir cb w1 :
  invocations (retry env url output_dir cb w1).2
  = invocations w1
    ++ made_by (build_downloader env output_dir (callback_of cb)
                  relaxed_format_selector false).
Proof.
  unfold retry, bindM, progress_sink, modify, ret.
  destruct cb; cbv beta iota; by rewrite attempt_made.
Qed.

Lemma made_by_format env output_dir callback fmt merge o :
  made_by (build_downloader env output_dir callback fmt merge) !! 0%nat = Some o ->
  format o = fmt
  /\ merge_output_format o = (if merge then Some (py "mp4") else None).
Proof.
  unfold build_downloader. destruct (mkdir env output_dir); simpl; [done|].
  destruct merge; simpl.
  - case_bool_decide; simpl; [|done]. by intros [= <-].
  - by intros [= <-].
Qed.

Lemma made_by_length r : (length (made_by r) <= 1)%nat.
Proof. destruct r; simpl; lia. Qed.

(** X6: a call invokes the engine at most twice: first, if at all, with the
    default selector and the mp4 merge, then, if at all, with the relaxed
    selector and no merge. *)
Theorem at_most_two_invocations env url output_dir cb w :
  exists made,
    invocations (download_highest_quality env url output_dir cb w).2
    = invocations w ++ made
    /\ (length made <= 2)%nat
    /\ (forall o, made !! 0%nat = Some o ->
          format o = default_format_selector
          /\ merge_output_format o = Some (py "mp4"))
    /\ (forall o, made !! 1%nat = Some o ->
          format o = relaxed_format_selector /\ merge_output_format o = None).
Proof.
  rewrite download_unfold, acquire_unfold.
  pose proof (attempt_made env output_dir cb url default_format_selector true (fresh w))
    as Hi1. fold (first_attempt env url output_dir cb w) in Hi1.
  set (b1 := build_downloader env output_dir (callback_of cb)
               default_format_selector true) in *.
  set (b2 := build_downloader env output_dir (callback_of cb)
               relaxed_format_selector false).
  assert (forall wf, invocations wf = invocations w ++ made_by b1 ->
            exists made, invocations wf = invocations w ++ made
              /\ (length made <= 2)%nat
              /\ (forall o, made !! 0%nat = Some o ->
                    format o = default_format_selector
                    /\ merge_output_format o = Some (py "mp4"))
              /\ (forall o, made !! 1%nat = Some o ->
                    format o = relaxed_format_selector /\ merge_output_format o = None))
    as Hone.
  { intros wf Hwf. exists (made_by b1). split_and!; [done| | |].
    - pose proof (made_by_length b1). lia.
    - intros o Ho. by apply (made_by_format _ _ _ _ _ _ Ho).
    - intros o Ho. pose proof (made_by_length b1).
      apply lookup_lt_Some in Ho. lia. }
  destruct (first_attempt env url output_dir cb w) as [r1 w1] eqn:Hfirst.
  simpl in Hi1.
  destruct r1 as [r|e].
  { apply Hone. by rewrite locate_world. }
  destruct e as [m| | | |]; try by apply Hone.
  destruct (contains (py "ffmpeg") (lower m)) eqn:Hkey; [|by apply Hone].
  destruct (first_attempt_download_error env url output_dir cb w m) as (ydl1 & Hb1 & _);
    [by rewrite Hfirst|].
  pose proof (retry_made env url output_dir cb w1) as Hi2. fold b2 in Hi2.
  assert (made_by b1 = [opts ydl1]) as Hmade1 by (subst b1; by rewrite Hb1).
  exists (opts ydl1 :: made_by b2).
  assert (invocations (retry env url output_dir cb w1).2
          = invocations w ++ opts ydl1 :: made_by b2) as Hi.
  { rewrite Hi2, Hi1, Hmade1, <- app_assoc. done. }
  split_and!.
  - destruct (retry env url output_dir cb w1) as [[r|e2] w2]; simpl in *;
      [by rewrite locate_world|done].
  - pose proof (made_by_length b2). simpl. lia.
  - intros o [= <-]. apply (made_by_format env output_dir (callback_of cb)
                              default_format_selector true).
    fold b1. by rewrite Hmade1.
  - intros o Ho. simpl in Ho.
    by apply (made_by_format env output_dir (callback_of cb)
                relaxed_format_selector false).
Qed.

Lemma first_existing_exists exists_ requested p :
  first_existing exists_ requested = Some p -> exists_ p = true.
Proof.
  unfold first_existing. destruct (List.find _ _) as [item|] eqn:Hfind; [|done].
  intros [= <-]. apply List.find_some in Hfind as [_ Hitem].
  by apply andb_true_iff in Hitem as [_ ?].
Qed.

Lemma locate_returns_existing info prepared w p :
  (locate info prepared w).1 = Ok p -> disk w p = true.
Proof.
  unfold locate, path_exists. sm.
  destruct (with_suffix prepared (py ".mp4")) as [merged|e]; simpl; [|done].
  destruct (disk w merged) eqn:Hm; simpl; [by intros [= <-]|].
  destruct (disk w prepared) eqn:Hp; simpl; [by intros [= <-]|].
  rewrite first_requested_spec.
  destruct (first_existing _ _) as [q|] eqn:Hq; simpl; [|done].
  intros [= <-]. by eapply first_existing_exists.
Qed.

(** X7: a path the call returns exists on disk when it returns. *)
Theorem returned_path_exists env url output_dir cb w p :
  (download_highest_quality env url output_dir cb w).1 = Ok p ->
  disk (download_highest_quality env url output_dir cb w).2 p = true.
Proof.
  rewrite download_unfold.
  destruct (acquire env url output_dir cb (fresh w)) as [[r|e] w1]; simpl; [|done].
  intros Hp. rewrite locate_world. by eapply locate_returns_existing.
Qed.

Lemma returned_path_exists_witness :
  disk (download_highest_quality Samples.env_muxer_breaks Samples.video_url
          Samples.out_dir true Samples.empty_world).2
    (Path_of_str (py "/srv/downloads/clip.webm")) = true.
Proof.
  apply (returned_path_exists Samples.env_muxer_breaks Samples.video_url Samples.out_dir
           true Samples.empty_world).
  by vm_compute.
Defined.

Lemma attempt_silent env output_dir url fmt merge w :
  delivered (attempt env output_dir None url fmt merge w).2 = delivered w.
Proof.
  rewrite attempt_unfold.
  destruct (build_downloader _ _ _ _ _) as [ydl|e] eqn:Hb; simpl; [|done].
  apply build_downloader_hooks in Hb. by rewrite (invoke_silent env ydl url w Hb).
Qed.

(** X8: called without a progress callback, the call hands no message to
    anyone: neither progress lines nor the notice of the fallback. *)
Theorem no_callback_no_output env url output_dir w :
  delivered (download_highest_quality env url output_dir false w).2 = delivered w.
Proof.
  rewrite download_unfold, acquire_unfold.
  pose proof (attempt_silent env output_dir url default_format_selector true (fresh w))
    as H1.
  change (attempt env output_dir None url default_format_selector true (fresh w))
    with (first_attempt env url output_dir false w) in H1.
  destruct (first_attempt env url output_dir false w) as [[r|e] w1]; simpl in H1.
  { by rewrite locate_world. }
  destruct e as [m| | | |]; try done.
  destruct (contains (py "ffmpeg") (lower m)); [|done].
  pose proof (attempt_silent env output_dir url relaxed_format_selector false w1) as H2.
  unfold retry. unfold bindM at 1. simpl.
  change (callback_of false) with (@None (str -> M unit)).
  destruct (attempt env output_dir None url relaxed_format_selector false w1)
    as [[r|e2] w2]; simpl in *; [|congruence].
  rewrite locate_world. congruence.
Qed.

(** X9: when the call falls back, the sink receives the filtered messages of
    the first attempt, then the notice, unfiltered, then the messages of the
    relaxed attempt filtered against the last message of the first attempt:
    the filter's memory outlives the fallback. *)
Theorem notice_between_attempts env url output_dir w m :
  (first_attempt env url output_dir true w).1 = Raise (DownloadError m) ->
  contains (py "ffmpeg") (lower m) = true ->
  exists ydl1 ydl2,
    build_downloader env output_dir (Some (printer true)) default_format_selector true
    = Ok ydl1
    /\ build_downloader env output_dir (Some (printer true)) relaxed_format_selector false
       = Ok ydl2
    /\ let m1 := omap hook_message
                   (emitted (engine env (length (invocations w)) (opts ydl1) url)) in
       let m2 := omap hook_message
                   (emitted (engine env (S (length (invocations w))) (opts ydl2) url)) in
       delivered (download_highest_quality env url output_dir true w).2
       = delivered w ++ drop_repeats None m1
         ++ fallback_notice :: drop_repeats (last m1) m2.
Proof.
  intros Hfirst Hkey.
  destruct (first_attempt_download_error env url output_dir true w m Hfirst)
    as (ydl1 & Hb1 & _).
  destruct (build_relaxed env output_dir (callback_of true) relaxed_format_selector
              (build_ok_mkdir _ _ _ _ _ _ Hb1)) as (ydl2 & Hb2 & _).
  change (callback_of true) with (Some (printer true)) in Hb1, Hb2.
  exists ydl1, ydl2. split_and!; [done|done|]. intros m1 m2.
  rewrite download_unfold, acquire_unfold.
  assert (first_attempt env url output_dir true w
          = (Raise (DownloadError m),
             {| disk := files_after (engine env (length (invocations w)) (opts ydl1) url);
                delivered := delivered w ++ drop_repeats None m1;
                invocations := invocations w ++ [opts ydl1];
                last_report := default None (Some <$> last m1) |})) as Hf.
  { revert Hfirst. unfold first_attempt.
    change (callback_of true) with (Some (printer true)).
    rewrite attempt_unfold, Hb1.
    rewrite (invoke_printer env ydl1 url (fresh w)
               (build_downloader_hooks _ _ _ _ _ _ Hb1)).
    simpl. fold m1. by intros ->. }
  rewrite Hf, Hkey. unfold retry. unfold bindM at 1. unfold progress_sink, modify.
  change (callback_of true) with (Some (printer true)).
  cbv beta iota. rewrite attempt_unfold, Hb2.
  rewrite (invoke_printer env ydl2 url _ (build_downloader_hooks _ _ _ _ _ _ Hb2)).
  simpl. rewrite length_app. simpl. rewrite Nat.add_1_r. fold m2.
  assert (default None (Some <$> last m1) = last m1) as -> by by destruct (last m1).
  destruct (outcome _) as [r|e2]; simpl; [rewrite locate_world; simpl|];
    by rewrite <- !app_assoc.
Qed.

Lemma notice_between_attempts_witness :
  delivered (download_highest_quality Samples.env_muxer_breaks Samples.video_url
               Samples.out_dir true Samples.empty_world).2
  = [py "10%"; fallback_notice; py "100%"].
Proof.
  destruct (notice_between_attempts Samples.env_muxer_breaks Samples.video_url
              Samples.out_dir Samples.empty_world
              (py "ERROR: Postprocessing: FFmpeg could not be started")
              eq_refl eq_refl) as (ydl1 & ydl2 & Hb1 & Hb2 & Hd).
  rewrite Hd. injection Hb1 as <-. injection Hb2 as <-. vm_compute. reflexivity.
Defined.

End orchestrator_facts.

(** ** More on the resolver, the import and the command line *)

Section program_facts.
Import Resolver Downloader Program.

Ltac sm := unfold bindM, ret, raise, lift, try_except, get, modify in *; simpl in *.

Lemma probe_beside_some h f p :
  probe_beside h f = Ok (Some p) ->
  exists_ h p = true /\ name p = py "ffprobe.exe" /\ parent p = parent f.
Proof.
  unfold probe_beside, with_name. case_bool_decide; simpl; [done|].
  destruct (exists_ h _) eqn:Hex; [|done]. intros [= <-].
  split_and!; [done|apply name_joinpath with (p := parent f)|].
  unfold parent. simpl. by rewrite removelast_last.
Qed.

Lemma with_probe_inv h f known ffmpeg probe :
  with_probe h f known = Ok (ffmpeg, probe) ->
  ffmpeg = Some f /\ (probe = known \/ probe_beside h f = Ok probe).
Proof.
  unfold with_probe. destruct known as [q|]; [by intros [= <- <-]; auto|].
  destruct (probe_beside h f) as [c|e]; simpl; [|done].
  intros [= <- <-]. auto.
Qed.

Lemma glob_ffmpeg_exe_exists h package_dir g :
  g ∈ glob_ffmpeg_exe h package_dir -> exists_ h g = true.
Proof.
  unfold glob_ffmpeg_exe. rewrite list_elem_of_In, filter_In. by intros [_ ?].
Qed.

Lemma find_in_packages_inv h l ffmpeg probe :
  find_in_packages h l = Ok (ffmpeg, probe) ->
  (ffmpeg = None /\ probe = None)
  \/ exists g, exists_ h g = true /\ ffmpeg = Some (resolve h g)
               /\ probe_beside h (resolve h g) = Ok probe.
Proof.
  induction l as [|pkg l IH]; simpl; [by intros [= <- <-]; left|].
  destruct (glob_ffmpeg_exe h pkg) as [|g rest] eqn:Hg; [done|].
  destruct (probe_beside h (resolve h g)) as [c|e] eqn:Hp; simpl; [|done].
  intros [= <- <-]. right. exists g. split_and!; [|done|done].
  apply (glob_ffmpeg_exe_exists h pkg). rewrite Hg. by left.
Qed.

Lemma find_winget_inv h ffmpeg probe :
  _find_winget_ffmpeg h = Ok (ffmpeg, probe) ->
  (ffmpeg = None /\ probe = None)
  \/ exists g, exists_ h g = true /\ ffmpeg = Some (resolve h g)
               /\ probe_beside h (resolve h g) = Ok probe.
Proof.
  unfold _find_winget_ffmpeg. destruct (negb _); [by intros [= <- <-]; left|].
  apply find_in_packages_inv.
Qed.

(** X10: whatever the resolver returns is backed by the host: the ffmpeg
    exists or is the resolution of a path that exists, and a probe that did
    not come from the search path exists and is the [ffprobe.exe] beside the
    returned ffmpeg. *)
Theorem resolved_tools_exist h ffmpeg probe :
  _resolve_external_tools h = Ok (ffmpeg, probe) ->
  (forall f, ffmpeg = Some f ->
     exists_ h f = true \/ exists g, exists_ h g = true /\ f = resolve h g)
  /\ (forall p, probe = Some p ->
        probe = resolved_binary h (FFPROBE_BINARY h)
        \/ exists f, ffmpeg = Some f /\ exists_ h p = true
                     /\ name p = py "ffprobe.exe" /\ parent p = parent f).
Proof.
  assert (forall f known,
             with_probe h f known = Ok (ffmpeg, probe) ->
             known = resolved_binary h (FFPROBE_BINARY h) ->
             ffmpeg = Some f
             /\ forall p, probe = Some p ->
                  probe = resolved_binary h (FFPROBE_BINARY h)
                  \/ exists f', ffmpeg = Some f' /\ exists_ h p = true
                                /\ name p = py "ffprobe.exe" /\ parent p = parent f')
    as Hwith.
  { intros f known Hw ->. apply with_probe_inv in Hw as [-> [->|Hp]]; [by auto|].
    split; [done|]. intros p ->. right. exists f. split; [done|].
    by apply probe_beside_some. }
  assert (resolve_installed h (resolved_binary h (FFPROBE_BINARY h)) = Ok (ffmpeg, probe) ->
          (forall f, ffmpeg = Some f ->
             exists_ h f = true \/ exists g, exists_ h g = true /\ f = resolve h g)
          /\ (forall p, probe = Some p ->
                probe = resolved_binary h (FFPROBE_BINARY h)
                \/ exists f, ffmpeg = Some f /\ exists_ h p = true
                             /\ name p = py "ffprobe.exe" /\ parent p = parent f))
    as Hinst.
  { unfold resolve_installed.
    destruct (_find_winget_ffmpeg h) as [[wf wp]|e] eqn:Hw; simpl; [|done].
    apply find_winget_inv in Hw as [[-> ->]|(g & Hg & -> & Hp)].
    - destruct (exists_ h common_ffmpeg) eqn:Hc.
      + intros Hwp. destruct (Hwith _ _ Hwp eq_refl) as [-> Hprobe].
        split; [|done]. intros f [= <-]. right. by exists common_ffmpeg.
      + intros [= <- <-]. split; [done|]. intros p Hp. by left.
    - intros [= <- <-]. split.
      + intros f [= <-]. right. by exists g.
      + intros p ->. right. exists (resolve h g). split; [done|].
        by apply probe_beside_some. }
  unfold _resolve_external_tools.
  destruct (resolved_binary h (FFMPEG_BINARY h)) as [f|]; [|exact Hinst].
  destruct (exists_ h f) eqn:Hf; [|exact Hinst].
  intros Hw. destruct (Hwith _ _ Hw eq_refl) as [-> Hprobe].
  split; [|done]. intros f' [= <-]. by left.
Qed.

Lemma resolved_tools_exist_witness :
  exists g,
    exists_ Samples.host_winget g = true
    /\ Path_of_str (py "/home/u/AppData/Local/Microsoft/WinGet/Packages/Gyan.FFmpeg_B/ffmpeg-7.1-full_build/bin/ffmpeg.exe")
       = resolve Samples.host_winget g.
Proof.
  destruct (resolved_tools_exist Samples.host_winget _ _ eq_refl) as [Hffmpeg _].
  destruct (Hffmpeg _ eq_refl) as [Hex|Hg]; [|exact Hg].
  eexists. split; [exact Hex|reflexivity].
Defined.

Lemma resolve_nothing_found h :
  on_search_path h = None -> winget_empty h -> exists_ h common_ffmpeg = false ->
  _resolve_external_tools h = Ok (None, resolved_binary h (FFPROBE_BINARY h)).
Proof.
  intros Hpath Hempty Hcommon.
  assert (resolve_installed h (resolved_binary h (FFPROBE_BINARY h))
          = Ok (None, resolved_binary h (FFPROBE_BINARY h))) as Hinst.
  { unfold resolve_installed. rewrite (find_winget_empty h Hempty). simpl.
    by rewrite Hcommon. }
  unfold _resolve_external_tools. unfold on_search_path in Hpath.
  destruct (resolved_binary h (FFMPEG_BINARY h)) as [f|]; [|done].
  by destruct (exists_ h f).
Qed.

Lemma download_no_muxer env url output_dir cb w :
  RESOLVED_FFMPEG (tools env) = None ->
  download_highest_quality env url output_dir cb w =
    (Raise (match mkdir env output_dir with
            | Some k => OSError k (str_of_Path output_dir)
            | None => FileNotFoundError ffmpeg_missing_message
            end),
     fresh w).
Proof.
  intros Hnone. unfold download_highest_quality, acquire, attempt, set_last_report.
  sm. rewrite (build_no_muxer env output_dir _ _ Hnone).
  by destruct (mkdir env output_dir).
Qed.

(** X11: on a host where ffmpeg is on the search path, in the WinGet tree and
    at the fixed location nowhere, the import still succeeds, and every
    download with the tools it resolved raises before the engine is invoked:
    the complaint about ffmpeg, or the error of making the output directory. *)
Theorem host_without_ffmpeg h :
  on_search_path h = None -> winget_empty h -> exists_ h common_ffmpeg = false ->
  exists t,
    module_tools h = Ok t
    /\ RESOLVED_FFPROBE t = resolved_binary h (FFPROBE_BINARY h)
    /\ forall env url output_dir cb w,
         tools env = t ->
         download_highest_quality env url output_dir cb w =
           (Raise (match mkdir env output_dir with
                   | Some k => OSError k (str_of_Path output_dir)
                   | None => FileNotFoundError ffmpeg_missing_message
                   end),
            fresh w).
Proof.
  intros Hpath Hempty Hcommon. unfold module_tools.
  rewrite (resolve_nothing_found h Hpath Hempty Hcommon). simpl.
  eexists. split_and!; [done|done|].
  intros env url output_dir cb w Ht. apply download_no_muxer. by rewrite Ht.
Qed.

Lemma host_without_ffmpeg_witness :
  exists t,
    module_tools Samples.host_probe_only = Ok t
    /\ RESOLVED_FFPROBE t = Some (Path_of_str (py "/usr/bin/ffprobe")).
Proof.
  destruct (host_without_ffmpeg Samples.host_probe_only) as (t & Ht & Hp & _).
  - reflexivity.
  - by left.
  - reflexivity.
  - exists t. split; [exact Ht|]. rewrite Hp. reflexivity.
Defined.

(** X12: an ffmpeg found on the search path is the one the engine is pointed
    at: with the tools of the import, a merging downloader carries the
    directory of that ffmpeg as [ffmpeg_location]. *)
Theorem search_path_ffmpeg_is_used h t f env output_dir callback fmt :
  module_tools h = Ok t ->
  on_search_path h = Some f ->
  tools env = t ->
  mkdir env output_dir = None ->
  exists ydl,
    build_downloader env output_dir callback fmt true = Ok ydl
    /\ ffmpeg_location (opts ydl) = Some (str_of_Path (parent f))
    /\ merge_output_format (opts ydl) = Some (py "mp4").
Proof.
  unfold module_tools, on_search_path, _resolve_external_tools.
  destruct (resolved_binary h (FFMPEG_BINARY h)) as [f'|]; [|done].
  destruct (exists_ h f'); [|done].
  destruct (with_probe h f' _) as [[ffmpeg probe]|e] eqn:Hw; simpl; [|done].
  apply with_probe_inv in Hw as [-> _].
  intros [= <-] [= ->] Ht Hmk. unfold build_downloader. rewrite Hmk, Ht. simpl.
  by eexists.
Qed.

Lemma search_path_ffmpeg_is_used_witness :
  exists ydl,
    build_downloader Samples.env_search_path Samples.out_dir None
      default_format_selector true = Ok ydl
    /\ ffmpeg_location (opts ydl) = Some (py "/usr/bin")
    /\ merge_output_format (opts ydl) = Some (py "mp4").
Proof.
  apply (search_path_ffmpeg_is_used Samples.host_search_path
           (tools Samples.env_search_path) (Path_of_str (py "/usr/bin/ffmpeg"))
           Samples.env_search_path Samples.out_dir None default_format_selector);
    reflexivity.
Defined.

(** X13: how [main] can end.  If it returns, the last line printed names the
    saved file, and that file exists.  If it exits, the message is
    "Download failed: " with the text of a [DownloadError], or the text of a
    [FileNotFoundError] as it is.  Any other exception of the download
    leaves [main] unchanged. *)
Theorem main_ends env url output w :
  let d := download_highest_quality env url output true w in
  match (main env url output w).1 with
  | Returned =>
      exists p, d.1 = Ok p
                /\ last (delivered (main env url output w).2) = Some (saved_message p)
                /\ disk (main env url output w).2 p = true
  | SystemExit msg =>
      (exists m, d.1 = Raise (DownloadError m) /\ msg = py "Download failed: " ++ m)
      \/ (exists m, d.1 = Raise (FileNotFoundError m) /\ msg = m)
  | Uncaught e =>
      d.1 = Raise e /\ is_FileNotFoundError e = false /\ forall m, e <> DownloadError m
  end.
Proof.
  intros d. unfold main.
  assert (forall p, d.1 = Ok p -> disk d.2 p = true) as Hexists.
  { subst d. intros p. rewrite download_unfold.
    destruct (acquire env url output true (fresh w)) as [[r|e] w1]; cbn [fst snd];
      [|done].
    intros Hp. rewrite locate_world. by eapply locate_returns_existing. }
  fold d. destruct d as [[p|e] w']; cbn [fst snd] in *.
  - exists p. cbn [delivered disk]. split_and!; [done|by rewrite last_snoc|by apply Hexists].
  - destruct e as [m|k m|m|c m|m]; cbn; try (by split_and!).
    + left. by exists m.
    + destruct k; cbn; try (by split_and!). right. by exists m.
Qed.

(** X14: run on a machine where no ffmpeg was resolved, [main] exits with the
    advice to install ffmpeg, having printed nothing and invoked nothing;
    when the output directory cannot be made, the [OSError] escapes [main]
    unless it is a [FileNotFoundError]. *)
Theorem main_without_ffmpeg env url output w :
  RESOLVED_FFMPEG (tools env) = None ->
  main env url output w =
    (match mkdir env output with
     | None => SystemExit ffmpeg_missing_message
     | Some ENOENT => SystemExit (str_of_Path output)
     | Some k => Uncaught (OSError k (str_of_Path output))
     end, fresh w).
Proof.
  intros Hnone. unfold main. rewrite (download_no_muxer env url output true w Hnone).
  by destruct (mkdir env output) as [[]|].
Qed.

Lemma main_without_ffmpeg_witness :
  main Samples.env_no_muxer Samples.video_url Samples.out_dir Samples.empty_world
  = (SystemExit ffmpeg_missing_message, fresh Samples.empty_world).
Proof.
  exact (main_without_ffmpeg Samples.env_no_muxer Samples.video_url Samples.out_dir
           Samples.empty_world eq_refl).
Defined.

End program_facts.

(** ** More on the application *)

Section application_facts.
Import Downloader App.

Ltac sm := unfold bindM, ret, raise, lift, try_except, get, modify in *; simpl in *.

Lemma orchestrator_returns_existing env url w p :
  (call_orchestrator env url w).1 = Ok p ->
  files (call_orchestrator env url w).2 p = true.
Proof.
  unfold call_orchestrator. cbn [fst snd files]. rewrite download_unfold.
  destruct (acquire _ _ _ _ _) as [[r|e] w1]; cbn [fst snd]; [|done].
  intros Hp. rewrite locate_world. by eapply locate_returns_existing.
Qed.

(** X15: whatever the orchestrator raises, the request is answered 502 with
    "Failed to download video: " and the text of the exception; the failure
    is logged, no file is opened and no deleter is started. *)
Theorem orchestrator_failure_is_502 env form_url w exc :
  let url := strip (or_empty form_url) in
  url <> [] ->
  (call_orchestrator env url w).1 = Raise exc ->
  serve env form_url w =
    (Ok 502%Z,
     add_events (call_orchestrator env url w).2
       [EvLogException (py "Video download failed")])
  /\ (download_video env form_url w).1
     = Raise (HTTPException 502 (py "Failed to download video: " ++ str_of_exn exc)).
Proof.
  intros url Hurl Hexc. rewrite serve_unfold.
  rewrite (download_video_cases env form_url w Hurl). fold url.
  destruct (call_orchestrator env url w) as [r w1]. cbn [fst snd] in *. by subst r.
Qed.

Lemma orchestrator_failure_is_502_witness :
  (serve {| DOWNLOADS := Samples.out_dir; dl := Samples.env_offline;
            open_error := None; send_file_error := None; close_error := None;
            unlink_answer := fun _ => None; closes_response := false |}
     (Some Samples.video_url) Samples.req_world).1 = Ok 502%Z.
Proof.
  pose proof (orchestrator_failure_is_502
                {| DOWNLOADS := Samples.out_dir; dl := Samples.env_offline;
                   open_error := None; send_file_error := None; close_error := None;
                   unlink_answer := fun _ => None; closes_response := false |}
                (Some Samples.video_url) Samples.req_world
                (DownloadError (py "ERROR: unable to download webpage"))) as H.
  destruct H as [H _]; [by vm_compute|reflexivity|]. by rewrite H.
Defined.



(** X17: when the downloaded file cannot be opened, or [send_file] fails, the
    request is answered with the status of that exception; a handle that was
    opened is closed; nothing else happens after the orchestrator returned:
    no deleter is started and the downloaded file stays on disk. *)
Theorem stream_failure_leaves_file env form_url w video_path e :
  let url := strip (or_empty form_url) in
  let o := call_orchestrator env url w in
  url <> [] ->
  o.1 = Ok video_path ->
  (open_error env = Some e -> serve env form_url w = (Ok (status_of_exn e), o.2))
  /\ (open_error env = None -> send_file_error env = Some e ->
        serve env form_url w
        = (Ok (status_of_exn e),
           add_events o.2 [EvOpen video_path; EvCloseHandle video_path]))
  /\ files o.2 video_path = true.
Proof.
  intros url o Hurl Hok.
  pose proof (orchestrator_returns_existing env url w video_path Hok) as Hexists.
  rewrite serve_unfold, (download_video_cases env form_url w Hurl). fold url. fold o.
  fold o in Hexists. destruct o as [r w1]. cbn [fst snd] in *. subst r.
  split_and!; [|intros -> ->|done].
  - intros ->. by destruct e.
  - by destruct e.
Qed.

Lemma stream_failure_leaves_file_witness :
  serve {| DOWNLOADS := Samples.out_dir; dl := Samples.env_merging;
           open_error := None; send_file_error := Some (OtherException (py "boom"));
           close_error := None; unlink_answer := fun _ => None;
           closes_response := false |}
    (Some Samples.video_url) Samples.req_world
  = (Ok 500%Z,
     add_events
       (call_orchestrator
          {| DOWNLOADS := Samples.out_dir; dl := Samples.env_merging;
             open_error := None; send_file_error := Some (OtherException (py "boom"));
             close_error := None; unlink_answer := fun _ => None;
             closes_response := false |}
          Samples.video_url Samples.req_world).2
       [EvOpen Samples.clip; EvCloseHandle Samples.clip]).
Proof.
  apply (stream_failure_leaves_file
           {| DOWNLOADS := Samples.out_dir; dl := Samples.env_merging;
              open_error := None; send_file_error := Some (OtherException (py "boom"));
              close_error := None; unlink_answer := fun _ => None;
              closes_response := false |}
           (Some Samples.video_url) Samples.req_world Samples.clip
           (OtherException (py "boom"))).
  - by vm_compute.
  - reflexivity.
  - reflexivity.
  - reflexivity.
Defined.

(** *** What the deleter leaves *)

Lemma delete_attempts_frame env p attempts w :
  (forall q, q <> p -> files (delete_attempts env p attempts w).2 q = files w q)
  /\ (files (delete_attempts env p attempts w).2 p = true -> files w p = true).
Proof.
  revert w. induction attempts as [|attempt rest IH]; intros w; [done|].
  rewrite delete_attempts_step. cbv zeta.
  destruct (files w p) eqn:Hp; cbn [negb].
  2:{ split; [done|]. cbn [snd add_events files]. congruence. }
  assert ((forall q, q <> p -> files (gone p (add_events w [EvUnlink p])) q = files w q)
          /\ files (gone p (add_events w [EvUnlink p])) p = false) as [Hq Hgone].
  { unfold gone. cbn [files add_events]. split.
    - intros q Hne. by rewrite bool_decide_eq_false_2.
    - by rewrite bool_decide_eq_true_2. }
  destruct (unlink_answer env attempt) as [k|]; [|by split].
  assert ((forall q, q <> p ->
             files (if bool_decide (attempt = 4%nat)
                    then (Ok tt, add_events (add_events w [EvUnlink p])
                                   [EvLogException (delete_failed_message p)])
                    else delete_attempts env p rest
                           (add_events (add_events w [EvUnlink p]) [EvSleep 500])).2 q
             = files w q)) as Hfailed.
  { case_bool_decide; [done|]. intros q Hne.
    destruct (IH (add_events (add_events w [EvUnlink p]) [EvSleep 500])) as [Hrest _].
    by rewrite Hrest. }
  destruct k; by split.
Qed.

(** A pass that leaves the file was refused, and either was the last or was
    followed by passes that left the file too. *)
Lemma delete_attempts_present env p attempt rest w :
  files (delete_attempts env p (attempt :: rest) w).2 p = true ->
  (exists k, unlink_answer env attempt = Some k /\ k <> ENOENT)
  /\ delete_attempts env p (attempt :: rest) w
     = if bool_decide (attempt = 4%nat)
       then (Ok tt, add_events (add_events w [EvUnlink p])
                      [EvLogException (delete_failed_message p)])
       else delete_attempts env p rest (add_events (add_events w [EvUnlink p]) [EvSleep 500]).
Proof.
  rewrite delete_attempts_step. cbv zeta.
  destruct (files w p) eqn:Hp; cbn [negb].
  2:{ cbn [snd add_events files]. congruence. }
  destruct (unlink_answer env attempt) as [k|].
  2:{ cbn [snd add_events files gone]. by rewrite bool_decide_eq_true_2. }
  destruct k; try (intros _; split; [by eexists|done]).
  cbn [snd add_events files gone]. by rewrite bool_decide_eq_true_2.
Qed.

Lemma cleanup_post env p w :
  (forall q, q <> p -> files (_cleanup env p w).2 q = files w q)
  /\ (files (_cleanup env p w).2 p = true ->
        files w p = true
        /\ (forall i, (i < 5)%nat -> exists k, unlink_answer env i = Some k /\ k <> ENOENT)
        /\ last (trace (_cleanup env p w).2)
           = Some (EvLogException (delete_failed_message p))).
Proof.
  rewrite cleanup_unfold. change (seq 0 5) with [0; 1; 2; 3; 4]%nat.
  set (w0 := add_events w (close_events env p ++ [EvSleep 1000])).
  destruct (delete_attempts_frame env p [0; 1; 2; 3; 4]%nat w0) as [Hq Hp].
  split; [done|]. intros Hleft. split; [by apply Hp|].
  destruct (delete_attempts_present env p _ _ _ Hleft) as [H0 E0].
  rewrite E0 in Hleft |- *. rewrite bool_decide_eq_false_2 in Hleft |- * by done.
  destruct (delete_attempts_present env p _ _ _ Hleft) as [H1 E1].
  rewrite E1 in Hleft |- *. rewrite bool_decide_eq_false_2 in Hleft |- * by done.
  destruct (delete_attempts_present env p _ _ _ Hleft) as [H2 E2].
  rewrite E2 in Hleft |- *. rewrite bool_decide_eq_false_2 in Hleft |- * by done.
  destruct (delete_attempts_present env p _ _ _ Hleft) as [H3 E3].
  rewrite E3 in Hleft |- *. rewrite bool_decide_eq_false_2 in Hleft |- * by done.
  destruct (delete_attempts_present env p _ _ _ Hleft) as [H4 E4].
  rewrite E4. rewrite bool_decide_eq_true_2 by done.
  split.
  - intros i Hi.
    destruct i as [|[|[|[|[|i]]]]]; [done|done|done|done|done|lia].
  - cbn [snd add_events trace]. by rewrite last_snoc.
Qed.

(** X18: the deleter, when it runs, touches no other file, and leaves the
    downloaded file only if it was there and the system refused all five
    unlinks, in which case the last thing it does is log the failure. *)
Theorem deleter_leaves_only_refused env video_path w :
  (forall q, q <> video_path -> files (_cleanup env video_path w).2 q = files w q)
  /\ (files (_cleanup env video_path w).2 video_path = true ->
        files w video_path = true
        /\ (forall i, (i < 5)%nat ->
              exists k, unlink_answer env i = Some k /\ k <> ENOENT)
        /\ last (trace (_cleanup env video_path w).2)
           = Some (EvLogException (delete_failed_message video_path))).
Proof. apply cleanup_post. Qed.

Lemma deleter_leaves_only_refused_witness :
  files (_cleanup Samples.req_env Samples.clip Samples.clip_present).2 Samples.clip = false.
Proof.
  destruct (files (_cleanup Samples.req_env Samples.clip Samples.clip_present).2
              Samples.clip) eqn:Hleft; [|reflexivity].
  destruct (deleter_leaves_only_refused Samples.req_env Samples.clip
              Samples.clip_present) as [_ Hpost].
  destruct (Hpost Hleft) as (_ & Hrefused & _).
  destruct (Hrefused 2%nat ltac:(lia)) as (k & Hk & _). discriminate Hk.
Defined.

(** *** What a round of the sweeper leaves *)

(** X19: a round in which no regular file vanishes between the sweeper's
    [is_file()] and [stat()] leaves exactly the entries it does not sweep:
    it adds none, alters none, and a second such round under the same clock
    and answers removes nothing more. *)
Theorem sweep_removes_exactly o iv w :
  (forall n, vanished o n w = false) ->
  let w' := (sweep_tick o iv w).2 in
  dir w' = filter (fun nf => swept o iv nf.1 nf.2 = false) (dir w)
  /\ dir w' ⊆ dir w
  /\ dir (sweep_tick o iv w').2 = dir w'.
Proof.
  intros Hstay w'.
  assert (dir w' = filter (fun nf => swept o iv nf.1 nf.2 = false) (dir w)) as Hfilter.
  { subst w'. destruct (sweep_tick_spec o iv w Hstay) as (w1 & evs & -> & Hdir & _).
    cbn [snd]. apply map_eq. intros n. rewrite Hdir, map_lookup_filter.
    destruct (dir w !! n) as [f|]; simpl; [|done].
    by destruct (swept o iv n f). }
  split_and!; [done|rewrite Hfilter; apply map_filter_subseteq|].
  assert (forall n, vanished o n w' = false) as Hstay'.
  { intros n. specialize (Hstay n). unfold vanished in *.
    destruct (dir w' !! n) as [f|] eqn:Hn; [|done].
    rewrite Hfilter in Hn. apply map_lookup_filter_Some in Hn as [Hn _].
    by rewrite Hn in Hstay. }
  destruct (sweep_tick_spec o iv w' Hstay') as (w2 & evs & -> & Hdir & _).
  cbn [snd]. apply map_eq. intros n. rewrite Hdir.
  destruct (dir w' !! n) as [f|] eqn:Hn; [|done].
  rewrite Hfilter in Hn. apply map_lookup_filter_Some in Hn as [_ Hs].
  simpl in Hs. by rewrite Hs.
Qed.

Lemma sweep_removes_exactly_witness :
  let w' := (sweep_tick Samples.sweep_oracle 300 Samples.sweep_world).2 in
  dir w' = filter (fun nf => swept Samples.sweep_oracle 300 nf.1 nf.2 = false)
             (dir Samples.sweep_world)
  /\ dir w' ⊆ dir Samples.sweep_world
  /\ dir (sweep_tick Samples.sweep_oracle 300 w').2 = dir w'.
Proof.
  apply (sweep_removes_exactly Samples.sweep_oracle 300 Samples.sweep_world).
  intros n. unfold vanished.
  destruct (dir Samples.sweep_world !! n) as [f|]; [|reflexivity].
  apply andb_false_r.
Defined.

(** X23: a round in which no regular file vanishes between the sweeper's
    [is_file()] and [stat()] starts with the pause and does not raise; of
    the entries it finds, a regular file at least the interval old is
    removed unless its unlink is refused for another reason than the file
    being gone already, which is logged and the round goes on; an entry
    younger than the interval, or not a regular file, is left as it was. *)
Theorem sweep_round_without_race o iv w :
  (forall n, vanished o n w = false) ->
  exists w' evs,
    sweep_tick o iv w = (Ok tt, w')
    /\ log w' = log w ++ EvSleep (iv * 1000) :: evs
    /\ forall n f, dir w !! n = Some f ->
         (is_regular f = true -> (iv * 1000 <= time_at o n - st_mtime f)%Z ->
            dir w' !! n = None
            \/ ((exists k, unlink_refusal o n = Some k /\ k <> ENOENT)
                /\ dir w' !! n = Some f
                /\ EvLogException (cleanup_failed_message o n) ∈ evs))
         /\ ((time_at o n - st_mtime f < iv * 1000)%Z -> dir w' !! n = Some f)
         /\ (is_regular f = false -> dir w' !! n = Some f).
Proof.
  intros Hstay.
  destruct (sweep_tick_spec o iv w Hstay) as (w' & evs & Hrun & Hdir & Hlog & Hlogged).
  exists w', evs. split_and!; [done|done|]. intros n f Hn.
  specialize (Hdir n). rewrite Hn in Hdir. unfold swept, due in Hdir.
  split_and!.
  - intros Hreg Hold. rewrite Hreg in Hdir.
    assert ((time_at o n - st_mtime f <? iv * 1000)%Z = false) as Hage
      by by apply Z.ltb_ge.
    rewrite Hage in Hdir. simpl in Hdir.
    destruct (unlink_refusal o n) as [k|] eqn:Hk; [|by left].
    destruct (decide (k = ENOENT)) as [->|Hne]; [by left|].
    right. split_and!; [by exists k|by destruct k|].
    apply (Hlogged n f Hn); [|by rewrite Hk].
    unfold due. by rewrite Hreg, Hage.
  - intros Hyoung. apply Z.ltb_lt in Hyoung. rewrite Hyoung in Hdir.
    by rewrite andb_false_r in Hdir.
  - intros Hreg. by rewrite Hreg in Hdir.
Qed.

Lemma sweep_round_without_race_witness :
  exists w' evs,
    sweep_tick Samples.sweep_oracle 300 Samples.sweep_world = (Ok tt, w')
    /\ log w' = EvSleep 300000 :: evs
    /\ dir w' !! py "old.mp4" = None
    /\ dir w' !! py "new.mp4" = Some {| is_regular := true; st_mtime := 900000 |}
    /\ dir w' !! py "parts" = Some {| is_regular := false; st_mtime := 0 |}
    /\ dir w' !! py "locked.mp4" = Some {| is_regular := true; st_mtime := 0 |}
    /\ EvLogException (cleanup_failed_message Samples.sweep_oracle (py "locked.mp4")) ∈ evs.
Proof.
  destruct (sweep_round_without_race Samples.sweep_oracle 300 Samples.sweep_world)
    as (w' & evs & Hrun & Hlog & Hall).
  { intros n. unfold vanished.
    destruct (dir Samples.sweep_world !! n) as [f|]; [|reflexivity].
    apply andb_false_r. }
  exists w', evs. split_and!; [done|done| | | | |].
  - destruct (Hall (py "old.mp4") {| is_regular := true; st_mtime := 0 |} eq_refl)
      as (Hold & _ & _).
    destruct (Hold eq_refl) as [Hgone|[(k & Hk & _) _]]; [by vm_compute|done|discriminate Hk].
  - destruct (Hall (py "new.mp4") {| is_regular := true; st_mtime := 900000 |} eq_refl)
      as (_ & Hyoung & _).
    apply Hyoung. by vm_compute.
  - destruct (Hall (py "parts") {| is_regular := false; st_mtime := 0 |} eq_refl)
      as (_ & _ & Hdir).
    by apply Hdir.
  - destruct (Hall (py "locked.mp4") {| is_regular := true; st_mtime := 0 |} eq_refl)
      as (Hold & _ & _).
    destruct (Hold eq_refl) as [Hgone|(_ & Hkept & _)]; [by vm_compute| |done].
    apply (f_equal snd) in Hrun. simpl in Hrun. subst w'.
    vm_compute in Hgone. discriminate Hgone.
  - destruct (Hall (py "locked.mp4") {| is_regular := true; st_mtime := 0 |} eq_refl)
      as (Hold & _ & _).
    destruct (Hold eq_refl) as [Hgone|(_ & _ & Hlogged)]; [by vm_compute| |done].
    apply (f_equal snd) in Hrun. simpl in Hrun. subst w'.
    vm_compute in Hgone. discriminate Hgone.
Defined.

(** *** A prepared file that is already an mp4 *)

Lemma rfind_dot_lt s i : rfind_dot s = Some i -> (i < length s)%nat.
Proof.
  revert i. induction s as [|c s IH]; intros i; simpl; [done|].
  destruct (rfind_dot s) as [j|]; [intros [= <-]; specialize (IH j eq_refl); lia|].
  destruct (c =? dot)%N; [intros [= <-]; lia|done].
Qed.

Lemma suffix_rejoins p :
  suffix p <> [] ->
  take (length (name p) - length (suffix p)) (name p) ++ suffix p = name p.
Proof.
  unfold suffix. destruct (rfind_dot (name p)) as [i|] eqn:Hi; [|done].
  apply rfind_dot_lt in Hi as Hlt.
  destruct ((0 <? i) && (i <? length (name p) - 1)); [|done]. intros _.
  rewrite length_drop.
  replace (length (name p) - (length (name p) - i))%nat with i by lia.
  apply take_drop.
Qed.

Lemma with_suffix_same p sfx :
  sfx <> [] -> suffix p = sfx -> with_suffix p sfx = Ok p.
Proof.
  intros Hne <-. unfold with_suffix.
  assert (name p <> []) as Hname.
  { intros Hn. apply Hne. unfold suffix. by rewrite Hn. }
  rewrite bool_decide_eq_false_2 by done. f_equal.
  rewrite (suffix_rejoins p Hne).
  destruct p as [a ps]. unfold name in *. simpl in *. f_equal.
  destruct (last ps) as [n|] eqn:Hl; simpl in *; [|done].
  apply last_Some in Hl as [ps' ->]. by rewrite removelast_last.
Qed.

(** X20: when the prepared file already has the suffix [.mp4], the merged
    candidate is the prepared file itself: the call returns it if it exists
    and otherwise goes straight to the manifest. *)
Theorem mp4_prepared_is_its_own_candidate info prepared w :
  suffix prepared = py ".mp4" ->
  with_suffix prepared (py ".mp4") = Ok prepared
  /\ locate info prepared w =
       (if disk w prepared then Ok prepared
        else match first_existing (disk w) (default [] (requested_downloads info)) with
             | Some p => Ok p
             | None => Raise (FileNotFoundError result_missing_message)
             end, w).
Proof.
  intros Hs. assert (with_suffix prepared (py ".mp4") = Ok prepared) as Hw.
  { apply with_suffix_same; [by vm_compute|done]. }
  split; [done|]. unfold locate, path_exists. rewrite Hw. sm.
  destruct (disk w prepared) eqn:Hp; [done|]. rewrite Hp.
  rewrite first_requested_spec. by destruct (first_existing _ _).
Qed.

Lemma mp4_prepared_is_its_own_candidate_witness :
  with_suffix Samples.clip (py ".mp4") = Ok Samples.clip.
Proof.
  apply (mp4_prepared_is_its_own_candidate {| requested_downloads := None |}
           Samples.clip Samples.empty_world).
  reflexivity.
Defined.

End application_facts.

(** ** The filter across calls, and the deleter across a request *)

Section lifetime_facts.
Import Downloader App.

Ltac sm := unfold bindM, ret, raise, lift, try_except, get, modify in *; simpl in *.

Lemma attempt_extends env output_dir url fmt merge w :
  exists new,
    delivered (attempt env output_dir (Some (printer true)) url fmt merge w).2
    = delivered w ++ new.
Proof.
  rewrite attempt_unfold.
  destruct (build_downloader _ _ _ _ _) as [ydl|e] eqn:Hb; cbn [snd].
  - apply build_downloader_hooks in Hb. rewrite (invoke_printer env ydl url w Hb).
    by eexists.
  - exists []. by rewrite app_nil_r.
Qed.

Lemma retry_extends env url output_dir w1 :
  exists new,
    delivered (retry env url output_dir true w1).2 = delivered w1 ++ new.
Proof.
  unfold retry, bindM, progress_sink, modify.
  change (callback_of true) with (Some (printer true)). cbv beta iota.
  destruct (attempt_extends env output_dir url relaxed_format_selector false
              {| disk := disk w1; delivered := delivered w1 ++ [fallback_notice];
                 invocations := invocations w1; last_report := last_report w1 |})
    as [new Hnew].
  exists (fallback_notice :: new). rewrite Hnew. cbn [delivered].
  by rewrite <- app_assoc.
Qed.

Lemma build_with_muxer env output_dir callback fmt merge :
  mkdir env output_dir = None ->
  is_Some (RESOLVED_FFMPEG (tools env)) ->
  exists ydl, build_downloader env output_dir callback fmt merge = Ok ydl.
Proof.
  intros Hmk Hf. unfold build_downloader. rewrite Hmk. simpl.
  rewrite (bool_decide_eq_true_2 _ Hf), andb_false_r. by eexists.
Qed.

(** X21: the filter starts afresh with every call: the first message of a
    call reaches the sink, whatever message the previous call ended on. *)
Theorem first_message_always_forwarded env url output_dir w ydl1 m rest :
  build_downloader env output_dir (Some (printer true)) default_format_selector true
  = Ok ydl1 ->
  omap hook_message (emitted (engine env (length (invocations w)) (opts ydl1) url))
  = m :: rest ->
  exists tail,
    delivered (download_highest_quality env url output_dir true w).2
    = delivered w ++ m :: tail.
Proof.
  intros Hb Hmsgs. rewrite download_unfold, acquire_unfold.
  assert (exists r1 w1 tail1,
             first_attempt env url output_dir true w = (r1, w1)
             /\ delivered w1 = delivered w ++ m :: tail1) as (r1 & w1 & tail1 & -> & Hd1).
  { unfold first_attempt. change (callback_of true) with (Some (printer true)).
    rewrite attempt_unfold, Hb.
    rewrite (invoke_printer env ydl1 url (fresh w)
               (build_downloader_hooks _ _ _ _ _ _ Hb)).
    cbn [fresh invocations last_report delivered]. rewrite Hmsgs. cbn [drop_repeats].
    rewrite bool_decide_eq_false_2 by done. by eexists _, _, _. }
  assert (forall r w2, delivered w2 = delivered w ++ m :: tail1 ->
            exists tail,
              delivered (match r with
                         | Ok r => locate r.1 r.2 w2
                         | Raise e => (Raise e, w2)
                         end).2 = delivered w ++ m :: tail) as Hend.
  { intros [r|e] w2 Hw2; [rewrite locate_world|]; by eexists. }
  destruct r1 as [r|e]; [by eapply (Hend (Ok r))|].
  destruct e as [dm| | | |]; try by eexists.
  destruct (contains (py "ffmpeg") (lower dm)); [|by eexists].
  destruct (retry_extends env url output_dir w1) as [new Hnew].
  destruct (retry env url output_dir true w1) as [[r|e2] w2]; cbn [snd] in *.
  - rewrite locate_world, Hnew, Hd1, <- app_assoc. by eexists.
  - rewrite Hnew, Hd1, <- app_assoc. by eexists.
Qed.

Lemma first_message_always_forwarded_witness :
  exists tail,
    delivered (download_highest_quality Samples.env_merging Samples.video_url
                 Samples.out_dir true
                 {| disk := fun _ => false; delivered := [py "50%"];
                    invocations := []; last_report := Some (py "50%") |}).2
    = [py "50%"] ++ py "50%" :: tail.
Proof.
  destruct (build_with_muxer Samples.env_merging Samples.out_dir (Some (printer true))
              default_format_selector true) as [ydl1 Hb]; [reflexivity|by eexists|].
  apply (first_message_always_forwarded Samples.env_merging Samples.video_url
           Samples.out_dir
           {| disk := fun _ => false; delivered := [py "50%"];
              invocations := []; last_report := Some (py "50%") |}
           ydl1 (py "50%")
           (tail (omap hook_message (emitted Samples.run_merged)))); [exact Hb|].
  by vm_compute.
Defined.

(** *** One deleter per response *)

Lemma delete_attempts_events env p attempts w :
  exists evs,
    trace (delete_attempts env p attempts w).2 = trace w ++ evs
    /\ Forall (of_deleter p) evs.
Proof.
  assert (forall e, (forall q, e <> EvUnlink q) -> e <> EvThreadStart ->
                    e <> EvResponseSent -> of_deleter p e) as Hother.
  { intros e H1 H2 H3. split_and!; [done|done|]. intros q ->. by destruct (H1 q). }
  assert (of_deleter p (EvUnlink p)) as Hunlink.
  { split_and!; [done|done|]. by intros q [= ->]. }
  revert w. induction attempts as [|attempt rest IH]; intros w.
  - exists []. by rewrite app_nil_r.
  - rewrite delete_attempts_step. cbv zeta.
    destruct (negb (files w p)).
    { exists [EvUnlink p]. split; [done|]. by constructor. }
    destruct (unlink_answer env attempt) as [k|].
    2:{ exists [EvUnlink p; EvLogInfo (deleted_message p)]. split.
        - cbn [snd add_events gone trace]. by rewrite <- app_assoc.
        - constructor; [done|]. constructor; [by apply Hother|done]. }
    assert (exists evs,
               trace (if bool_decide (attempt = 4%nat)
                      then (Ok tt, add_events (add_events w [EvUnlink p])
                                     [EvLogException (delete_failed_message p)])
                      else delete_attempts env p rest
                             (add_events (add_events w [EvUnlink p]) [EvSleep 500])).2
               = trace w ++ evs /\ Forall (of_deleter p) evs) as Hfailed.
    { case_bool_decide.
      - exists [EvUnlink p; EvLogException (delete_failed_message p)]. split.
        + cbn [snd add_events trace]. by rewrite <- app_assoc.
        + constructor; [done|]. constructor; [by apply Hother|done].
      - destruct (IH (add_events (add_events w [EvUnlink p]) [EvSleep 500]))
          as (evs & Ht & Hall).
        exists ([EvUnlink p; EvSleep 500] ++ evs). split.
        + rewrite Ht. cbn [add_events trace]. by rewrite <- !app_assoc.
        + apply Forall_app. split; [|done].
          constructor; [done|]. constructor; [by apply Hother|done]. }
    destruct k; try exact Hfailed.
    exists [EvUnlink p]. split; [done|]. by constructor.
Qed.

Lemma cleanup_events env p w :
  exists evs,
    trace (_cleanup env p w).2 = trace w ++ evs /\ Forall (of_deleter p) evs.
Proof.
  rewrite cleanup_unfold.
  destruct (delete_attempts_events env p (seq 0 5)
              (add_events w (close_events env p ++ [EvSleep 1000])))
    as (evs & Ht & Hall).
  exists ((close_events env p ++ [EvSleep 1000]) ++ evs). split.
  - rewrite Ht. cbn [add_events trace]. by rewrite <- !app_assoc.
  - apply Forall_app. split; [|done]. unfold close_events.
    assert (forall e, (forall q, e <> EvUnlink q) -> e <> EvThreadStart ->
                      e <> EvResponseSent -> of_deleter p e) as Hother.
    { intros e H1 H2 H3. split_and!; [done|done|]. intros q ->. by destruct (H1 q). }
    destruct (close_error env); repeat constructor; by apply Hother.
Qed.

Lemma threads_started_app evs1 evs2 :
  threads_started (evs1 ++ evs2) = (threads_started evs1 + threads_started evs2)%nat.
Proof. unfold threads_started. by rewrite List.filter_app, length_app. Qed.

Lemma threads_started_none evs :
  Forall (fun e => e <> EvThreadStart) evs -> threads_started evs = 0%nat.
Proof.
  unfold threads_started. induction 1 as [|e evs He _ IH]; simpl; [done|].
  by rewrite bool_decide_eq_false_2.
Qed.

(** X22: a request starts a deleter thread only when it was answered with
    the file and the server closed the response, and then exactly one; the
    only path ever unlinked is the file that was sent; and when the response
    is not closed, nothing is unlinked and the files stay as the handler
    left them. *)
Theorem deleter_runs_only_on_close env form_url w :
  exists evs,
    trace (serve env form_url w).2 = trace w ++ evs
    /\ threads_started evs
       = match (download_video env form_url w).1 with
         | Ok _ => if closes_response env then 1%nat else 0%nat
         | Raise _ => 0%nat
         end
    /\ (forall q, EvUnlink q ∈ evs ->
          closes_response env = true
          /\ exists response,
               (download_video env form_url w).1 = Ok response
               /\ q = sent_file response)
    /\ (closes_response env = false ->
        files (serve env form_url w).2 = files (download_video env form_url w).2).
Proof.
  destruct (download_video_quiet env form_url w) as (hevs & Ht & Hquiet).
  assert (Forall (fun e => e <> EvThreadStart) hevs) as Hno_thread.
  { eapply Forall_impl; [exact Hquiet|]. by intros e [He _] ->. }
  assert (forall q, EvUnlink q ∉ hevs) as Hno_unlink.
  { intros q Hin. rewrite Forall_forall in Hquiet. by destruct (Hquiet _ Hin). }
  pose proof (download_video_on_close env form_url w) as Hclose.
  rewrite serve_unfold.
  destruct (download_video env form_url w) as [[response|exc] w1]; cbn [fst snd] in *.
  - destruct (closes_response env).
    + rewrite (Hclose response eq_refl). cbn [for_each]. unfold bindM at 1.
      unfold run_callback. unfold bindM at 1. unfold emit, modify, try_except, ret.
      set (w2 := {| files := files (add_events w1 [EvResponseSent]);
                    trace := trace (add_events w1 [EvResponseSent]) ++ [EvThreadStart] |}).
      destruct (cleanup_ok env (sent_file response) w2) as (w3 & evs' & Hrun & _).
      destruct (cleanup_events env (sent_file response) w2) as (cevs & Hc & Hall).
      rewrite Hrun in Hc |- *. cbn [snd] in *.
      exists (hevs ++ [EvResponseSent; EvThreadStart] ++ cevs). split_and!.
      * rewrite Hc. subst w2. cbn [add_events trace]. by rewrite Ht, <- !app_assoc.
      * rewrite !threads_started_app, (threads_started_none hevs Hno_thread).
        rewrite (threads_started_none cevs).
        -- by vm_compute.
        -- eapply Forall_impl; [exact Hall|]. by intros e [? _].
      * intros q [Hin|Hin]%elem_of_app; [by destruct (Hno_unlink q)|].
        split; [done|]. exists response. split; [done|].
        apply elem_of_cons in Hin as [?|Hin]; [done|].
        apply elem_of_cons in Hin as [?|Hin]; [done|].
        destruct (proj1 (Forall_forall _ _) Hall _ Hin) as (_ & _ & Hq).
        exact (Hq q eq_refl).
      * done.
    + exists (hevs ++ [EvResponseSent]). split_and!.
      * cbn [snd add_events trace]. by rewrite Ht, <- app_assoc.
      * rewrite threads_started_app, (threads_started_none hevs Hno_thread).
        by vm_compute.
      * intros q [Hin|Hin]%elem_of_app; [by destruct (Hno_unlink q)|].
        by apply list_elem_of_singleton in Hin.
      * done.
  - exists hevs. split_and!; [by destruct exc|by apply threads_started_none| |by destruct exc].
    intros q Hin. by destruct (Hno_unlink q).
Qed.

Lemma deleter_runs_only_on_close_witness :
  exists evs,
    trace (serve Samples.req_env (Some Samples.video_url) Samples.req_world).2
    = trace Samples.req_world ++ evs
    /\ threads_started evs = 0%nat
    /\ (forall q, EvUnlink q ∉ evs)
    /\ files (serve Samples.req_env (Some Samples.video_url) Samples.req_world).2
         Samples.clip = true.
Proof.
  destruct (deleter_runs_only_on_close Samples.req_env (Some Samples.video_url)
              Samples.req_world) as (evs & Ht & Hn & Hu & Hfiles).
  exists evs. split_and!; [exact Ht|exact Hn| |].
  - intros q Hin. destruct (Hu q Hin) as [Hcloses _]. discriminate Hcloses.
  - rewrite (Hfiles eq_refl). by vm_compute.
Defined.

End lifetime_facts.
